(** * sveltekit-tasks: the in-memory task manager

    A shallow embedding of [src/lib/server/manager.ts] (class [TaskManager])
    and of the state types of [shared/types.ts], followed by the properties
    the specification states about them and by further properties of the
    methods, read off the code.

    Modelling conventions.
    - JavaScript is single threaded and none of the manager's methods awaits:
      every method call, every [ctx.progress] call of a handler, every
      settlement of a handler promise and every timer callback runs to
      completion.  An execution of the program is a sequence of such atomic
      operations ([Op]); the handlers and the timers are the environment.
    - [Map]s that are never iterated are [gmap]s.  The [state] map is iterated
      ([getAllStates], [evictOldTasks]), so it is an insertion-ordered
      association list with the semantics of a JS [Map] ([OMap]).
    - [AbortController]s and timers are host objects the manager holds
      references to: a heap of aborted flags and a timer table, both indexed
      by allocation order.
    - [throw], [try]/[catch] and [finally] are modelled by a state monad with
      exceptions ([M]).
    - Subscriber callbacks are observers: a callback receives the event and
      returns or throws; it does not call back into the manager.
    - [number]s that count things (sizes, indices, generations) are [nat];
      timestamps, event ids and progress values are [Z]. *)

From stdpp Require Import base option list gmap strings fin_maps sorting.
From Stdlib Require Import ZArith Lia.

Open Scope string_scope.
Open Scope Z_scope.
Open Scope list_scope.

(** ** shared/types.ts *)

Inductive TaskStatus :=
  | pending | running | completed | error | canceled | timed_out.

#[global] Instance TaskStatus_eq_dec : EqDecision TaskStatus.
Proof. solve_decision. Defined.

Record TaskProgress := mkProgress {
  message : string;
  current : option Z;
  total : option Z;
}.

(** The discriminated union [TaskState]: one constructor per [status]. *)
Inductive TaskState :=
  | Pending (id : string)
  | Running (id : string) (progress : option TaskProgress)
  | Completed (id : string) (lastRun : Z)
  | Error (id : string) (lastRun : Z) (err : string)
  | Canceled (id : string) (lastRun : Z)
  | TimedOut (id : string) (lastRun : Z).

Definition status (s : TaskState) : TaskStatus :=
  match s with
  | Pending _ => pending
  | Running _ _ => running
  | Completed _ _ => completed
  | Error _ _ _ => error
  | Canceled _ _ => canceled
  | TimedOut _ _ => timed_out
  end.

(** [s.lastRun] where ["lastRun" in s]. *)
Definition lastRun (s : TaskState) : option Z :=
  match s with
  | Pending _ | Running _ _ => None
  | Completed _ t | Error _ t _ | Canceled _ t | TimedOut _ t => Some t
  end.

(** [state.id]. *)
Definition state_id (s : TaskState) : string :=
  match s with
  | Pending i | Running i _ | Completed i _ | Error i _ _ | Canceled i _ | TimedOut i _ => i
  end.

(** ** manager.ts: types *)

(** [TERMINAL_STATUSES.has(status)]. *)
Definition TERMINAL_STATUSES (st : TaskStatus) : bool :=
  match st with
  | completed | error | canceled | timed_out => true
  | pending | running => false
  end.

(** A handler is an opaque reference; what it does is the environment. *)
Definition TaskHandler := nat.

Record RegisteredTask := mkTask {
  task_id : string;
  handler : TaskHandler;
  timeout : option Z;
}.

Record TaskUpdateEvent := mkEvent {
  taskId : string;
  ev_state : TaskState;
  eventId : Z;
}.

(** A thrown JavaScript value: an [Error] with its message, or anything else. *)
Inductive JsValue :=
  | ErrorObject (msg : string)
  | OtherValue.

Inductive Result (A : Type) :=
  | Ok (a : A)
  | Throw (e : JsValue).
Arguments Ok {A} a.
Arguments Throw {A} e.

(** A member of the [subscribers] set.  [sub_ref] is the identity of the
    function object; [callback] is what calling it does. *)
Record Subscriber := mkSub {
  sub_ref : nat;
  callback : TaskUpdateEvent -> Result unit;
}.

(** A pending [setTimeout]: the closure of [start] captures [taskId] only. *)
Record Timer := mkTimer {
  timer_task : string;
  timer_delay : Z;
}.

Inductive ConsoleEntry :=
  | Warn (text : string)
  | ConsoleError (text : string) (e : JsValue).

(** ** Insertion-ordered maps (JS [Map]) *)

Module OMap.
Section omap.
Context {V : Type}.

Fixpoint get (k : string) (l : list (string * V)) : option V :=
  match l with
  | [] => None
  | (k', v) :: r => if decide (k' = k) then Some v else get k r
  end.

(** [Map.prototype.set]: an existing key keeps its position. *)
Fixpoint set (k : string) (v : V) (l : list (string * V)) : list (string * V) :=
  match l with
  | [] => [(k, v)]
  | (k', v') :: r =>
      if decide (k' = k) then (k, v) :: r else (k', v') :: set k v r
  end.

Fixpoint delete (k : string) (l : list (string * V)) : list (string * V) :=
  match l with
  | [] => []
  | (k', v') :: r =>
      if decide (k' = k) then delete k r else (k', v') :: delete k r
  end.

Definition keys (l : list (string * V)) : list string := l.*1.
Definition values (l : list (string * V)) : list V := l.*2.
End omap.
End OMap.

(** ** The manager *)

(** The private fields of the class, then the host objects they refer to and
    the two observation logs ([console], and [delivered]: every call
    [callback(event)] made, in order). *)
Record TaskManager := mkManager {
  tasks : gmap string RegisteredTask;
  state : list (string * TaskState);
  subscribers : list Subscriber;
  abortControllers : gmap string nat;
  runGeneration : gmap string nat;
  timeouts : gmap string nat;
  debug : bool;
  maxHistory : nat;
  eventBufferSize : nat;
  nextEventId : Z;
  eventBuffer : list TaskUpdateEvent;
  ringHead : nat;
  (* host *)
  controllers : list bool;
  timers : list (option Timer);
  console : list ConsoleEntry;
  delivered : list (nat * TaskUpdateEvent);
}.

Definition with_tasks f m :=
  mkManager (f (tasks m)) (state m) (subscribers m) (abortControllers m)
    (runGeneration m) (timeouts m) (debug m) (maxHistory m) (eventBufferSize m)
    (nextEventId m) (eventBuffer m) (ringHead m) (controllers m) (timers m)
    (console m) (delivered m).
Definition with_state f m :=
  mkManager (tasks m) (f (state m)) (subscribers m) (abortControllers m)
    (runGeneration m) (timeouts m) (debug m) (maxHistory m) (eventBufferSize m)
    (nextEventId m) (eventBuffer m) (ringHead m) (controllers m) (timers m)
    (console m) (delivered m).
Definition with_subscribers f m :=
  mkManager (tasks m) (state m) (f (subscribers m)) (abortControllers m)
    (runGeneration m) (timeouts m) (debug m) (maxHistory m) (eventBufferSize m)
    (nextEventId m) (eventBuffer m) (ringHead m) (controllers m) (timers m)
    (console m) (delivered m).
Definition with_abortControllers f m :=
  mkManager (tasks m) (state m) (subscribers m) (f (abortControllers m))
    (runGeneration m) (timeouts m) (debug m) (maxHistory m) (eventBufferSize m)
    (nextEventId m) (eventBuffer m) (ringHead m) (controllers m) (timers m)
    (console m) (delivered m).
Definition with_runGeneration f m :=
  mkManager (tasks m) (state m) (subscribers m) (abortControllers m)
    (f (runGeneration m)) (timeouts m) (debug m) (maxHistory m) (eventBufferSize m)
    (nextEventId m) (eventBuffer m) (ringHead m) (controllers m) (timers m)
    (console m) (delivered m).
Definition with_timeouts f m :=
  mkManager (tasks m) (state m) (subscribers m) (abortControllers m)
    (runGeneration m) (f (timeouts m)) (debug m) (maxHistory m) (eventBufferSize m)
    (nextEventId m) (eventBuffer m) (ringHead m) (controllers m) (timers m)
    (console m) (delivered m).
Definition with_nextEventId f m :=
  mkManager (tasks m) (state m) (subscribers m) (abortControllers m)
    (runGeneration m) (timeouts m) (debug m) (maxHistory m) (eventBufferSize m)
    (f (nextEventId m)) (eventBuffer m) (ringHead m) (controllers m) (timers m)
    (console m) (delivered m).
Definition with_eventBuffer f m :=
  mkManager (tasks m) (state m) (subscribers m) (abortControllers m)
    (runGeneration m) (timeouts m) (debug m) (maxHistory m) (eventBufferSize m)
    (nextEventId m) (f (eventBuffer m)) (ringHead m) (controllers m) (timers m)
    (console m) (delivered m).
Definition with_ringHead f m :=
  mkManager (tasks m) (state m) (subscribers m) (abortControllers m)
    (runGeneration m) (timeouts m) (debug m) (maxHistory m) (eventBufferSize m)
    (nextEventId m) (eventBuffer m) (f (ringHead m)) (controllers m) (timers m)
    (console m) (delivered m).
Definition with_controllers f m :=
  mkManager (tasks m) (state m) (subscribers m) (abortControllers m)
    (runGeneration m) (timeouts m) (debug m) (maxHistory m) (eventBufferSize m)
    (nextEventId m) (eventBuffer m) (ringHead m) (f (controllers m)) (timers m)
    (console m) (delivered m).
Definition with_timers f m :=
  mkManager (tasks m) (state m) (subscribers m) (abortControllers m)
    (runGeneration m) (timeouts m) (debug m) (maxHistory m) (eventBufferSize m)
    (nextEventId m) (eventBuffer m) (ringHead m) (controllers m) (f (timers m))
    (console m) (delivered m).
Definition with_console f m :=
  mkManager (tasks m) (state m) (subscribers m) (abortControllers m)
    (runGeneration m) (timeouts m) (debug m) (maxHistory m) (eventBufferSize m)
    (nextEventId m) (eventBuffer m) (ringHead m) (controllers m) (timers m)
    (f (console m)) (delivered m).
Definition with_delivered f m :=
  mkManager (tasks m) (state m) (subscribers m) (abortControllers m)
    (runGeneration m) (timeouts m) (debug m) (maxHistory m) (eventBufferSize m)
    (nextEventId m) (eventBuffer m) (ringHead m) (controllers m) (timers m)
    (console m) (f (delivered m)).

Record TaskManagerOptions := mkOptions {
  opt_debug : option bool;
  opt_maxHistory : option nat;
  opt_eventBufferSize : option nat;
}.

(** [constructor(options = {})]: fresh maps, a fresh host. *)
Definition new_TaskManager (options : TaskManagerOptions) : TaskManager :=
  {| tasks := ∅; state := []; subscribers := [];
     abortControllers := ∅; runGeneration := ∅; timeouts := ∅;
     debug := default false (opt_debug options);
     maxHistory := default 0%nat (opt_maxHistory options);
     eventBufferSize := default 0%nat (opt_eventBufferSize options);
     nextEventId := 1; eventBuffer := []; ringHead := 0%nat;
     controllers := []; timers := []; console := []; delivered := [] |}.

(** ** The effect monad: state and exceptions *)

Definition M (A : Type) : Type := TaskManager -> TaskManager * Result A.

Definition ret {A} (a : A) : M A := fun m => (m, Ok a).
Definition throw {A} (e : JsValue) : M A := fun m => (m, Throw e).
Definition bind {A B} (c : M A) (k : A -> M B) : M B :=
  fun m => match c m with
           | (m', Ok a) => k a m'
           | (m', Throw e) => (m', Throw e)
           end.
Definition gets {A} (f : TaskManager -> A) : M A := fun m => (m, Ok (f m)).
Definition modify (f : TaskManager -> TaskManager) : M unit :=
  fun m => (f m, Ok tt).

(** [try { body } catch (e) { handle e }]. *)
Definition try_catch {A} (body : M A) (handle : JsValue -> M A) : M A :=
  fun m => match body m with
           | (m', Ok a) => (m', Ok a)
           | (m', Throw e) => handle e m'
           end.

(** [try { body } finally { fin }]. *)
Definition try_finally {A} (body : M A) (fin : M unit) : M A :=
  fun m => match body m with
           | (m', r) => match fin m' with
                        | (m'', Ok _) => (m'', r)
                        | (m'', Throw e) => (m'', Throw e)
                        end
           end.

Notation "x <- c ;; k" := (bind c (fun x => k))
  (at level 100, c at next level, right associativity, only parsing).
Notation "'run' c ;; k" := (bind c (fun _ => k))
  (at level 100, c at next level, right associativity, only parsing).

(** [for (const x of l) body(x)]. *)
Fixpoint for_of {A} (l : list A) (body : A -> M unit) : M unit :=
  match l with
  | [] => ret tt
  | x :: r => run body x ;; for_of r body
  end.

Definition when (b : bool) (c : M unit) : M unit := if b then c else ret tt.

(** The state a computation ends in, and what it returns. *)
Definition exec {A} (c : M A) (m : TaskManager) : TaskManager := (c m).1.
Definition result {A} (c : M A) (m : TaskManager) : Result A := (c m).2.

(** ** Host primitives *)

(** [new AbortController()]: a fresh, not yet aborted controller. *)
Definition new_AbortController : M nat :=
  fun m => (with_controllers (fun h => h ++ [false]) m, Ok (length (controllers m))).

(** [controller.abort()]. *)
Definition abort (c : nat) : M unit :=
  modify (with_controllers (fun h => <[c := true]> h)).

(** [controller.signal.aborted]. *)
Definition aborted (c : nat) (m : TaskManager) : bool :=
  default false (controllers m !! c).

(** [setTimeout(callback, delay)]: the handle of the new pending timer. *)
Definition setTimeout (tm : Timer) : M nat :=
  fun m => (with_timers (fun t => t ++ [Some tm]) m, Ok (length (timers m))).

(** The host's [clearTimeout(handle)]. *)
Definition host_clearTimeout (t : nat) : M unit :=
  modify (with_timers (fun ts => <[t := None]> ts)).

Definition console_warn (text : string) : M unit :=
  modify (with_console (fun c => c ++ [Warn text])).

Definition console_error (text : string) (e : JsValue) : M unit :=
  modify (with_console (fun c => c ++ [ConsoleError text e])).

(** [callback(event)]: the call is recorded, its completion is the callback's. *)
Definition call (cb : Subscriber) (event : TaskUpdateEvent) : M unit :=
  fun m => (with_delivered (fun d => d ++ [(sub_ref cb, event)]) m, callback cb event).

Definition quote : string := String (Ascii.ascii_of_nat 34) EmptyString.

(** ** manager.ts: methods *)

(** [private clearTimeout(taskId)].  A timer handle is an object (Node) or a
    positive number (browsers), so [if (timeout)] holds whenever the entry
    exists. *)
Definition clearTimeout (taskId : string) : M unit :=
  timeout <- gets (fun m => timeouts m !! taskId) ;;
  match timeout with
  | Some t =>
      run host_clearTimeout t ;;
      modify (with_timeouts (delete taskId))
  | None => ret tt
  end.

(** The array [terminalTasks] built by the first loop of [evictOldTasks]. *)
Fixpoint terminalTasks (st : list (string * TaskState)) : list (string * Z) :=
  match st with
  | [] => []
  | (id, s) :: r =>
      if TERMINAL_STATUSES (status s)
      then match lastRun s with
           | Some t => (id, t) :: terminalTasks r
           | None => terminalTasks r
           end
      else terminalTasks r
  end.

(** [terminalTasks.sort((a, b) => a.lastRun - b.lastRun)].  [Array.prototype.sort]
    is stable; a stable insertion sort yields the same array. *)
Fixpoint sort_insert (a : string * Z) (l : list (string * Z)) : list (string * Z) :=
  match l with
  | [] => [a]
  | b :: r => if a.2 <=? b.2 then a :: b :: r else b :: sort_insert a r
  end.

Fixpoint sort_by_lastRun (l : list (string * Z)) : list (string * Z) :=
  match l with
  | [] => []
  | a :: r => sort_insert a (sort_by_lastRun r)
  end.

(** The body of the last loop of [evictOldTasks]. *)
Definition evict_one (id : string) (m : TaskManager) : TaskManager :=
  with_timeouts (delete id)
    (with_runGeneration (delete id)
       (with_abortControllers (delete id)
          (with_state (OMap.delete id)
             (with_tasks (delete id) m)))).

Definition evictOldTasks : M unit :=
  maxH <- gets maxHistory ;;
  if (maxH =? 0)%nat then ret tt else
  st <- gets state ;;
  let terminal := terminalTasks st in
  if (length terminal <=? maxH)%nat then ret tt else
  let sorted := sort_by_lastRun terminal in
  let toEvict := take (length terminal - maxH) sorted in
  for_of toEvict (fun e => modify (evict_one e.1)).

(** The guard of [setState]: the stored state is externally terminated and the
    proposed status is neither the same nor ["running"]. *)
Definition rejects (cur : TaskState) (newState : TaskState) : bool :=
  (bool_decide (status cur = canceled) || bool_decide (status cur = timed_out))
  && negb (bool_decide (status newState = status cur))
  && negb (bool_decide (status newState = running)).

(** The replay-buffer update of [setState].  The overwrite index is within the
    array in every state the class reaches (see [ring_inv]); where JS would
    extend the array, the model leaves it unchanged. *)
Definition buffer_event (event : TaskUpdateEvent) : M unit :=
  size <- gets eventBufferSize ;;
  if (0 <? size)%nat then
    len <- gets (fun m => length (eventBuffer m)) ;;
    if (len <? size)%nat then
      modify (with_eventBuffer (fun b => b ++ [event]))
    else
      h <- gets ringHead ;;
      run modify (with_eventBuffer (fun b => <[h := event]> b)) ;;
      modify (with_ringHead (fun _ => ((h + 1) mod size)%nat))
  else ret tt.

(** The subscriber loop of [setState]. *)
Definition notify (event : TaskUpdateEvent) : M unit :=
  subs <- gets subscribers ;;
  for_of subs (fun cb =>
    try_catch (call cb event)
              (fun e => console_error "Error in task subscriber:" e)).

Definition setState (taskId : string) (newState : TaskState) : M unit :=
  cur <- gets (fun m => OMap.get taskId (state m)) ;;
  match cur with
  | None => ret tt
  | Some cur =>
      if rejects cur newState then ret tt else
      run modify (with_state (OMap.set taskId newState)) ;;
      eventId <- gets nextEventId ;;
      run modify (with_nextEventId (fun n => n + 1)) ;;
      let event := mkEvent taskId newState eventId in
      run buffer_event event ;;
      run notify event ;;
      if TERMINAL_STATUSES (status newState) then evictOldTasks else ret tt
  end.

Record TaskRegisterOptions := mkRegisterOptions {
  opt_timeout : option Z;
}.

Definition register (taskId : string) (h : TaskHandler)
    (options : option TaskRegisterOptions) : M unit :=
  has <- gets (fun m => bool_decide (is_Some (tasks m !! taskId))) ;;
  if has then
    throw (ErrorObject ("Task " +:+ quote +:+ taskId +:+ quote +:+ " is already registered"))
  else
    run modify (with_tasks (<[taskId := mkTask taskId h (options ≫= opt_timeout)]>)) ;;
    modify (with_state (OMap.set taskId (Pending taskId))).

(** What [start] hands to the handler: the closure environment of [ctx] and
    [isStale] (the task id, the generation and the controller of this run). *)
Record Run := mkRun {
  run_task : string;
  run_generation : nat;
  run_controller : nat;
}.

(** [isStale()] of a run. *)
Definition isStale (r : Run) (m : TaskManager) : bool :=
  bool_decide (runGeneration m !! run_task r ≠ Some (run_generation r)).

(** [ctx.isCanceled()] of a run. *)
Definition isCanceled (r : Run) (m : TaskManager) : bool :=
  aborted (run_controller r) m.

Definition status_of (s : option TaskState) : option TaskStatus := status <$> s.

(** [if (task.timeout)]: defined and not zero. *)
Definition truthy (t : option Z) : bool :=
  match t with Some d => negb (d =? 0) | None => false end.

(** [start(taskId)], up to the call of the handler.  It returns the run it
    launched, if any. *)
Definition start (taskId : string) : M (option Run) :=
  task <- gets (fun m => tasks m !! taskId) ;;
  currentState <- gets (fun m => OMap.get taskId (state m)) ;;
  match task, currentState with
  | Some task, Some currentState =>
      if bool_decide (status currentState = running) then
        dbg <- gets debug ;;
        run when dbg (console_warn ("Task " +:+ quote +:+ taskId +:+ quote +:+ " is already running")) ;;
        ret None
      else
        abortController <- new_AbortController ;;
        run modify (with_abortControllers (<[taskId := abortController]>)) ;;
        generation <- gets (fun m => (default 0 (runGeneration m !! taskId) + 1)%nat) ;;
        run modify (with_runGeneration (<[taskId := generation]>)) ;;
        run clearTimeout taskId ;;
        run setState taskId
              (Running taskId (Some (mkProgress "Starting..." None None))) ;;
        run (if truthy (timeout task) then
               timeoutId <- setTimeout (mkTimer taskId (default 0 (timeout task))) ;;
               modify (with_timeouts (<[taskId := timeoutId]>))
             else ret tt) ;;
        ret (Some (mkRun taskId generation abortController))
  | _, _ =>
      dbg <- gets debug ;;
      run when dbg (console_warn ("Task " +:+ quote +:+ taskId +:+ quote +:+ " not found")) ;;
      ret None
  end.

(** The callback [start] passes to [setTimeout]. *)
Definition timeout_callback (taskId : string) (now : Z) : M unit :=
  st <- gets (fun m => OMap.get taskId (state m)) ;;
  if negb (bool_decide (status_of st = Some running)) then ret tt else
  controller <- gets (fun m => abortControllers m !! taskId) ;;
  run (match controller with Some c => abort c | None => ret tt end) ;;
  run modify (with_abortControllers (delete taskId)) ;;
  run modify (with_timeouts (delete taskId)) ;;
  setState taskId (TimedOut taskId now).

(** The host fires timer [t]: a pending timer runs its callback once. *)
Definition fire_timer (t : nat) (now : Z) : M unit :=
  entry <- gets (fun m => timers m !! t) ;;
  match entry with
  | Some (Some tm) =>
      run modify (with_timers (fun ts => <[t := None]> ts)) ;;
      timeout_callback (timer_task tm) now
  | _ => ret tt
  end.

(** [ctx.progress(message, current, total)] of a run. *)
Definition ctx_progress (r : Run) (msg : string) (cur tot : option Z) : M unit :=
  stale <- gets (isStale r) ;;
  if stale then ret tt else
  st <- gets (fun m => OMap.get (run_task r) (state m)) ;;
  if negb (bool_decide (status_of st = Some running)) then ret tt else
  setState (run_task r) (Running (run_task r) (Some (mkProgress msg cur tot))).

(** [runTask] from the point where [await task.handler(ctx)] settles with
    [outcome]: the rest of the [try] block, the [catch] and the [finally]. *)
Definition runTask (r : Run) (outcome : Result unit) (now : Z) : M unit :=
  let taskId := run_task r in
  try_finally
    (try_catch
       (run (match outcome with Ok _ => ret tt | Throw e => throw e end) ;;
        c <- gets (isCanceled r) ;;
        s <- gets (isStale r) ;;
        if negb c && negb s then setState taskId (Completed taskId now)
        else ret tt)
       (fun e =>
          c <- gets (isCanceled r) ;;
          s <- gets (isStale r) ;;
          if negb c && negb s then
            run console_error ("Task " +:+ quote +:+ taskId +:+ quote +:+ " failed:") e ;;
            setState taskId
              (Error taskId now
                 (match e with ErrorObject msg => msg | OtherValue => "Unknown error" end))
          else ret tt))
    (s <- gets (isStale r) ;;
     if negb s then
       run modify (with_abortControllers (delete taskId)) ;;
       clearTimeout taskId
     else ret tt).

Definition cancel (taskId : string) (now : Z) : M unit :=
  controller <- gets (fun m => abortControllers m !! taskId) ;;
  match controller with
  | None => ret tt
  | Some c =>
      run abort c ;;
      run modify (with_abortControllers (delete taskId)) ;;
      run clearTimeout taskId ;;
      setState taskId (Canceled taskId now)
  end.

Definition getState (taskId : string) (m : TaskManager) : option TaskState :=
  OMap.get taskId (state m).

Definition getAllStates (m : TaskManager) : list TaskState :=
  OMap.values (state m).

(** [subscribe(callback)]: [Set.prototype.add] ignores a member already there. *)
Definition subscribe (cb : Subscriber) : M unit :=
  modify (with_subscribers (fun s =>
    if bool_decide (sub_ref cb ∈ sub_ref <$> s) then s else s ++ [cb])).

(** The function [subscribe] returns. *)
Definition unsubscribe (ref : nat) : M unit :=
  modify (with_subscribers (filter (fun s => sub_ref s ≠ ref))).

Definition getCurrentEventId (m : TaskManager) : Z := nextEventId m - 1.

(** The loop of [getEventsSince]. *)
Definition events_loop (buf : list TaskUpdateEvent) (oldestIdx : nat)
    (lastEventId : Z) : list TaskUpdateEvent :=
  foldl (fun result i =>
           match buf !! ((oldestIdx + i) mod length buf)%nat with
           | Some event =>
               if lastEventId <? eventId event then result ++ [event] else result
           | None => result
           end)
        [] (seq 0 (length buf)).

(** [getEventsSince(lastEventId)]; [None] is [undefined].  Reading
    [oldest.eventId] of a missing array element is a [TypeError]. *)
Definition getEventsSince (lastEventId : Z) : M (option (list TaskUpdateEvent)) :=
  size <- gets eventBufferSize ;;
  if (size =? 0)%nat then ret None else
  buf <- gets eventBuffer ;;
  if (length buf =? 0)%nat then ret (Some []) else
  h <- gets ringHead ;;
  let len := length buf in
  let oldestIdx := if (len <? size)%nat then 0%nat else h in
  match buf !! oldestIdx with
  | None => throw (ErrorObject "Cannot read properties of undefined")
  | Some oldest =>
      if lastEventId <? eventId oldest - 1 then ret None
      else ret (Some (events_loop buf oldestIdx lastEventId))
  end.

(** The messages of the event stream, [TaskSSEMessage]. *)
Inductive TaskSSEMessage :=
  | InitMessage (task : TaskState)
  | UpdateMessage (taskId : string) (st : TaskState).

(** The [start] callback of the stream that [createSSEHandler] builds, up to
    the subscription: the frames enqueued when a client connects, each with
    the number of its [id:] field.  [lastEventId] is [None] when the client
    sent no id or one that is not a number. *)
Definition sse_start (lastEventId : option Z) : M (list (Z * TaskSSEMessage)) :=
  replayed <-
    match lastEventId with
    | Some lastId =>
        buffered <- getEventsSince lastId ;;
        match buffered with
        | Some evts =>
            ret (Some ((fun evt =>
                          (eventId evt, UpdateMessage (taskId evt) (ev_state evt)))
                       <$> evts))
        | None => ret None
        end
    | None => ret None
    end ;;
  match replayed with
  | Some frames => ret frames
  | None =>
      currentEventId <- gets getCurrentEventId ;;
      all <- gets getAllStates ;;
      ret ((fun task => (currentEventId, InitMessage task)) <$> all)
  end.


(** [[Symbol.dispose]()]. *)
Definition dispose : M unit :=
  run modify (with_subscribers (fun _ => [])) ;;
  cs <- gets (fun m => (map_to_list (abortControllers m)).*2) ;;
  run for_of cs abort ;;
  run modify (with_abortControllers (fun _ => ∅)) ;;
  ts <- gets (fun m => (map_to_list (timeouts m)).*2) ;;
  run for_of ts host_clearTimeout ;;
  run modify (with_timeouts (fun _ => ∅)) ;;
  run modify (with_tasks (fun _ => ∅)) ;;
  run modify (with_state (fun _ => [])) ;;
  run modify (with_runGeneration (fun _ => ∅)) ;;
  run modify (with_eventBuffer (fun _ => [])) ;;
  modify (with_ringHead (fun _ => 0%nat)).

(** ** Executions *)

(** One atomic operation: a call of a public method by the application, a
    call of [ctx.progress] by the handler of the [k]-th launched run, the
    settlement of that handler's promise, or the host firing a timer. *)
Inductive Op :=
  | Register (taskId : string) (h : TaskHandler) (options : option TaskRegisterOptions)
  | Start (taskId : string)
  | Cancel (taskId : string) (now : Z)
  | Progress (k : nat) (msg : string) (cur tot : option Z)
  | Settle (k : nat) (outcome : Result unit) (now : Z)
  | Fire (t : nat) (now : Z)
  | Subscribe (cb : Subscriber)
  | Unsubscribe (ref : nat)
  | Dispose.

(** The manager together with the runs launched so far, in launch order; the
    flag tells whether the handler's promise has settled (it does so once). *)
Record System := mkSystem {
  manager : TaskManager;
  runs : list (Run * bool);
}.

Definition step (op : Op) (s : System) : System :=
  let m := manager s in
  match op with
  | Register taskId h options => mkSystem (exec (register taskId h options) m) (runs s)
  | Start taskId =>
      match start taskId m with
      | (m', Ok (Some r)) => mkSystem m' (runs s ++ [(r, false)])
      | (m', _) => mkSystem m' (runs s)
      end
  | Cancel taskId now => mkSystem (exec (cancel taskId now) m) (runs s)
  | Progress k msg cur tot =>
      match runs s !! k with
      | Some (r, _) => mkSystem (exec (ctx_progress r msg cur tot) m) (runs s)
      | None => s
      end
  | Settle k outcome now =>
      match runs s !! k with
      | Some (r, false) =>
          mkSystem (exec (runTask r outcome now) m) (<[k := (r, true)]> (runs s))
      | _ => s
      end
  | Fire t now => mkSystem (exec (fire_timer t now) m) (runs s)
  | Subscribe cb => mkSystem (exec (subscribe cb) m) (runs s)
  | Unsubscribe ref => mkSystem (exec (unsubscribe ref) m) (runs s)
  | Dispose => mkSystem (exec dispose m) (runs s)
  end.

Definition run_ops (ops : list Op) (s : System) : System :=
  foldl (fun s op => step op s) s ops.

Definition boot (options : TaskManagerOptions) : System :=
  mkSystem (new_TaskManager options) [].

(** * Closed forms, invariants and scenarios *)

(** ** The effect of each method as a function of the state *)

Ltac munfold :=
  unfold bind, gets, modify, ret, throw, when, try_catch, try_finally in *.

(** What the subscriber loop appends to [delivered] and to [console]. *)
Definition deliveries (subs : list Subscriber) (event : TaskUpdateEvent) :
    list (nat * TaskUpdateEvent) :=
  (fun cb => (sub_ref cb, event)) <$> subs.

Fixpoint subscriber_errors (subs : list Subscriber) (event : TaskUpdateEvent) :
    list ConsoleEntry :=
  match subs with
  | [] => []
  | cb :: r =>
      match callback cb event with
      | Ok _ => subscriber_errors r event
      | Throw e => ConsoleError "Error in task subscriber:" e :: subscriber_errors r event
      end
  end.

Definition notify_st (event : TaskUpdateEvent) (m : TaskManager) : TaskManager :=
  with_console (fun c => c ++ subscriber_errors (subscribers m) event)
    (with_delivered (fun d => d ++ deliveries (subscribers m) event) m).

Definition buffer_st (event : TaskUpdateEvent) (m : TaskManager) : TaskManager :=
  if (0 <? eventBufferSize m)%nat then
    if (length (eventBuffer m) <? eventBufferSize m)%nat then
      with_eventBuffer (fun b => b ++ [event]) m
    else
      with_ringHead (fun _ => ((ringHead m + 1) mod eventBufferSize m)%nat)
        (with_eventBuffer (fun b => <[ringHead m := event]> b) m)
  else m.

(** The slice [toEvict] of [evictOldTasks] ([[]] where the method returns early). *)
Definition toEvict (m : TaskManager) : list (string * Z) :=
  if (maxHistory m =? 0)%nat then [] else
  let terminal := terminalTasks (state m) in
  if (length terminal <=? maxHistory m)%nat then [] else
  take (length terminal - maxHistory m) (sort_by_lastRun terminal).

Definition evict_all (ids : list string) (m : TaskManager) : TaskManager :=
  foldl (fun m id => evict_one id m) m ids.

Definition evict_st (m : TaskManager) : TaskManager :=
  evict_all (toEvict m).*1 m.

(** An accepted transition up to the subscriber loop. *)
Definition commit_st (taskId : string) (newState : TaskState) (m : TaskManager) :
    TaskManager :=
  let event := mkEvent taskId newState (nextEventId m) in
  notify_st event
    (buffer_st event
       (with_nextEventId (fun n => n + 1)
          (with_state (OMap.set taskId newState) m))).

Definition setState_st (taskId : string) (newState : TaskState) (m : TaskManager) :
    TaskManager :=
  match OMap.get taskId (state m) with
  | None => m
  | Some cur =>
      if rejects cur newState then m else
      let m' := commit_st taskId newState m in
      if TERMINAL_STATUSES (status newState) then evict_st m' else m'
  end.

Definition clearTimeout_st (taskId : string) (m : TaskManager) : TaskManager :=
  match timeouts m !! taskId with
  | Some t => with_timeouts (delete taskId) (with_timers (fun ts => <[t := None]> ts) m)
  | None => m
  end.

Definition cancel_st (taskId : string) (now : Z) (m : TaskManager) : TaskManager :=
  match abortControllers m !! taskId with
  | None => m
  | Some c =>
      setState_st taskId (Canceled taskId now)
        (clearTimeout_st taskId
           (with_abortControllers (delete taskId)
              (with_controllers (fun h => <[c := true]> h) m)))
  end.

Definition timeout_callback_st (taskId : string) (now : Z) (m : TaskManager) :
    TaskManager :=
  if negb (bool_decide (status_of (OMap.get taskId (state m)) = Some running)) then m
  else
    setState_st taskId (TimedOut taskId now)
      (with_timeouts (delete taskId)
         (with_abortControllers (delete taskId)
            (match abortControllers m !! taskId with
             | Some c => with_controllers (fun h => <[c := true]> h) m
             | None => m
             end))).

Definition fire_timer_st (t : nat) (now : Z) (m : TaskManager) : TaskManager :=
  match timers m !! t with
  | Some (Some tm) =>
      timeout_callback_st (timer_task tm) now (with_timers (fun ts => <[t := None]> ts) m)
  | _ => m
  end.

Definition ctx_progress_st (r : Run) (msg : string) (cur tot : option Z)
    (m : TaskManager) : TaskManager :=
  if isStale r m then m else
  if negb (bool_decide (status_of (OMap.get (run_task r) (state m)) = Some running))
  then m
  else setState_st (run_task r) (Running (run_task r) (Some (mkProgress msg cur tot))) m.

(** The message [runTask] stores for a rejected handler. *)
Definition error_message (e : JsValue) : string :=
  match e with ErrorObject msg => msg | OtherValue => "Unknown error" end.

Definition runTask_st (r : Run) (outcome : Result unit) (now : Z) (m : TaskManager) :
    TaskManager :=
  let taskId := run_task r in
  let m1 :=
    if negb (isCanceled r m) && negb (isStale r m) then
      match outcome with
      | Ok _ => setState_st taskId (Completed taskId now) m
      | Throw e =>
          setState_st taskId (Error taskId now (error_message e))
            (with_console
               (fun c => c ++ [ConsoleError ("Task " +:+ quote +:+ taskId +:+ quote +:+ " failed:") e])
               m)
      end
    else m in
  if negb (isStale r m1)
  then clearTimeout_st taskId (with_abortControllers (delete taskId) m1)
  else m1.

(** The part of [start] that runs when the task exists and is not running. *)
Definition launch_st (taskId : string) (task : RegisteredTask) (m : TaskManager) :
    TaskManager :=
  let c := length (controllers m) in
  let g := (default 0 (runGeneration m !! taskId) + 1)%nat in
  let m1 :=
    setState_st taskId (Running taskId (Some (mkProgress "Starting..." None None)))
      (clearTimeout_st taskId
         (with_runGeneration (<[taskId := g]>)
            (with_abortControllers (<[taskId := c]>)
               (with_controllers (fun h => h ++ [false]) m)))) in
  if truthy (timeout task) then
    with_timeouts (<[taskId := length (timers m1)]>)
      (with_timers (fun t => t ++ [Some (mkTimer taskId (default 0 (timeout task)))]) m1)
  else m1.

Definition launched (taskId : string) (m : TaskManager) : Run :=
  mkRun taskId (default 0 (runGeneration m !! taskId) + 1)%nat (length (controllers m)).

Definition warn_st (text : string) (m : TaskManager) : TaskManager :=
  if debug m then with_console (fun c => c ++ [Warn text]) m else m.

Definition start_st (taskId : string) (m : TaskManager) : TaskManager * option Run :=
  match tasks m !! taskId, OMap.get taskId (state m) with
  | Some task, Some currentState =>
      if bool_decide (status currentState = running) then
        (warn_st ("Task " +:+ quote +:+ taskId +:+ quote +:+ " is already running") m, None)
      else (launch_st taskId task m, Some (launched taskId m))
  | _, _ => (warn_st ("Task " +:+ quote +:+ taskId +:+ quote +:+ " not found") m, None)
  end.

Definition register_st (taskId : string) (h : TaskHandler)
    (options : option TaskRegisterOptions) (m : TaskManager) : TaskManager :=
  if bool_decide (is_Some (tasks m !! taskId)) then m
  else with_state (OMap.set taskId (Pending taskId))
         (with_tasks (<[taskId := mkTask taskId h (options ≫= opt_timeout)]>) m).

Definition abort_all (cs : list nat) (m : TaskManager) : TaskManager :=
  foldl (fun m c => with_controllers (fun h => <[c := true]> h) m) m cs.

Definition clear_all (ts : list nat) (m : TaskManager) : TaskManager :=
  foldl (fun m t => with_timers (fun ts => <[t := None]> ts) m) m ts.

Definition dispose_st (m : TaskManager) : TaskManager :=
  let m1 := abort_all (map_to_list (abortControllers m)).*2
              (with_subscribers (fun _ => []) m) in
  let m2 := clear_all (map_to_list (timeouts m)).*2
              (with_abortControllers (fun _ => ∅) m1) in
  with_ringHead (fun _ => 0%nat)
    (with_eventBuffer (fun _ => [])
       (with_runGeneration (fun _ => ∅)
          (with_state (fun _ => [])
             (with_tasks (fun _ => ∅)
                (with_timeouts (fun _ => ∅) m2))))).

(** ** Frame properties of eviction and of an accepted transition *)

(** The ids [setState] evicts after an accepted transition. *)
Definition evicted_by (taskId : string) (newState : TaskState) (m : TaskManager) :
    list string :=
  if TERMINAL_STATUSES (status newState)
  then (toEvict (commit_st taskId newState m)).*1 else [].

Definition accepts (taskId : string) (newState : TaskState) (m : TaskManager) : bool :=
  match OMap.get taskId (state m) with
  | None => false
  | Some cur => negb (rejects cur newState)
  end.

(** ** The eviction policy *)

Definition older (a b : string * Z) : Prop := a.2 <= b.2.

(** The number of tasks in a terminal status. *)
Definition terminal_count (st : list (string * TaskState)) : nat :=
  length (filter (fun p => TERMINAL_STATUSES (status p.2) = true) st).

(** ** The replay buffer as a ring *)

(** The buffered events from the oldest to the newest: the array read from
    [ringHead] on, wrapping around. *)
Definition ring_view (m : TaskManager) : list TaskUpdateEvent :=
  drop (ringHead m) (eventBuffer m) ++ take (ringHead m) (eventBuffer m).

Record ring_inv (m : TaskManager) : Prop := {
  ring_len : (length (eventBuffer m) <= eventBufferSize m)%nat;
  ring_head :
    ringHead m = 0%nat \/
    (length (eventBuffer m) = eventBufferSize m /\ (ringHead m < eventBufferSize m)%nat);
  ring_ids : forall i e, ring_view m !! i = Some e ->
    eventId e = nextEventId m - Z.of_nat (length (eventBuffer m)) + Z.of_nat i;
}.

(** ** What subscribers have been handed *)

(** The event ids handed to subscriber [ref], in the order of the calls. *)
Definition ids_to (ref : nat) (d : list (nat * TaskUpdateEvent)) : list Z :=
  (fun p => eventId p.2) <$> filter (fun p => p.1 = ref) d.

Definition ids_of (d : list (nat * TaskUpdateEvent)) : list Z :=
  (fun p => eventId p.2) <$> d.

Record deliv_inv (m : TaskManager) : Prop := {
  deliv_subs : NoDup (sub_ref <$> subscribers m);
  deliv_past : Forall (fun p => eventId p.2 < nextEventId m) (delivered m);
  deliv_each : forall ref, StronglySorted Z.lt (ids_to ref (delivered m));
  deliv_all : StronglySorted Z.le (ids_of (delivered m));
}.

(** ** Invariants of the manager *)

Definition sync_inv (m : TaskManager) : Prop :=
  forall id, is_Some (tasks m !! id) <-> is_Some (getState id m).

Definition term_inv (m : TaskManager) : Prop :=
  maxHistory m ≠ 0%nat -> (terminal_count (state m) <= maxHistory m)%nat.

(** A stored cancellation token belongs to a task that is running. *)
Definition ctl_inv (m : TaskManager) : Prop :=
  forall id c, abortControllers m !! id = Some c ->
    status_of (getState id m) = Some running.

Record Inv (m : TaskManager) : Prop := {
  inv_nodup : NoDup (OMap.keys (state m));
  inv_sync : sync_inv m;
  inv_ctl : ctl_inv m;
  inv_term : term_inv m;
  inv_ring : ring_inv m;
  inv_deliv : deliv_inv m;
}.

(** The part of the invariant that every single [setState] keeps. *)
Record Inv0 (m : TaskManager) : Prop := {
  inv0_nodup : NoDup (OMap.keys (state m));
  inv0_sync : sync_inv m;
  inv0_term : term_inv m;
  inv0_ring : ring_inv m;
  inv0_deliv : deliv_inv m;
}.

(** [Inv0] reads these fields only. *)
Definition same_core (m m' : TaskManager) : Prop :=
  tasks m' = tasks m /\ state m' = state m /\ subscribers m' = subscribers m /\
  nextEventId m' = nextEventId m /\ eventBuffer m' = eventBuffer m /\
  ringHead m' = ringHead m /\ delivered m' = delivered m /\
  maxHistory m' = maxHistory m /\ eventBufferSize m' = eventBufferSize m.

(** ** The transition guard and the missing-entry guard of [setState] *)

Definition canceled_job : TaskManager :=
  with_state (fun _ => [("job", Canceled "job" 10)])
    (new_TaskManager (mkOptions None None None)).

(** ** Subscribers that throw *)

(** The manager with every subscriber replaced by one that returns normally. *)
Definition silence (m : TaskManager) : TaskManager :=
  with_subscribers (fmap (fun cb => mkSub (sub_ref cb) (fun _ => Ok tt))) m.

(** Everything in the manager but the subscriber functions and the console. *)
Definition engine (m : TaskManager) :=
  (tasks m, state m, sub_ref <$> subscribers m, abortControllers m,
   runGeneration m, timeouts m, nextEventId m, eventBuffer m, ringHead m,
   controllers m, timers m, delivered m).

Definition thrower : Subscriber := mkSub 1 (fun _ => Throw (ErrorObject "boom")).
Definition listener : Subscriber := mkSub 2 (fun _ => Ok tt).

Definition pending_job : TaskManager :=
  with_subscribers (fun _ => [thrower; listener])
    (with_state (fun _ => [("job", Pending "job")])
       (new_TaskManager (mkOptions None None None))).

(** ** Event ids *)


Definition listener_trace : list Op := [Subscribe listener; Register "a" 0%nat None].
Definition no_options : TaskManagerOptions := mkOptions None None None.

(** ** Replay *)

(** The oldest buffered event: the one with the least id. *)
Definition is_oldest (m : TaskManager) (e : TaskUpdateEvent) : Prop :=
  e ∈ eventBuffer m /\ forall e', e' ∈ eventBuffer m -> eventId e <= eventId e'.

(** The full snapshot and the replay frames of the event stream. *)
Definition init_dump (m : TaskManager) : list (Z * TaskSSEMessage) :=
  (fun task => (getCurrentEventId m, InitMessage task)) <$> getAllStates m.

Definition update_frames (evts : list TaskUpdateEvent) : list (Z * TaskSSEMessage) :=
  (fun evt => (eventId evt, UpdateMessage (taskId evt) (ev_state evt))) <$> evts.

(** A run with a replay buffer of two events that has emitted three. *)
Definition replay_options : TaskManagerOptions := mkOptions None None (Some 2%nat).
Definition replay_trace : list Op :=
  [Register "a" 0%nat None; Start "a"; Progress 0 "half" (Some 1) (Some 2);
   Settle 0 (Ok tt) 100].
Definition half_event : TaskUpdateEvent :=
  mkEvent "a" (Running "a" (Some (mkProgress "half" (Some 1) (Some 2)))) 2.
Definition done_event : TaskUpdateEvent := mkEvent "a" (Completed "a" 100) 3.

(** ** History eviction *)

(** [s] was last run no later than [s']. *)
Definition lastRun_le (s s' : TaskState) : Prop :=
  match lastRun s, lastRun s' with
  | Some t, Some t' => t <= t'
  | _, _ => False
  end.

(** Two tasks, room for one terminal task: ["B"] completed at time 5, ["A"]
    is running. *)
Definition evict_options : TaskManagerOptions := mkOptions None (Some 1%nat) None.
Definition evict_trace : list Op :=
  [Register "A" 0%nat None; Register "B" 0%nat None; Start "A"; Start "B";
   Settle 1 (Ok tt) 5].

(** With room for one terminal task, ["A"] (registered first, with a
    timeout) completes in the same millisecond as ["B"] did: ["A"] is
    evicted by its own completion.  Its entry in the timer map is gone, but
    the host timer was not cleared and is still pending. *)
Definition leak_trace : list Op :=
  [Register "A" 0%nat (Some (mkRegisterOptions (Some 1000)));
   Register "B" 0%nat None; Start "A"; Start "B";
   Settle 1 (Ok tt) 5; Settle 0 (Ok tt) 5].

(** ** Timeouts *)

(** The task is neither running nor timed out (or is not there at all). *)
Definition settled (taskId : string) (m : TaskManager) : Prop :=
  status_of (getState taskId m) ≠ Some running /\
  status_of (getState taskId m) ≠ Some timed_out.

(** Every stored token refers to a controller that exists. *)
Definition valid_inv (m : TaskManager) : Prop :=
  forall id c, abortControllers m !! id = Some c -> (c < length (controllers m))%nat.

(** A task with a timeout of one second that is started and completes. *)
Definition timeout_trace : list Op :=
  [Register "A" 0%nat (Some (mkRegisterOptions (Some 1000))); Start "A"].
Definition completed_trace : list Op := timeout_trace ++ [Settle 0 (Ok tt) 50].

Definition dangling_timer : TaskManager :=
  with_timers (fun _ => [Some (mkTimer "A" 1000)])
    (new_TaskManager (mkOptions None None None)).

(** ** Cancellation *)

(** An aborted controller stays aborted. *)
Definition flags_le (h h' : list bool) : Prop :=
  forall c, default false (h !! c) = true -> default false (h' !! c) = true.

(** The claim as the specification words it: after [cancel] on a task with
    an active token, the task is in [canceled] state. *)
Definition cancel_leaves_canceled (m : TaskManager) (taskId : string) (now : Z) : Prop :=
  is_Some (abortControllers m !! taskId) ->
  getState taskId (exec (cancel taskId now) m) = Some (Canceled taskId now).

(** A running task is canceled, restarted and only then the first handler
    fails. *)
Definition cancel_trace : list Op := [Register "A" 0%nat None; Start "A"].

(** ** Generations and stale runs *)




(** One task, no eviction: started, reporting progress, canceled, started
    again; the second run reports progress and completes. *)
Definition restart_s0 : System := run_ops [Register "A" 0%nat None] (boot no_options).

(** ** One operation, at most one transition *)

(** Between [m] and [m'] no state was written and nothing was emitted. *)
Definition calm (m m' : TaskManager) : Prop :=
  subscribers m' = subscribers m /\ debug m' = debug m /\
  maxHistory m' = maxHistory m /\ eventBufferSize m' = eventBufferSize m /\
  state m' = state m /\ nextEventId m' = nextEventId m /\ delivered m' = delivered m.

(** Between [m] and [m'] at most one transition was made: the state of a
    task that had one was replaced by a state that carries the task's id and
    is not [pending], the event took the next id and was handed to the
    subscribers, and tasks were evicted (none when eviction is disabled). *)
Definition transition (m m' : TaskManager) : Prop :=
  calm m m' \/
  subscribers m' = subscribers m /\ debug m' = debug m /\
  maxHistory m' = maxHistory m /\ eventBufferSize m' = eventBufferSize m /\
  exists id ns ids,
    is_Some (OMap.get id (state m)) /\ state_id ns = id /\ status ns ≠ pending /\
    (maxHistory m = 0%nat -> ids = []) /\
    state m' = foldl (fun st id => OMap.delete id st) (OMap.set id ns (state m)) ids /\
    nextEventId m' = nextEventId m + 1 /\
    delivered m' = delivered m ++ deliveries (subscribers m) (mkEvent id ns (nextEventId m)).

(** At most one event was emitted between [m] and [m']: it took the next id
    and was handed to the subscribers of [m]. *)
Definition emits (m m' : TaskManager) : Prop :=
  subscribers m' = subscribers m /\
  (nextEventId m' = nextEventId m /\ delivered m' = delivered m \/
   exists e, eventId e = nextEventId m /\ nextEventId m' = nextEventId m + 1 /\
     delivered m' = delivered m ++ deliveries (subscribers m) e).

(** The operations of the application on the subscriber set. *)
Definition changes_subscribers (op : Op) : bool :=
  match op with
  | Subscribe _ | Unsubscribe _ | Dispose => true
  | _ => false
  end.

Definition is_register (op : Op) : bool :=
  match op with Register _ _ _ => true | _ => false end.

(** ** Subscribers *)


(** [op] does not subscribe [ref]. *)
Definition leaves_out (ref : nat) (op : Op) : bool :=
  match op with
  | Subscribe cb => negb (bool_decide (sub_ref cb = ref))
  | _ => true
  end.

(** [listener] is subscribed, task ["a"] registered; then the task runs and
    reports progress. *)
Definition watch_ops : list Op :=
  [Start "a"; Progress 0 "half" (Some 1) (Some 2); Settle 0 (Ok tt) 9].

(** ** Timers *)

(** Timer [t], recorded for task [id], is live: it is a pending timer of
    that task, and the task is running. *)
Definition live_at (m : TaskManager) (id : string) (t : nat) : Prop :=
  (exists d : Z, timers m !! t = Some (Some (mkTimer id d))) /\
  status_of (getState id m) = Some running.

Definition tmo_inv (m : TaskManager) : Prop :=
  forall id t, timeouts m !! id = Some t -> live_at m id t.

(** The same, but the task [x] need not be running. *)
Definition tmo_but (x : string) (m : TaskManager) : Prop :=
  forall id t, timeouts m !! id = Some t ->
    (exists d : Z, timers m !! t = Some (Some (mkTimer id d))) /\
    (id ≠ x -> status_of (getState id m) = Some running).

(** ** Timers when eviction is disabled *)

(** Every pending timer of the host is the one recorded for its task. *)
Definition no_leak (m : TaskManager) : Prop :=
  forall t tm, timers m !! t = Some (Some tm) -> timeouts m !! timer_task tm = Some t.

(** ** Progress reports and settlement of the current run *)

(** The state [runTask] writes for an outcome of the handler. *)
Definition settled_state (id : string) (outcome : Result unit) (now : Z) : TaskState :=
  match outcome with
  | Ok _ => Completed id now
  | Throw e => Error id now (error_message e)
  end.

(** ** The state map *)

(** What an operation does to the state map, [K] being the history bound. *)
Definition state_step (op : Op) (K : nat) (st st' : list (string * TaskState)) : Prop :=
  match op with
  | Register id _ _ =>
      is_Some (OMap.get id st) /\ st' = st \/
      OMap.get id st = None /\ st' = OMap.set id (Pending id) st
  | Dispose => st' = []
  | Subscribe _ | Unsubscribe _ => st' = st
  | _ =>
      st' = st \/
      exists id ns ids, is_Some (OMap.get id st) /\ state_id ns = id /\
        status ns ≠ pending /\ (K = 0%nat -> ids = []) /\
        st' = foldl (fun st id => OMap.delete id st) (OMap.set id ns st) ids
  end.

(** Every stored state carries the id it is stored under. *)
Definition id_inv (m : TaskManager) : Prop :=
  Forall (fun p => state_id p.2 = p.1) (state m).

(** ** The event stream *)


(** ** What a subscriber knows *)




(** ** Runs and their signals *)

(** The [k]-th run launched holds the [k]-th controller created, and a
    stored token is the controller of a run of the task it is stored for. *)
Record runs_inv (s : System) : Prop := {
  runs_len : length (controllers (manager s)) = length (runs s);
  runs_ctl : forall k r b, runs s !! k = Some (r, b) -> run_controller r = k;
  runs_tok : forall id c, abortControllers (manager s) !! id = Some c ->
    exists r b, runs s !! c = Some (r, b) /\ run_task r = id;
}.

(** The operations that abort a signal. *)
Definition aborts (op : Op) : bool :=
  match op with
  | Cancel _ _ | Fire _ _ | Dispose => true
  | _ => false
  end.

(** No token is stored in [m'] that was not stored in [m]. *)
Definition tokens_le (m m' : TaskManager) : Prop :=
  forall id c, abortControllers m' !! id = Some c -> abortControllers m !! id = Some c.

(** * Reasoning about the methods *)

(** ** Ordered maps *)

Module OMapFacts.
Section facts.
Context {V : Type}.
Implicit Types (l : list (string * V)) (k : string) (v : V).

Lemma get_set_eq l k v : OMap.get k (OMap.set k v l) = Some v.
Proof.
  induction l as [|[k' v'] l IH]; simpl.
  - by rewrite decide_True.
  - destruct (decide (k' = k)); simpl.
    + by rewrite decide_True.
    + by rewrite decide_False.
Qed.

Lemma get_set_ne l k k' v : k ≠ k' -> OMap.get k' (OMap.set k v l) = OMap.get k' l.
Proof.
  intros Hne. induction l as [|[k0 v0] l IH]; simpl.
  - by rewrite decide_False.
  - destruct (decide (k0 = k)) as [->|]; simpl.
    + by rewrite !decide_False.
    + destruct (decide (k0 = k')); done.
Qed.

Lemma get_delete_eq l k : OMap.get k (OMap.delete k l) = None.
Proof.
  induction l as [|[k' v'] l IH]; simpl; [done|].
  destruct (decide (k' = k)); simpl; [done|]. by rewrite decide_False.
Qed.

Lemma get_delete_ne l k k' : k ≠ k' -> OMap.get k' (OMap.delete k l) = OMap.get k' l.
Proof.
  intros Hne. induction l as [|[k0 v0] l IH]; simpl; [done|].
  destruct (decide (k0 = k)) as [->|]; simpl.
  - by rewrite decide_False.
  - destruct (decide (k0 = k')); done.
Qed.

Lemma get_Some_elem l k v : OMap.get k l = Some v -> (k, v) ∈ l.
Proof.
  induction l as [|[k' v'] l IH]; simpl; [done|].
  destruct (decide (k' = k)) as [->|].
  - intros [= ->]. left.
  - intros. right. auto.
Qed.

Lemma get_None_keys l k : OMap.get k l = None <-> k ∉ OMap.keys l.
Proof.
  unfold OMap.keys. induction l as [|[k' v'] l IH]; simpl.
  - split; [intros _; apply not_elem_of_nil | done].
  - rewrite not_elem_of_cons. destruct (decide (k' = k)) as [->|].
    + split; [done|]. intros [? _]. done.
    + rewrite IH. split; [by auto|]. by intros [_ ?].
Qed.

Lemma elem_get l k v : NoDup (OMap.keys l) -> (k, v) ∈ l -> OMap.get k l = Some v.
Proof.
  unfold OMap.keys. induction l as [|[k' v'] l IH]; simpl.
  - intros _ H. by apply elem_of_nil in H.
  - rewrite NoDup_cons. intros [Hk Hnd] [H|H]%elem_of_cons.
    + injection H as -> ->. by rewrite decide_True.
    + destruct (decide (k' = k)) as [->|]; [|by auto].
      exfalso. apply Hk. apply list_elem_of_fmap. by exists (k, v).
Qed.

Lemma keys_set_present l k v :
  is_Some (OMap.get k l) -> OMap.keys (OMap.set k v l) = OMap.keys l.
Proof.
  unfold OMap.keys. induction l as [|[k' v'] l IH]; simpl.
  - by intros [? ?].
  - destruct (decide (k' = k)) as [->|]; simpl; [done|].
    intros H. f_equal. by apply IH.
Qed.

Lemma keys_set_absent l k v :
  OMap.get k l = None -> OMap.keys (OMap.set k v l) = OMap.keys l ++ [k].
Proof.
  unfold OMap.keys. induction l as [|[k' v'] l IH]; simpl; [done|].
  destruct (decide (k' = k)) as [->|]; simpl; [done|].
  intros H. f_equal. by apply IH.
Qed.

Lemma keys_delete l k :
  OMap.keys (OMap.delete k l) = filter (fun k' => k' ≠ k) (OMap.keys l).
Proof.
  unfold OMap.keys. induction l as [|[k' v'] l IH]; simpl; [done|].
  rewrite filter_cons. destruct (decide (k' = k)) as [->|]; simpl.
  - by rewrite decide_False by naive_solver.
  - rewrite decide_True by done. simpl. f_equal. apply IH.
Qed.

Lemma NoDup_keys_set l k v : NoDup (OMap.keys l) -> NoDup (OMap.keys (OMap.set k v l)).
Proof.
  intros Hnd. destruct (OMap.get k l) eqn:Hg.
  - by rewrite keys_set_present.
  - rewrite keys_set_absent by done. apply NoDup_app. split_and!; [done| |apply NoDup_singleton].
    intros x Hx ->%list_elem_of_singleton. by apply get_None_keys in Hg.
Qed.

Lemma NoDup_keys_delete l k : NoDup (OMap.keys l) -> NoDup (OMap.keys (OMap.delete k l)).
Proof. intros. rewrite keys_delete. by apply NoDup_filter. Qed.
End facts.
End OMapFacts.

(** ** The effect of each method as a function of the state
    No method but [register] (and [getEventsSince] outside the reachable
    states) throws; each one equals a plain state transformer. *)

Lemma for_of_modify {A} (l : list A) (f : A -> TaskManager -> TaskManager) m :
  for_of l (fun x => modify (f x)) m = (foldl (fun m x => f x m) m l, Ok tt).
Proof.
  revert m. induction l as [|x l IH]; intros m; simpl; [done|].
  unfold bind, modify at 1. by rewrite IH.
Qed.

Lemma notify_loop subs event m :
  for_of subs (fun cb =>
      try_catch (call cb event)
                (fun e => console_error "Error in task subscriber:" e)) m
  = (with_console (fun c => c ++ subscriber_errors subs event)
       (with_delivered (fun d => d ++ deliveries subs event) m), Ok tt).
Proof.
  revert m. induction subs as [|cb subs IH]; intros m; simpl.
  - destruct m; unfold ret, with_console, with_delivered; simpl.
    by rewrite !app_nil_r.
  - unfold bind at 1, try_catch, call, console_error, modify.
    destruct (callback cb event) as [[]|e]; rewrite IH;
      destruct m; unfold with_console, with_delivered; simpl;
      by rewrite <- !app_assoc.
Qed.

Lemma notify_run event m : notify event m = (notify_st event m, Ok tt).
Proof. unfold notify, bind, gets. apply notify_loop. Qed.

Lemma buffer_event_run event m : buffer_event event m = (buffer_st event m, Ok tt).
Proof.
  unfold buffer_event, buffer_st. munfold.
  destruct (0 <? eventBufferSize m)%nat; [|done].
  by destruct (length (eventBuffer m) <? eventBufferSize m)%nat.
Qed.

Lemma evictOldTasks_run m : evictOldTasks m = (evict_st m, Ok tt).
Proof.
  unfold evictOldTasks, evict_st, toEvict, evict_all. unfold bind, gets, ret.
  destruct (maxHistory m =? 0)%nat; [done|].
  destruct (length (terminalTasks (state m)) <=? maxHistory m)%nat; [done|].
  rewrite (for_of_modify _ (fun e => evict_one e.1)).
  f_equal. generalize (take (length (terminalTasks (state m)) - maxHistory m)
                         (sort_by_lastRun (terminalTasks (state m)))).
  intros l. revert m. induction l as [|e l IH]; intros m; simpl; [done|]. apply IH.
Qed.

Lemma setState_run taskId newState m :
  setState taskId newState m = (setState_st taskId newState m, Ok tt).
Proof.
  unfold setState, setState_st, commit_st. unfold bind at 1, gets at 1.
  destruct (OMap.get taskId (state m)) as [cur|]; [|done].
  destruct (rejects cur newState); [done|].
  unfold bind, modify, gets. simpl.
  rewrite buffer_event_run, notify_run.
  destruct (TERMINAL_STATUSES (status newState)); [|done].
  apply evictOldTasks_run.
Qed.

Lemma clearTimeout_run taskId m : clearTimeout taskId m = (clearTimeout_st taskId m, Ok tt).
Proof.
  unfold clearTimeout, clearTimeout_st, host_clearTimeout. munfold.
  by destruct (timeouts m !! taskId).
Qed.

Lemma cancel_run taskId now m : cancel taskId now m = (cancel_st taskId now m, Ok tt).
Proof.
  unfold cancel, cancel_st, abort. unfold bind at 1, gets at 1.
  destruct (abortControllers m !! taskId) as [c|]; [|done].
  unfold bind, modify. by rewrite clearTimeout_run, setState_run.
Qed.

Lemma timeout_callback_run taskId now m :
  timeout_callback taskId now m = (timeout_callback_st taskId now m, Ok tt).
Proof.
  unfold timeout_callback, timeout_callback_st, abort. unfold bind at 1, gets at 1.
  destruct (negb _); [done|].
  unfold bind, gets, modify, ret.
  destruct (abortControllers m !! taskId); simpl; by rewrite setState_run.
Qed.

Lemma fire_timer_run t now m : fire_timer t now m = (fire_timer_st t now m, Ok tt).
Proof.
  unfold fire_timer, fire_timer_st. unfold bind at 1, gets at 1.
  destruct (timers m !! t) as [[tm|]|]; [|done..].
  unfold bind, modify. by rewrite timeout_callback_run.
Qed.

Lemma ctx_progress_run r msg cur tot m :
  ctx_progress r msg cur tot m = (ctx_progress_st r msg cur tot m, Ok tt).
Proof.
  unfold ctx_progress, ctx_progress_st. munfold.
  destruct (isStale r m); [done|].
  destruct (negb _); [done|]. apply setState_run.
Qed.

Lemma runTask_run r outcome now m :
  runTask r outcome now m = (runTask_st r outcome now m, Ok tt).
Proof.
  unfold runTask, runTask_st, error_message, console_error. munfold.
  destruct outcome as [[]|e]; simpl.
  - destruct (negb (isCanceled r m) && negb (isStale r m)).
    + rewrite setState_run. destruct (negb (isStale r _)); [|done].
      by rewrite clearTimeout_run.
    + destruct (negb (isStale r m)); [|done]. by rewrite clearTimeout_run.
  - change (isCanceled r (with_console _ m)) with (isCanceled r m).
    destruct (negb (isCanceled r m) && negb (isStale r m)).
    + destruct e; rewrite setState_run; (destruct (negb (isStale r _)); [|done]);
        by rewrite clearTimeout_run.
    + destruct (negb (isStale r m)); [|done]. by rewrite clearTimeout_run.
Qed.

Lemma start_run taskId m :
  start taskId m = ((start_st taskId m).1, Ok (start_st taskId m).2).
Proof.
  unfold start, start_st, launch_st, launched, warn_st, new_AbortController,
    setTimeout, console_warn.
  unfold bind at 1, gets at 1. unfold bind at 1, gets at 1.
  destruct (tasks m !! taskId) as [task|]; cycle 1.
  { munfold. by destruct (debug m). }
  destruct (OMap.get taskId (state m)) as [cur|]; cycle 1.
  { munfold. by destruct (debug m). }
  destruct (bool_decide (status cur = running)).
  { munfold. by destruct (debug m). }
  unfold bind, gets, modify, ret. simpl.
  rewrite clearTimeout_run, setState_run.
  by destruct (truthy (timeout task)).
Qed.

Lemma register_exec taskId h options m :
  (register taskId h options m).1 = register_st taskId h options m.
Proof.
  unfold register, register_st. munfold.
  by destruct (bool_decide (is_Some (tasks m !! taskId))).
Qed.

Lemma abort_all_fields cs m :
  abort_all cs m =
  with_controllers (fun h => foldl (fun h c => <[c := true]> h) h cs) m.
Proof.
  unfold abort_all. revert m. induction cs as [|c cs IH]; intros m; simpl.
  - by destruct m.
  - rewrite IH. by destruct m.
Qed.

Lemma clear_all_fields ts m :
  clear_all ts m =
  with_timers (fun h => foldl (fun h t => <[t := None]> h) h ts) m.
Proof.
  unfold clear_all. revert m. induction ts as [|c cs IH]; intros m; simpl.
  - by destruct m.
  - rewrite IH. by destruct m.
Qed.

Lemma dispose_run m : dispose m = (dispose_st m, Ok tt).
Proof.
  unfold dispose, dispose_st, abort, host_clearTimeout.
  unfold bind at 1, modify at 1. unfold bind at 1, gets at 1.
  unfold bind at 1. rewrite (for_of_modify _ (fun c => with_controllers (fun h => <[c := true]> h))).
  unfold bind at 1, modify at 1. unfold bind at 1, gets at 1.
  unfold bind at 1. rewrite (for_of_modify _ (fun t => with_timers (fun h => <[t := None]> h))).
  unfold bind, modify. simpl.
  fold (abort_all (map_to_list (abortControllers m)).*2 (with_subscribers (fun _ => []) m)).
  rewrite abort_all_fields. simpl.
  reflexivity.
Qed.

Import OMapFacts.

(** ** Frame properties of eviction and of an accepted transition *)

Lemma lookup_delete_list {V} (t : gmap string V) (ids : list string) (k : string) :
  foldl (fun t id => delete id t) t ids !! k
  = if bool_decide (k ∈ ids) then None else t !! k.
Proof.
  revert t. induction ids as [|id ids IH]; intros t; simpl; [done|].
  rewrite IH. destruct (decide (k = id)) as [->|Hne].
  - rewrite lookup_delete_eq. rewrite (bool_decide_true (id ∈ id :: ids)) by left.
    by destruct (bool_decide (id ∈ ids)).
  - rewrite lookup_delete_ne by done.
    destruct (decide (k ∈ ids)) as [Hin|Hin].
    + rewrite !bool_decide_true; [done| by right | done].
    + rewrite !bool_decide_false; [done| |done].
      intros [?|?]%elem_of_cons; done.
Qed.

Lemma get_delete_list {V} (st : list (string * V)) (ids : list string) (k : string) :
  OMap.get k (foldl (fun st id => OMap.delete id st) st ids)
  = if bool_decide (k ∈ ids) then None else OMap.get k st.
Proof.
  revert st. induction ids as [|id ids IH]; intros st; simpl; [done|].
  rewrite IH. destruct (decide (k = id)) as [->|Hne].
  - rewrite get_delete_eq. rewrite (bool_decide_true (id ∈ id :: ids)) by left.
    by destruct (bool_decide (id ∈ ids)).
  - rewrite get_delete_ne by done.
    destruct (decide (k ∈ ids)) as [Hin|Hin].
    + rewrite !bool_decide_true; [done| by right | done].
    + rewrite !bool_decide_false; [done| |done].
      intros [?|?]%elem_of_cons; done.
Qed.

Lemma evict_all_fields ids m :
  evict_all ids m =
  with_timeouts (fun t => foldl (fun t id => delete id t) t ids)
    (with_runGeneration (fun t => foldl (fun t id => delete id t) t ids)
       (with_abortControllers (fun t => foldl (fun t id => delete id t) t ids)
          (with_state (fun st => foldl (fun st id => OMap.delete id st) st ids)
             (with_tasks (fun t => foldl (fun t id => delete id t) t ids) m)))).
Proof.
  unfold evict_all. revert m. induction ids as [|id ids IH]; intros m; simpl.
  - by destruct m.
  - rewrite IH. by destruct m.
Qed.

(** Every field an accepted transition touches, one by one. *)
Lemma commit_st_fields taskId newState m :
  let m' := commit_st taskId newState m in
  let event := mkEvent taskId newState (nextEventId m) in
  tasks m' = tasks m /\
  state m' = OMap.set taskId newState (state m) /\
  subscribers m' = subscribers m /\
  abortControllers m' = abortControllers m /\
  runGeneration m' = runGeneration m /\
  timeouts m' = timeouts m /\
  debug m' = debug m /\ maxHistory m' = maxHistory m /\
  eventBufferSize m' = eventBufferSize m /\
  nextEventId m' = nextEventId m + 1 /\
  eventBuffer m' = eventBuffer (buffer_st event m) /\
  ringHead m' = ringHead (buffer_st event m) /\
  controllers m' = controllers m /\ timers m' = timers m /\
  console m' = console m ++ subscriber_errors (subscribers m) event /\
  delivered m' = delivered m ++ deliveries (subscribers m) event.
Proof.
  unfold commit_st, notify_st, buffer_st. simpl.
  destruct (0 <? eventBufferSize m)%nat; simpl; [|done].
  destruct (length (eventBuffer m) <? eventBufferSize m)%nat; simpl; done.
Qed.

Lemma setState_st_unfold taskId newState m :
  setState_st taskId newState m =
  if accepts taskId newState m
  then evict_all (evicted_by taskId newState m) (commit_st taskId newState m)
  else m.
Proof.
  unfold setState_st, accepts, evicted_by, evict_st.
  destruct (OMap.get taskId (state m)) as [cur|]; [|done].
  destruct (rejects cur newState); simpl; [done|].
  destruct (TERMINAL_STATUSES (status newState)); [done|].
  by rewrite evict_all_fields; destruct (commit_st taskId newState m).
Qed.

(** [setState] touches the host objects and the configuration never. *)
Lemma setState_st_host taskId newState m :
  let m' := setState_st taskId newState m in
  controllers m' = controllers m /\ timers m' = timers m /\
  subscribers m' = subscribers m /\ debug m' = debug m /\
  maxHistory m' = maxHistory m /\ eventBufferSize m' = eventBufferSize m.
Proof.
  simpl. rewrite setState_st_unfold. destruct (accepts taskId newState m); [|done].
  rewrite evict_all_fields. simpl.
  pose proof (commit_st_fields taskId newState m) as H. simpl in H.
  by destruct H as (?&?&?&?&?&?&?&?&?&?&?&?&?&?&?&?).
Qed.

Lemma setState_st_maps taskId newState m (k : string) :
  let m' := setState_st taskId newState m in
  let gone := bool_decide (k ∈ evicted_by taskId newState m)
                && accepts taskId newState m in
  tasks m' !! k = (if gone then None else tasks m !! k) /\
  abortControllers m' !! k = (if gone then None else abortControllers m !! k) /\
  runGeneration m' !! k = (if gone then None else runGeneration m !! k) /\
  timeouts m' !! k = (if gone then None else timeouts m !! k).
Proof.
  simpl. rewrite setState_st_unfold. destruct (accepts taskId newState m);
    [|by rewrite andb_false_r].
  rewrite andb_true_r, evict_all_fields. simpl.
  pose proof (commit_st_fields taskId newState m) as H. simpl in H.
  destruct H as (->&_&_&->&->&->&_).
  by rewrite !lookup_delete_list.
Qed.

Lemma setState_st_get taskId newState m (k : string) :
  getState k (setState_st taskId newState m) =
  if accepts taskId newState m then
    if bool_decide (k ∈ evicted_by taskId newState m) then None
    else if decide (taskId = k) then Some newState else getState k m
  else getState k m.
Proof.
  unfold getState. rewrite setState_st_unfold.
  destruct (accepts taskId newState m); [|done].
  rewrite evict_all_fields. simpl.
  pose proof (commit_st_fields taskId newState m) as H. simpl in H.
  destruct H as (_&->&_).
  rewrite get_delete_list. destruct (bool_decide _); [done|].
  destruct (decide (taskId = k)) as [->|].
  - by rewrite get_set_eq.
  - by rewrite get_set_ne.
Qed.

Lemma evicted_by_running taskId newState m :
  TERMINAL_STATUSES (status newState) = false -> evicted_by taskId newState m = [].
Proof. unfold evicted_by. by intros ->. Qed.

(** ** The eviction policy *)

Lemma sort_insert_Permutation a l : sort_insert a l ≡ₚ a :: l.
Proof.
  induction l as [|b l IH]; simpl; [done|].
  destruct (a.2 <=? b.2); [done|]. rewrite IH. apply Permutation_swap.
Qed.

Lemma sort_by_lastRun_Permutation l : sort_by_lastRun l ≡ₚ l.
Proof.
  induction l as [|a l IH]; simpl; [done|].
  by rewrite sort_insert_Permutation, IH.
Qed.

Lemma sort_insert_sorted a l :
  StronglySorted older l -> StronglySorted older (sort_insert a l).
Proof.
  induction 1 as [|b l Hs IH Hb]; simpl.
  - repeat constructor.
  - destruct (Z.leb_spec a.2 b.2) as [Hle|Hlt].
    + constructor; [by constructor|]. constructor; [done|].
      eapply Forall_impl; [exact Hb|]. unfold older. intros; lia.
    + constructor; [done|]. rewrite sort_insert_Permutation.
      constructor; [unfold older; lia | done].
Qed.

Lemma sort_by_lastRun_sorted l : StronglySorted older (sort_by_lastRun l).
Proof.
  induction l as [|a l IH]; simpl; [constructor|]. by apply sort_insert_sorted.
Qed.

Lemma StronglySorted_take_drop {A} (R : A -> A -> Prop) (l : list A) n x y :
  StronglySorted R l -> x ∈ take n l -> y ∈ drop n l -> R x y.
Proof.
  intros Hs. revert n. induction Hs as [|a l Hs IH Ha]; intros n.
  - rewrite take_nil. by intros ?%elem_of_nil.
  - destruct n as [|n]; simpl.
    + by intros ?%elem_of_nil.
    + intros [->|Hx]%elem_of_cons Hy.
      * rewrite Forall_forall in Ha. apply Ha.
        by apply (subseteq_drop n l).
      * by eapply IH.
Qed.

Lemma terminalTasks_elem st id t :
  (id, t) ∈ terminalTasks st <->
  exists s, (id, s) ∈ st /\ TERMINAL_STATUSES (status s) = true /\ lastRun s = Some t.
Proof.
  induction st as [|[k s] st IH]; simpl.
  - split; [by intros ?%elem_of_nil|]. intros (?&?%elem_of_nil&_). done.
  - destruct (TERMINAL_STATUSES (status s)) eqn:Ht;
      [destruct (lastRun s) as [t'|] eqn:Hl|].
    + rewrite elem_of_cons, IH. split.
      * intros [[= -> ->]|(s'&?&?&?)].
        -- exists s. split; [left|done].
        -- exists s'. split; [by right|done].
      * intros (s'&[[= -> ->]|Hin]%elem_of_cons&Ht'&Hl').
        -- left. congruence.
        -- right. by exists s'.
    + rewrite IH. split.
      * intros (s'&?&?&?). exists s'. split; [by right|done].
      * intros (s'&[[= -> ->]|Hin]%elem_of_cons&Ht'&Hl'); [congruence|].
        by exists s'.
    + rewrite IH. split.
      * intros (s'&?&?&?). exists s'. split; [by right|done].
      * intros (s'&[[= -> ->]|Hin]%elem_of_cons&Ht'&Hl'); [congruence|].
        by exists s'.
Qed.

(** Every terminal state carries [lastRun], so [terminalTasks] misses no
    task in a terminal status. *)
Lemma terminalTasks_length st : length (terminalTasks st) = terminal_count st.
Proof.
  unfold terminal_count. induction st as [|[k s] st IH]; simpl; [done|].
  rewrite filter_cons. simpl.
  destruct s; simpl; by rewrite ?IH.
Qed.

Lemma terminalTasks_keys_sublist st :
  (terminalTasks st).*1 `sublist_of` OMap.keys st.
Proof.
  unfold OMap.keys. induction st as [|[k s] st IH]; simpl; [done|].
  destruct (TERMINAL_STATUSES (status s)); [destruct (lastRun s)|]; simpl.
  - by apply sublist_skip.
  - by apply sublist_cons.
  - by apply sublist_cons.
Qed.

Lemma terminalTasks_NoDup st :
  NoDup (OMap.keys st) -> NoDup (terminalTasks st).*1.
Proof. intros H. exact (sublist_NoDup _ _ H (terminalTasks_keys_sublist st)). Qed.

Lemma terminalTasks_delete st id :
  terminalTasks (OMap.delete id st) = filter (fun p => p.1 ≠ id) (terminalTasks st).
Proof.
  induction st as [|[k s] st IH]; simpl; [done|].
  destruct (decide (k = id)) as [->|Hne]; simpl.
  - destruct (TERMINAL_STATUSES (status s)); [destruct (lastRun s)|]; try done.
    rewrite filter_cons. simpl. by rewrite decide_False by naive_solver.
  - destruct (TERMINAL_STATUSES (status s)); [destruct (lastRun s)|]; try done.
    rewrite filter_cons. simpl. rewrite decide_True by done. by rewrite IH.
Qed.

Lemma filter_all {A} (P : A -> Prop) `{!forall x, Decision (P x)} (l : list A) :
  Forall P l -> filter P l = l.
Proof.
  induction 1 as [|x l Hx Hl IH]; [done|].
  by rewrite filter_cons_True, IH.
Qed.

Lemma filter_none {A} (P : A -> Prop) `{!forall x, Decision (P x)} (l : list A) :
  Forall (fun x => ~ P x) l -> filter P l = [].
Proof.
  induction 1 as [|x l Hx Hl IH]; [done|].
  by rewrite filter_cons_False.
Qed.

Lemma terminalTasks_delete_list st ids :
  terminalTasks (foldl (fun st id => OMap.delete id st) st ids)
  = filter (fun p => p.1 ∉ ids) (terminalTasks st).
Proof.
  revert st. induction ids as [|id ids IH]; intros st; simpl.
  - symmetry. apply filter_all, Forall_forall. intros ? _. apply not_elem_of_nil.
  - rewrite IH, terminalTasks_delete, list_filter_filter.
    apply list_filter_iff. intros p. rewrite not_elem_of_cons. tauto.
Qed.

Lemma terminalTasks_set_le st id s :
  TERMINAL_STATUSES (status s) = false ->
  (length (terminalTasks (OMap.set id s st)) <= length (terminalTasks st))%nat.
Proof.
  intros Hs. induction st as [|[k s'] st IH]; simpl.
  - by rewrite Hs.
  - destruct (decide (k = id)) as [->|]; simpl.
    + rewrite Hs.
      destruct (TERMINAL_STATUSES (status s')); [destruct (lastRun s')|]; simpl; lia.
    + destruct (TERMINAL_STATUSES (status s')); [destruct (lastRun s')|]; simpl; lia.
Qed.

Lemma toEvict_spec m :
  exists n, toEvict m = take n (sort_by_lastRun (terminalTasks (state m))) /\
    (maxHistory m ≠ 0%nat ->
     length (terminalTasks (state m)) - n <= maxHistory m)%nat /\
    (n = 0%nat \/
     (maxHistory m ≠ 0%nat /\
      n = (length (terminalTasks (state m)) - maxHistory m)%nat /\
      (maxHistory m < length (terminalTasks (state m)))%nat)).
Proof.
  unfold toEvict. destruct (Nat.eqb_spec (maxHistory m) 0) as [Hz|Hz].
  { exists 0%nat. split_and!; [by rewrite take_0|done|by left]. }
  destruct (Nat.leb_spec (length (terminalTasks (state m))) (maxHistory m)).
  { exists 0%nat. split_and!; [by rewrite take_0|lia|by left]. }
  eexists. split_and!; [done|lia|right; split_and!; [done|done|lia]].
Qed.

(** After eviction at most [maxHistory] terminal tasks are left. *)
Lemma evict_st_bound m :
  maxHistory m ≠ 0%nat ->
  (terminal_count (state (evict_st m)) <= maxHistory m)%nat.
Proof.
  intros HK. rewrite <- terminalTasks_length. unfold evict_st.
  rewrite evict_all_fields. simpl. rewrite terminalTasks_delete_list.
  destruct (toEvict_spec m) as (n & -> & Hn & _). specialize (Hn HK).
  set (T := terminalTasks (state m)) in *. set (S := sort_by_lastRun T).
  assert (HP : T ≡ₚ take n S ++ drop n S).
  { rewrite take_drop. symmetry. apply sort_by_lastRun_Permutation. }
  rewrite HP, filter_app, length_app.
  assert (length (filter (fun p : string * Z => p.1 ∉ (take n S).*1) (take n S)) = 0%nat) as ->.
  { rewrite filter_none; [done|]. apply Forall_forall.
    intros p Hp Hnot. apply Hnot. apply list_elem_of_fmap. by exists p. }
  etrans; [apply Nat.add_le_mono_l, length_filter|].
  rewrite length_drop. unfold S.
  rewrite (Permutation_length (sort_by_lastRun_Permutation T)). simpl. lia.
Qed.

(** ** The replay buffer as a ring *)

Lemma ring_overwrite {A} (buf : list A) (h : nat) (x : A) :
  (h < length buf)%nat ->
  let h' := ((h + 1) mod length buf)%nat in
  drop h' (<[h := x]> buf) ++ take h' (<[h := x]> buf)
  = drop 1 (drop h buf ++ take h buf) ++ [x].
Proof.
  intros Hh. simpl.
  destruct (lookup_lt_is_Some_2 buf h Hh) as [y Hy].
  pose proof (take_drop_middle buf h y Hy) as Hsplit.
  assert (Hl1 : length (take h buf) = h) by (rewrite length_take; lia).
  set (l1 := take h buf) in *. set (l2 := drop (S h) buf) in *.
  assert (Hins : <[h := x]> buf = l1 ++ x :: l2).
  { rewrite <- Hsplit at 1. rewrite insert_app_r_alt by lia.
    by replace (h - length l1)%nat with 0%nat by lia. }
  assert (Hdrop : drop h buf = y :: l2).
  { rewrite <- Hsplit at 1. rewrite drop_app_length'; done. }
  rewrite Hdrop, Hins. simpl. rewrite drop_0.
  assert (Hlen : length buf = (h + S (length l2))%nat).
  { rewrite <- Hsplit. rewrite length_app. simpl. lia. }
  destruct l2 as [|z l2].
  - assert (((h + 1) mod length buf)%nat = 0%nat) as ->.
    { rewrite Hlen. simpl. apply Nat.Div0.mod_same. }
    simpl. by rewrite app_nil_r.
  - rewrite Nat.mod_small by (rewrite Hlen; simpl; lia).
    replace (h + 1)%nat with (length (l1 ++ [x])) by (rewrite length_app; simpl; lia).
    rewrite (cons_middle x l1 (z :: l2)), app_assoc.
    rewrite drop_app_length, take_app_length. by rewrite <- app_assoc.
Qed.

Lemma ring_inv_core m m' :
  eventBuffer m' = eventBuffer m -> ringHead m' = ringHead m ->
  eventBufferSize m' = eventBufferSize m -> nextEventId m' = nextEventId m ->
  ring_inv m -> ring_inv m'.
Proof.
  intros Hb Hh Hs Hn [H1 H2 H3].
  split; unfold ring_view; rewrite ?Hb, ?Hh, ?Hs, ?Hn; done.
Qed.

(** Buffering the event that takes the next id keeps the ring in order. *)
Lemma ring_inv_buffer m m' e :
  eventId e = nextEventId m ->
  eventBuffer m' = eventBuffer (buffer_st e m) ->
  ringHead m' = ringHead (buffer_st e m) ->
  eventBufferSize m' = eventBufferSize m ->
  nextEventId m' = nextEventId m + 1 ->
  ring_inv m -> ring_inv m'.
Proof.
  intros He Hb Hh Hs Hn [H1 H2 H3]. unfold ring_view in H3.
  unfold buffer_st in Hb, Hh.
  destruct (Nat.ltb_spec 0 (eventBufferSize m)) as [Hpos|Hzero]; cycle 1.
  { split; unfold ring_view; rewrite ?Hb, ?Hh, ?Hs, ?Hn; [done..|].
    intros i e' Hi. assert (eventBuffer m = []) as Hnil.
    { apply length_zero_iff_nil. lia. }
    rewrite Hnil in Hi. rewrite drop_nil, take_nil in Hi. done. }
  destruct (Nat.ltb_spec (length (eventBuffer m)) (eventBufferSize m)) as [Hlt|Hge];
    simpl in Hb, Hh.
  - assert (ringHead m = 0%nat) as Hz by (destruct H2 as [?|[? ?]]; [done|lia]).
    rewrite Hz in H3. rewrite drop_0, take_0, app_nil_r in H3.
    split; unfold ring_view; rewrite ?Hb, ?Hh, ?Hs, ?Hn, ?Hz.
    + rewrite length_app. simpl. lia.
    + by left.
    + rewrite drop_0, take_0, app_nil_r, length_app. simpl.
      intros i e' Hi. apply lookup_app_Some in Hi as [Hi|[Hge Hi]].
      * rewrite (H3 _ _ Hi). lia.
      * apply list_lookup_singleton_Some in Hi as [Hi ->]. lia.
  - assert (length (eventBuffer m) = eventBufferSize m) as Hfull by lia.
    assert (ringHead m < length (eventBuffer m))%nat as Hin
      by (destruct H2 as [?|[? ?]]; lia).
    split; unfold ring_view; rewrite ?Hb, ?Hh, ?Hs, ?Hn.
    + by rewrite length_insert.
    + right. rewrite length_insert. split; [done|].
      apply Nat.mod_upper_bound. lia.
    + rewrite length_insert. rewrite <- Hfull.
      rewrite ring_overwrite by done.
      intros i e' Hi. apply lookup_app_Some in Hi as [Hi|[Hge' Hi]].
      * rewrite lookup_drop in Hi. rewrite (H3 _ _ Hi). lia.
      * apply list_lookup_singleton_Some in Hi as [Hi ->].
        rewrite length_drop, length_app, length_drop, length_take in Hge', Hi. lia.
Qed.

(** ** What subscribers have been handed *)

Lemma ids_to_deliveries ref subs e :
  NoDup (sub_ref <$> subs) ->
  ids_to ref (deliveries subs e) = [] \/ ids_to ref (deliveries subs e) = [eventId e].
Proof.
  unfold ids_to, deliveries. induction subs as [|cb subs IH]; simpl; [by left|].
  rewrite NoDup_cons. intros [Hnot Hnd]. rewrite filter_cons. simpl.
  destruct (decide (sub_ref cb = ref)) as [<-|Hne]; [|by apply IH].
  right. simpl. f_equal.
  rewrite filter_none; [done|]. apply Forall_forall.
  intros p [cb' [-> Hin]]%list_elem_of_fmap. simpl. intros Heq.
  apply Hnot. apply list_elem_of_fmap. by exists cb'.
Qed.

Lemma deliv_inv_commit m m' e :
  eventId e = nextEventId m ->
  subscribers m' = subscribers m ->
  nextEventId m' = nextEventId m + 1 ->
  delivered m' = delivered m ++ deliveries (subscribers m) e ->
  deliv_inv m -> deliv_inv m'.
Proof.
  intros He Hs Hn Hd [H1 H2 H3 H4].
  split; rewrite ?Hs, ?Hn, ?Hd; [done|..].
  - apply Forall_app. split.
    + eapply Forall_impl; [exact H2|]. simpl. intros; lia.
    + apply Forall_forall. unfold deliveries.
      intros p [cb [-> _]]%list_elem_of_fmap. simpl. lia.
  - intros ref. unfold ids_to. rewrite filter_app, fmap_app.
    apply StronglySorted_app_2; [|apply H3|].
    + intros x1 x2 [p [-> [_ Hp]%list_elem_of_filter]]%list_elem_of_fmap
        [q [-> [_ Hq]%list_elem_of_filter]]%list_elem_of_fmap.
      rewrite Forall_forall in H2. specialize (H2 _ Hp). simpl in H2.
      unfold deliveries in Hq. apply list_elem_of_fmap in Hq as [cb [-> _]]. simpl. lia.
    + destruct (ids_to_deliveries ref (subscribers m) e H1) as [Hx|Hx];
        unfold ids_to in Hx; rewrite Hx; repeat constructor.
  - unfold ids_of. rewrite fmap_app.
    apply StronglySorted_app_2; [|apply H4|].
    + intros x1 x2 [p [-> Hp]]%list_elem_of_fmap [q [-> Hq]]%list_elem_of_fmap.
      rewrite Forall_forall in H2. specialize (H2 _ Hp). simpl in H2.
      unfold deliveries in Hq. apply list_elem_of_fmap in Hq as [cb [-> _]]. simpl. lia.
    + unfold deliveries. generalize (subscribers m). intros l.
      induction l as [|cb l IH]; simpl; [constructor|].
      constructor; [done|]. apply Forall_forall.
      intros x [p [-> [cb' [-> _]]%list_elem_of_fmap]]%list_elem_of_fmap. simpl. lia.
Qed.

Lemma deliv_inv_core m m' :
  subscribers m' = subscribers m -> nextEventId m' = nextEventId m ->
  delivered m' = delivered m -> deliv_inv m -> deliv_inv m'.
Proof. intros Hs Hn Hd [H1 H2 H3 H4]. split; rewrite ?Hs, ?Hn, ?Hd; done. Qed.

(** ** Invariants of the manager *)

Lemma Inv_split m : Inv m <-> Inv0 m /\ ctl_inv m.
Proof.
  split.
  - intros [H1 H2 H3 H4 H5 H6]. by split; [split|].
  - intros [[H1 H2 H3 H4 H5] H6]. by split.
Qed.

Lemma same_core_refl m : same_core m m.
Proof. by repeat split. Qed.

Lemma same_core_trans m1 m2 m3 : same_core m1 m2 -> same_core m2 m3 -> same_core m1 m3.
Proof.
  unfold same_core. intros (?&?&?&?&?&?&?&?&?) (?&?&?&?&?&?&?&?&?).
  repeat split; congruence.
Qed.

Lemma Inv0_core m m' : same_core m m' -> Inv0 m -> Inv0 m'.
Proof.
  intros (Ht&Hst&Hsu&Hn&Hb&Hh&Hd&HK&Hs) [H1 H2 H3 H4 H5]. split.
  - by rewrite Hst.
  - intros id. unfold getState. rewrite Ht, Hst. apply H2.
  - unfold term_inv. by rewrite HK, Hst.
  - by eapply ring_inv_core.
  - by eapply deliv_inv_core.
Qed.

Lemma clearTimeout_st_fields taskId m :
  let m' := clearTimeout_st taskId m in
  same_core m m' /\ abortControllers m' = abortControllers m /\
  runGeneration m' = runGeneration m /\ controllers m' = controllers m /\
  console m' = console m /\ debug m' = debug m /\
  timeouts m' !! taskId = None.
Proof.
  unfold clearTimeout_st, same_core.
  destruct (timeouts m !! taskId) eqn:Ht; simpl; [|done].
  by rewrite lookup_delete_eq.
Qed.

Lemma accepts_Some taskId newState m :
  accepts taskId newState m = true -> is_Some (getState taskId m).
Proof. unfold accepts, getState. destruct (OMap.get taskId (state m)); [eauto|done]. Qed.

Lemma Inv0_setState taskId newState m : Inv0 m -> Inv0 (setState_st taskId newState m).
Proof.
  intros [H1 H2 H3 H4 H5]. rewrite setState_st_unfold.
  destruct (accepts taskId newState m) eqn:Hacc; [|done].
  pose proof (commit_st_fields taskId newState m) as Hf. cbv zeta in Hf.
  destruct Hf as (Ft&Fst&Fsu&Fac&Frg&Fto&Fdb&FK&Fsz&Fn&Fb&Fh&Fco&Fti&Fcs&Fd).
  assert (Hids : TERMINAL_STATUSES (status newState) = true ->
                 evicted_by taskId newState m
                 = (toEvict (commit_st taskId newState m)).*1).
  { unfold evicted_by. by intros ->. }
  remember (commit_st taskId newState m) as m' eqn:Hm'.
  remember (evicted_by taskId newState m) as ids eqn:Hi.
  rewrite evict_all_fields. split; simpl.
  - rewrite Fst. clear -H1. generalize (OMap.set taskId newState (state m)) (NoDup_keys_set (state m) taskId newState H1).
    induction ids as [|id ids IH]; intros st Hst; simpl; [done|].
    apply IH. by apply NoDup_keys_delete.
  - intros id. unfold getState. simpl. rewrite Ft, Fst.
    rewrite lookup_delete_list, get_delete_list.
    destruct (bool_decide (id ∈ ids)); [by split; intros [? ?]|].
    rewrite (H2 id). unfold getState. destruct (decide (taskId = id)) as [->|Hne].
    + rewrite get_set_eq. split; [eauto|]. intros _. by apply accepts_Some in Hacc.
    + by rewrite get_set_ne.
  - unfold term_inv. simpl. rewrite FK. intros HK.
    destruct (TERMINAL_STATUSES (status newState)) eqn:Hterm.
    + pose proof (evict_st_bound m') as Hb. rewrite FK in Hb. specialize (Hb HK).
      unfold evict_st in Hb. rewrite evict_all_fields in Hb. simpl in Hb.
      by rewrite Hids.
    + rewrite Hi, evicted_by_running by done. simpl. rewrite Fst.
      rewrite <- terminalTasks_length.
      etrans; [by apply terminalTasks_set_le|].
      rewrite terminalTasks_length. by apply H3.
  - eapply (ring_inv_core m'); [done..|].
    by eapply (ring_inv_buffer m m' (mkEvent taskId newState (nextEventId m))).
  - eapply (deliv_inv_core m'); [done..|].
    by eapply (deliv_inv_commit m m' (mkEvent taskId newState (nextEventId m))).
Qed.

(** [setState] keeps every other task's token and state, or evicts both. *)
Lemma ctl_setState_other taskId newState m k c :
  (forall c, abortControllers m !! k = Some c ->
     status_of (getState k m) = Some running) ->
  k ≠ taskId ->
  abortControllers (setState_st taskId newState m) !! k = Some c ->
  status_of (getState k (setState_st taskId newState m)) = Some running.
Proof.
  intros Hctl Hne Hc.
  pose proof (setState_st_maps taskId newState m k) as Hm. simpl in Hm.
  destruct Hm as (_&Hac&_). rewrite Hac in Hc. rewrite setState_st_get.
  destruct (accepts taskId newState m); simpl in *.
  - rewrite andb_true_r in Hc. destruct (bool_decide _); [done|].
    rewrite decide_False by done. by eapply Hctl.
  - rewrite andb_false_r in Hc. by eapply Hctl.
Qed.

Lemma ctl_setState_no_token taskId newState m :
  ctl_inv m -> abortControllers m !! taskId = None ->
  ctl_inv (setState_st taskId newState m).
Proof.
  intros Hctl Hnone k c Hc. destruct (decide (k = taskId)) as [->|Hne].
  - pose proof (setState_st_maps taskId newState m taskId) as Hm. simpl in Hm.
    destruct Hm as (_&Hac&_). rewrite Hac, Hnone in Hc. by destruct (_ && _).
  - eapply ctl_setState_other; [|done|done]. intros c'. apply Hctl.
Qed.

Lemma ctl_setState_running taskId newState m :
  ctl_inv m -> status newState = running ->
  ctl_inv (setState_st taskId newState m).
Proof.
  intros Hctl Hrun k c Hc. destruct (decide (k = taskId)) as [->|Hne];
    [|eapply ctl_setState_other; [|done|done]; intros c'; apply Hctl].
  pose proof (setState_st_maps taskId newState m taskId) as Hm. simpl in Hm.
  destruct Hm as (_&Hac&_). rewrite Hac in Hc. rewrite setState_st_get.
  rewrite evicted_by_running in * by (by rewrite Hrun). simpl in *.
  destruct (accepts taskId newState m).
  - rewrite decide_True by done. simpl. by rewrite Hrun.
  - by eapply Hctl.
Qed.

Lemma ctl_inv_core m m' :
  state m' = state m -> abortControllers m' = abortControllers m ->
  ctl_inv m -> ctl_inv m'.
Proof. intros Hs Ha H id c. unfold getState. rewrite Hs, Ha. apply H. Qed.

Lemma ctl_inv_delete m m' taskId :
  state m' = state m -> abortControllers m' = delete taskId (abortControllers m) ->
  (forall k c, k ≠ taskId -> abortControllers m !! k = Some c ->
     status_of (getState k m) = Some running) ->
  ctl_inv m'.
Proof.
  intros Hs Ha H id c. unfold getState. rewrite Hs, Ha.
  destruct (decide (id = taskId)) as [->|Hne].
  - by rewrite lookup_delete_eq.
  - rewrite lookup_delete_ne by done. by apply H.
Qed.

(** ** Every operation keeps the invariant *)

Lemma Inv_register taskId h options m : Inv m -> Inv (register_st taskId h options m).
Proof.
  intros [H1 H2 H3 H4 H5 H6]. unfold register_st.
  destruct (bool_decide_reflect (is_Some (tasks m !! taskId))) as [Hhas|Hhas]; [done|].
  assert (getState taskId m = None) as Hnone.
  { destruct (getState taskId m) eqn:Hg; [|done]. exfalso. apply Hhas, H2. eauto. }
  split; simpl.
  - by apply NoDup_keys_set.
  - intros id. unfold getState. simpl. destruct (decide (taskId = id)) as [->|Hne].
    + rewrite lookup_insert_eq, get_set_eq. split; eauto.
    + rewrite lookup_insert_ne, get_set_ne by done. apply H2.
  - intros id c Hc. unfold getState. simpl in *.
    pose proof (H3 id c Hc) as Hr. unfold getState in Hnone, Hr.
    destruct (decide (taskId = id)) as [->|Hne].
    + rewrite Hnone in Hr. discriminate Hr.
    + rewrite get_set_ne by done. exact Hr.
  - unfold term_inv. simpl. intros HK. rewrite <- terminalTasks_length.
    etrans; [by apply terminalTasks_set_le|]. rewrite terminalTasks_length. by apply H4.
  - by eapply (ring_inv_core m).
  - by eapply (deliv_inv_core m).
Qed.

Lemma Inv_same m m' :
  same_core m m' -> abortControllers m' = abortControllers m -> Inv m -> Inv m'.
Proof.
  intros Hc Ha [H0 Hctl]%Inv_split.
  apply Inv_split. split; [by eapply Inv0_core|].
  eapply ctl_inv_core; [|done|done]. by destruct Hc as (_&->&_).
Qed.

Lemma Inv_drop_token m m' taskId :
  same_core m m' -> abortControllers m' = delete taskId (abortControllers m) ->
  Inv m -> Inv m'.
Proof.
  intros Hc Ha [H0 Hctl]%Inv_split.
  apply Inv_split. split; [by eapply Inv0_core|].
  eapply (ctl_inv_delete m); [by destruct Hc as (_&->&_)|done|].
  intros k c _. apply Hctl.
Qed.

Lemma Inv_setState_no_token taskId newState m :
  Inv m -> abortControllers m !! taskId = None -> Inv (setState_st taskId newState m).
Proof.
  intros [H0 Hctl]%Inv_split Hnone. apply Inv_split.
  split; [by apply Inv0_setState | by apply ctl_setState_no_token].
Qed.

Lemma Inv_setState_running taskId newState m :
  Inv m -> status newState = running -> Inv (setState_st taskId newState m).
Proof.
  intros [H0 Hctl]%Inv_split Hrun. apply Inv_split.
  split; [by apply Inv0_setState | by apply ctl_setState_running].
Qed.

Lemma Inv_cancel taskId now m : Inv m -> Inv (cancel_st taskId now m).
Proof.
  intros HI. unfold cancel_st.
  destruct (abortControllers m !! taskId) as [c|] eqn:Hc; [|done].
  set (m0 := with_abortControllers (delete taskId)
               (with_controllers (fun h => <[c := true]> h) m)).
  destruct (clearTimeout_st_fields taskId m0) as (Hcore&Ha&_).
  assert (Inv (clearTimeout_st taskId m0)) as HI1.
  { eapply (Inv_drop_token m _ taskId); [|by rewrite Ha|done].
    eapply same_core_trans; [|exact Hcore]. by repeat split. }
  apply Inv_setState_no_token; [done|].
  rewrite Ha. simpl. apply lookup_delete_eq.
Qed.

Lemma Inv_timeout_callback taskId now m : Inv m -> Inv (timeout_callback_st taskId now m).
Proof.
  intros HI. unfold timeout_callback_st. destruct (negb _); [done|].
  apply Inv_setState_no_token.
  - eapply (Inv_drop_token m _ taskId); [| |done];
      destruct (abortControllers m !! taskId); by repeat split.
  - destruct (abortControllers m !! taskId); simpl; apply lookup_delete_eq.
Qed.

Lemma Inv_fire_timer t now m : Inv m -> Inv (fire_timer_st t now m).
Proof.
  intros HI. unfold fire_timer_st. destruct (timers m !! t) as [[tm|]|]; [|done..].
  apply Inv_timeout_callback. eapply (Inv_same m); [by repeat split|done|done].
Qed.

Lemma Inv_ctx_progress r msg cur tot m : Inv m -> Inv (ctx_progress_st r msg cur tot m).
Proof.
  intros HI. unfold ctx_progress_st. destruct (isStale r m); [done|].
  destruct (negb _); [done|]. by apply Inv_setState_running.
Qed.

Lemma accepts_running taskId newState m :
  is_Some (getState taskId m) -> status newState = running ->
  accepts taskId newState m = true.
Proof.
  unfold accepts, getState, rejects. intros [cur ->] ->.
  by rewrite (bool_decide_true (running = running)), andb_false_r.
Qed.

Lemma Inv_start taskId m : Inv m -> Inv (start_st taskId m).1.
Proof.
  intros HI. unfold start_st, warn_st.
  destruct (tasks m !! taskId) as [task|] eqn:Htask; cycle 1.
  { simpl. destruct (debug m); [|done]. by eapply (Inv_same m); [repeat split| |]. }
  destruct (OMap.get taskId (state m)) as [cur|] eqn:Hcur; cycle 1.
  { simpl. destruct (debug m); [|done]. by eapply (Inv_same m); [repeat split| |]. }
  destruct (bool_decide (status cur = running)).
  { simpl. destruct (debug m); [|done]. by eapply (Inv_same m); [repeat split| |]. }
  simpl. unfold launch_st.
  set (c := length (controllers m)).
  set (g := (default 0 (runGeneration m !! taskId) + 1)%nat).
  set (m0 := with_runGeneration (<[taskId := g]>)
               (with_abortControllers (<[taskId := c]>)
                  (with_controllers (fun h => h ++ [false]) m))).
  destruct (clearTimeout_st_fields taskId m0) as (Hcore&Ha&_).
  set (m1 := clearTimeout_st taskId m0) in *.
  set (new := Running taskId (Some (mkProgress "Starting..." None None))).
  assert (same_core m m1) as Hcore1.
  { eapply same_core_trans; [|exact Hcore]. by repeat split. }
  assert (Inv (setState_st taskId new m1)) as HI2.
  { apply Inv_split in HI as [H0 Hctl]. apply Inv_split. split.
    - apply Inv0_setState. by eapply Inv0_core.
    - intros k c' Hk. destruct (decide (k = taskId)) as [->|Hne].
      + rewrite setState_st_get. rewrite accepts_running; [|..|done].
        * rewrite evicted_by_running by done. simpl. by rewrite decide_True.
        * unfold getState. destruct Hcore1 as (_&->&_). rewrite Hcur. eauto.
      + eapply ctl_setState_other; [|done|exact Hk].
        intros c''. rewrite Ha. unfold getState. destruct Hcore1 as (_&->&_).
        simpl. rewrite lookup_insert_ne by done. apply Hctl. }
  destruct (truthy (timeout task)); [|done].
  by eapply (Inv_same (setState_st taskId new m1)); [repeat split| |].
Qed.

Lemma Inv_runTask r outcome now m : Inv m -> Inv (runTask_st r outcome now m).
Proof.
  intros HI. unfold runTask_st.
  set (taskId := run_task r).
  destruct (negb (isCanceled r m) && negb (isStale r m)) eqn:Hguard; cycle 1.
  { destruct (negb (isStale r m)); [|done].
    destruct (clearTimeout_st_fields taskId (with_abortControllers (delete taskId) m))
      as (Hcore&Ha&_).
    eapply (Inv_drop_token m _ taskId); [|by rewrite Ha|done].
    eapply same_core_trans; [|exact Hcore]. by repeat split. }
  apply andb_prop in Hguard as [_ Hfresh].
  set (mc := match outcome with
             | Ok _ => m
             | Throw e => with_console
                 (fun c => c ++ [ConsoleError ("Task " +:+ quote +:+ taskId +:+ quote +:+ " failed:") e]) m
             end).
  set (s := match outcome with
            | Ok _ => Completed taskId now
            | Throw e => Error taskId now (error_message e)
            end).
  assert (Inv mc) as HIc.
  { unfold mc. destruct outcome; [done|]. by eapply (Inv_same m); [repeat split| |]. }
  assert (isStale r mc = false) as Hfresh_c.
  { unfold mc. destruct outcome;
      [|change (isStale r (with_console ?f m)) with (isStale r m)];
      by destruct (isStale r m). }
  replace (match outcome with
           | Ok _ => setState_st taskId (Completed taskId now) m
           | Throw e => _
           end) with (setState_st taskId s mc) by (unfold s, mc; by destruct outcome).
  clearbody mc s. clear HI Hfresh.
  set (m1 := setState_st taskId s mc).
  apply Inv_split in HIc as [H0 Hctl].
  assert (Inv0 m1) as H1 by by apply Inv0_setState.
  assert (forall k c, k ≠ taskId -> abortControllers m1 !! k = Some c ->
            status_of (getState k m1) = Some running) as Hother.
  { intros k c Hne Hk. eapply ctl_setState_other; [|done|exact Hk].
    intros c'. apply Hctl. }
  destruct (isStale r m1) eqn:Hstale; simpl.
  - apply Inv_split. split; [done|]. intros k c Hk.
    destruct (decide (k = taskId)) as [->|Hne]; [|by eapply Hother].
    exfalso. pose proof (setState_st_maps taskId s mc taskId) as Hm.
    simpl in Hm. destruct Hm as (_&Hac&Hrg&_). fold m1 in Hac, Hrg.
    destruct (_ && _).
    + by rewrite Hac in Hk.
    + unfold isStale in Hstale, Hfresh_c. fold taskId in Hstale, Hfresh_c.
      rewrite Hrg in Hstale. congruence.
  - destruct (clearTimeout_st_fields taskId (with_abortControllers (delete taskId) m1))
      as (Hcore&Ha&_).
    apply Inv_split. split.
    + eapply Inv0_core; [|exact H1].
      eapply same_core_trans; [|exact Hcore]. by repeat split.
    + eapply (ctl_inv_delete m1 _ taskId); [|by rewrite Ha|done].
      by destruct Hcore as (_&->&_).
Qed.

Lemma Inv_subscribers m m' :
  NoDup (sub_ref <$> subscribers m') ->
  tasks m' = tasks m -> state m' = state m -> abortControllers m' = abortControllers m ->
  nextEventId m' = nextEventId m -> eventBuffer m' = eventBuffer m ->
  ringHead m' = ringHead m -> delivered m' = delivered m ->
  maxHistory m' = maxHistory m -> eventBufferSize m' = eventBufferSize m ->
  Inv m -> Inv m'.
Proof.
  intros Hnd Ht Hst Ha Hn Hb Hh Hd HK Hs [H1 H2 H3 H4 H5 [H6 H7 H8 H9]]. split.
  - by rewrite Hst.
  - intros id. unfold getState. rewrite Ht, Hst. apply H2.
  - by eapply ctl_inv_core.
  - unfold term_inv. by rewrite HK, Hst.
  - by eapply ring_inv_core.
  - split; rewrite ?Hn, ?Hd; done.
Qed.

Lemma Inv_subscribe cb m : Inv m -> Inv (exec (subscribe cb) m).
Proof.
  intros HI. unfold exec, subscribe, modify. simpl.
  eapply (Inv_subscribers m); [|done..]. simpl.
  destruct HI as [_ _ _ _ _ [Hnd _ _ _]].
  destruct (bool_decide_reflect (sub_ref cb ∈ sub_ref <$> subscribers m)); [done|].
  rewrite fmap_app. apply NoDup_app. split_and!; [done| |apply NoDup_singleton].
  intros x Hx ->%list_elem_of_singleton. done.
Qed.

Lemma Inv_unsubscribe ref m : Inv m -> Inv (exec (unsubscribe ref) m).
Proof.
  intros HI. unfold exec, unsubscribe, modify. simpl.
  eapply (Inv_subscribers m); [|done..]. simpl.
  destruct HI as [_ _ _ _ _ [Hnd _ _ _]].
  eapply sublist_NoDup; [exact Hnd|]. apply fmap_sublist, sublist_filter.
Qed.

Lemma Inv_dispose m : Inv m -> Inv (dispose_st m).
Proof.
  intros [H1 H2 H3 H4 H5 [H6 H7 H8 H9]]. unfold dispose_st.
  rewrite abort_all_fields, clear_all_fields. split; simpl.
  - constructor.
  - intros id. unfold getState. simpl. rewrite lookup_empty. by split; intros [? ?].
  - intros id c. simpl. by rewrite lookup_empty.
  - unfold term_inv. simpl. unfold terminal_count. simpl. lia.
  - split; simpl; [lia|by left|]. unfold ring_view. simpl. intros i e. by rewrite lookup_nil.
  - split; simpl; [constructor|done..].
Qed.

(** The manager of a freshly built system satisfies the invariant. *)
Lemma Inv_new options : Inv (new_TaskManager options).
Proof.
  split; simpl.
  - constructor.
  - intros id. unfold getState. simpl. rewrite lookup_empty. by split; intros [? ?].
  - intros id c. simpl. by rewrite lookup_empty.
  - unfold term_inv, terminal_count. simpl. lia.
  - split; simpl; [lia|by left|]. unfold ring_view. simpl. intros i e. by rewrite lookup_nil.
  - split; simpl; constructor.
Qed.

Lemma Inv_step op s : Inv (manager s) -> Inv (manager (step op s)).
Proof.
  intros HI.
  destruct op as [id h o|id|id now|k msg cur tot|k outcome now|t now|cb|ref|]; simpl.
  - unfold exec. rewrite register_exec. by apply Inv_register.
  - rewrite start_run. pose proof (Inv_start id _ HI).
    by destruct (start_st id (manager s)).2.
  - unfold exec. rewrite cancel_run. by apply Inv_cancel.
  - destruct (runs s !! k) as [[r ?]|]; [|done]. simpl.
    unfold exec. rewrite ctx_progress_run. by apply Inv_ctx_progress.
  - destruct (runs s !! k) as [[r []]|]; [done| |done]. simpl.
    unfold exec. rewrite runTask_run. by apply Inv_runTask.
  - unfold exec. rewrite fire_timer_run. by apply Inv_fire_timer.
  - by apply Inv_subscribe.
  - by apply Inv_unsubscribe.
  - unfold exec. rewrite dispose_run. by apply Inv_dispose.
Qed.

Lemma Inv_run_ops ops s : Inv (manager s) -> Inv (manager (run_ops ops s)).
Proof.
  revert s. induction ops as [|op ops IH]; intros s HI; simpl; [done|].
  apply IH. by apply Inv_step.
Qed.

Lemma Inv_reachable options ops : Inv (manager (run_ops ops (boot options))).
Proof. apply Inv_run_ops. apply Inv_new. Qed.

(** * The specification's claims *)

(** ** The transition guard and the missing-entry guard of [setState] *)

Lemma accepts_false_noop taskId newState m :
  accepts taskId newState m = false -> setState taskId newState m = (m, Ok tt).
Proof. intros H. by rewrite setState_run, setState_st_unfold, H. Qed.

(** What an accepted [setState] is seen to do. *)
Lemma accepted_effect taskId newState m :
  accepts taskId newState m = true ->
  let m' := exec (setState taskId newState) m in
  let event := mkEvent taskId newState (nextEventId m) in
  nextEventId m' = nextEventId m + 1 /\
  delivered m' = delivered m ++ deliveries (subscribers m) event /\
  console m' = console m ++ subscriber_errors (subscribers m) event /\
  (getState taskId m' = Some newState \/
   (TERMINAL_STATUSES (status newState) = true /\ getState taskId m' = None)) /\
  (TERMINAL_STATUSES (status newState) = false -> getState taskId m' = Some newState).
Proof.
  intros Hacc. unfold exec. rewrite setState_run. simpl.
  rewrite setState_st_get, Hacc.
  rewrite setState_st_unfold, Hacc, evict_all_fields. simpl.
  pose proof (commit_st_fields taskId newState m) as Hf. simpl in Hf.
  destruct Hf as (_&_&_&_&_&_&_&_&_&Fn&_&_&_&_&Fcs&Fd).
  split_and!; [done..| |].
  - unfold evicted_by. destruct (TERMINAL_STATUSES (status newState)).
    + destruct (bool_decide _); [by right|]. left. by rewrite decide_True.
    + left. simpl. by rewrite decide_True.
  - intros Hnt. rewrite evicted_by_running by done. simpl. by rewrite decide_True.
Qed.

(** C10. For a task id with no entry in the state map (never registered,
    evicted, or removed by teardown) [setState] is a complete no-op: the
    manager, its event counter, its replay buffer and the record of
    subscriber calls are all unchanged.  Hence a late [ctx.progress] of a run
    of such an id is a no-op too, and a late settlement of such a run leaves
    the state map, the event counter, the replay buffer and the subscriber
    calls as they were: the entry is not brought back and nothing is emitted. *)
Theorem C10_setState_without_entry_is_noop taskId anyState m :
  getState taskId m = None ->
  setState taskId anyState m = (m, Ok tt) /\
  (forall r msg cur tot, run_task r = taskId ->
     ctx_progress r msg cur tot m = (m, Ok tt)) /\
  (forall r outcome now, run_task r = taskId ->
     let m' := exec (runTask r outcome now) m in
     result (runTask r outcome now) m = Ok tt /\
     state m' = state m /\ nextEventId m' = nextEventId m /\
     eventBuffer m' = eventBuffer m /\ ringHead m' = ringHead m /\
     delivered m' = delivered m).
Proof.
  intros Hnone.
  assert (forall s m0, state m0 = state m -> setState_st taskId s m0 = m0) as Hno.
  { intros s m0 Hst. unfold setState_st. unfold getState in Hnone.
    by rewrite Hst, Hnone. }
  split_and!.
  - rewrite setState_run. by rewrite Hno.
  - intros r msg cur tot <-. rewrite ctx_progress_run. f_equal.
    unfold ctx_progress_st. destruct (isStale r m); [done|].
    unfold getState in Hnone. by rewrite Hnone.
  - intros r outcome now <-. unfold exec, result. rewrite runTask_run. simpl.
    split; [done|]. unfold runTask_st.
    set (m1 := if negb (isCanceled r m) && negb (isStale r m) then _ else m).
    assert (state m1 = state m /\ nextEventId m1 = nextEventId m /\
            eventBuffer m1 = eventBuffer m /\ ringHead m1 = ringHead m /\
            delivered m1 = delivered m) as (E1&E2&E3&E4&E5).
    { unfold m1. destruct (negb (isCanceled r m) && negb (isStale r m)); [|done].
      destruct outcome; rewrite Hno; done. }
    destruct (negb (isStale r m1)); [|done].
    destruct (clearTimeout_st_fields (run_task r)
                (with_abortControllers (delete (run_task r)) m1))
      as ((_&F1&_&F2&F3&F4&F5&_)&_).
    rewrite F1, F2, F3, F4, F5. done.
Qed.

Lemma C10_witness :
  setState "gone" (Completed "gone" 7) (new_TaskManager (mkOptions None None None))
  = (new_TaskManager (mkOptions None None None), Ok tt).
Proof.
  apply (C10_setState_without_entry_is_noop "gone" (Completed "gone" 7)
           (new_TaskManager (mkOptions None None None))).
  reflexivity.
Defined.

(** C2. When the stored status of a task is [canceled] or [timed_out],
    [setState] rejects every proposed state whose status differs from the
    stored one and is not [running]: the manager is unchanged and no event is
    emitted.  A proposed [running] state and a repeat of the stored status
    are accepted: the next event id is taken, the event is handed to every
    subscriber, and the proposed state is stored (a [running] state stays
    stored; a terminal one stays unless the eviction pass that follows
    removes the task). *)
Theorem C2_transition_guard taskId newState m cur :
  getState taskId m = Some cur ->
  status cur = canceled \/ status cur = timed_out ->
  (status newState ≠ status cur -> status newState ≠ running ->
     setState taskId newState m = (m, Ok tt)) /\
  (status newState = status cur \/ status newState = running ->
     let m' := exec (setState taskId newState) m in
     let event := mkEvent taskId newState (nextEventId m) in
     nextEventId m' = nextEventId m + 1 /\
     delivered m' = delivered m ++ deliveries (subscribers m) event /\
     (getState taskId m' = Some newState \/
      (TERMINAL_STATUSES (status newState) = true /\ getState taskId m' = None)) /\
     (status newState = running -> getState taskId m' = Some newState)).
Proof.
  intros Hcur Hst. split.
  - intros Hne Hnr. apply accepts_false_noop. unfold accepts.
    unfold getState in Hcur. rewrite Hcur. unfold rejects.
    rewrite (bool_decide_false (status newState = status cur)) by done.
    rewrite (bool_decide_false (status newState = running)) by done.
    destruct Hst as [-> | ->]; done.
  - intros Hok.
    assert (accepts taskId newState m = true) as Hacc.
    { unfold accepts. unfold getState in Hcur. rewrite Hcur. unfold rejects.
      destruct Hok as [-> | ->].
      - rewrite (bool_decide_true (status cur = status cur)) by done.
        by rewrite andb_false_r.
      - rewrite (bool_decide_true (running = running)) by done.
        by rewrite andb_false_r. }
    destruct (accepted_effect taskId newState m Hacc) as (H1&H2&_&H3&H4).
    split_and!; [done..|]. intros Hr. apply H4. by rewrite Hr.
Qed.

Lemma C2_witness :
  setState "job" (Completed "job" 11) canceled_job = (canceled_job, Ok tt) /\
  getState "job" (exec (setState "job" (Running "job" None)) canceled_job)
  = Some (Running "job" None).
Proof.
  pose proof (C2_transition_guard "job" (Completed "job" 11) canceled_job
                (Canceled "job" 10) eq_refl (or_introl eq_refl)) as [Hrej _].
  pose proof (C2_transition_guard "job" (Running "job" None) canceled_job
                (Canceled "job" 10) eq_refl (or_introl eq_refl)) as [_ Hacc].
  split.
  - apply Hrej; discriminate.
  - apply Hacc; [by right | reflexivity].
Defined.

(** ** Registration *)

(** C5. [register] throws when the id is already registered, whatever the
    configuration of the manager, and leaves the manager as it was.
    Otherwise it returns normally and its whole effect is the two map
    inserts: the descriptor is stored, [getState] of the id is
    [{id, status: "pending"}], every other id and every other field of the
    manager, the event counter and the logs included, is unchanged. *)
Theorem C5_register taskId h options m :
  (is_Some (tasks m !! taskId) ->
     register taskId h options m
     = (m, Throw (ErrorObject
                    ("Task " +:+ quote +:+ taskId +:+ quote +:+ " is already registered")))) /\
  (tasks m !! taskId = None ->
     let m' := exec (register taskId h options) m in
     result (register taskId h options) m = Ok tt /\
     m' = with_state (OMap.set taskId (Pending taskId))
            (with_tasks (<[taskId := mkTask taskId h (options ≫= opt_timeout)]>) m) /\
     tasks m' !! taskId = Some (mkTask taskId h (options ≫= opt_timeout)) /\
     getState taskId m' = Some (Pending taskId) /\
     (forall k, k ≠ taskId ->
        tasks m' !! k = tasks m !! k /\ getState k m' = getState k m) /\
     nextEventId m' = nextEventId m /\ delivered m' = delivered m /\
     eventBuffer m' = eventBuffer m).
Proof.
  split.
  - intros Hhas. unfold register, bind, gets, throw.
    by rewrite bool_decide_true.
  - intros Hnone. unfold exec, result, register, bind, gets, modify. simpl.
    rewrite bool_decide_false by (rewrite Hnone; by intros [? ?]). simpl.
    split_and!; try done.
    + apply lookup_insert_eq.
    + unfold getState. simpl. apply get_set_eq.
    + intros k Hne. unfold getState. simpl.
      by rewrite lookup_insert_ne, get_set_ne.
Qed.

Lemma C5_witness :
  getState "a" (exec (register "a" 0%nat None) (new_TaskManager (mkOptions None None None)))
  = Some (Pending "a") /\
  result (register "a" 1%nat None)
    (exec (register "a" 0%nat None) (new_TaskManager (mkOptions None None None)))
  = Throw (ErrorObject ("Task " +:+ quote +:+ "a" +:+ quote +:+ " is already registered")).
Proof.
  split.
  - apply (C5_register "a" 0%nat None (new_TaskManager (mkOptions None None None))).
    reflexivity.
  - unfold result.
    rewrite (proj1 (C5_register "a" 1%nat None
               (exec (register "a" 0%nat None) (new_TaskManager (mkOptions None None None))))).
    + reflexivity.
    + vm_compute. eauto.
Defined.

(** ** Subscribers that throw *)

Lemma deliveries_silence subs e :
  deliveries ((fun cb => mkSub (sub_ref cb) (fun _ => Ok tt)) <$> subs) e
  = deliveries subs e.
Proof. unfold deliveries. rewrite <- list_fmap_compose. done. Qed.

Lemma engine_silence m : engine m = engine (silence m).
Proof. unfold engine, silence. simpl. by rewrite <- list_fmap_compose. Qed.

Lemma engine_evict_all ids m1 m2 :
  engine m1 = engine m2 -> engine (evict_all ids m1) = engine (evict_all ids m2).
Proof.
  rewrite !evict_all_fields. unfold engine. simpl.
  intros [= -> -> -> -> -> -> -> -> -> -> -> ->]. done.
Qed.

Lemma engine_commit_silence taskId newState m :
  engine (commit_st taskId newState (silence m)) = engine (commit_st taskId newState m).
Proof.
  unfold commit_st, notify_st, buffer_st, engine, silence. simpl.
  destruct (0 <? eventBufferSize m)%nat;
    [destruct (length (eventBuffer m) <? eventBufferSize m)%nat|]; simpl;
    by rewrite deliveries_silence, <- list_fmap_compose.
Qed.

(** C9. Whatever the subscribers do, [setState] returns normally: an
    exception thrown by a callback is caught in the loop and logged.  When
    the transition is accepted every subscriber is called with the event,
    once and in subscription order, the throwing ones included, and one
    console error is logged per callback that threw.  The stored state, the
    event counter, the replay buffer and every other field of the manager
    end up exactly as they do when no subscriber throws. *)
Theorem C9_throwing_subscribers taskId newState m :
  result (setState taskId newState) m = Ok tt /\
  (accepts taskId newState m = true ->
     let m' := exec (setState taskId newState) m in
     let event := mkEvent taskId newState (nextEventId m) in
     delivered m' = delivered m ++ ((fun cb => (sub_ref cb, event)) <$> subscribers m) /\
     console m' = console m ++ subscriber_errors (subscribers m) event /\
     (forall cb, cb ∈ subscribers m -> (sub_ref cb, event) ∈ delivered m')) /\
  engine (exec (setState taskId newState) m)
  = engine (exec (setState taskId newState) (silence m)).
Proof.
  split_and!.
  - unfold result. by rewrite setState_run.
  - intros Hacc. destruct (accepted_effect taskId newState m Hacc) as (_&H2&H3&_).
    split_and!; [done..|]. intros cb Hcb. simpl in H2. rewrite H2.
    apply elem_of_app. right. apply list_elem_of_fmap. by exists cb.
  - unfold exec. rewrite !setState_run. simpl.
    rewrite !setState_st_unfold.
    assert (accepts taskId newState (silence m) = accepts taskId newState m) as -> by done.
    destruct (accepts taskId newState m); [|apply engine_silence].
    assert (evicted_by taskId newState (silence m) = evicted_by taskId newState m) as ->.
    { unfold evicted_by, toEvict.
      destruct (commit_st_fields taskId newState m) as (_&E1&_&_&_&_&_&E2&_).
      destruct (commit_st_fields taskId newState (silence m)) as (_&E3&_&_&_&_&_&E4&_).
      cbv zeta in *. by rewrite E1, E2, E3, E4. }
    apply engine_evict_all. symmetry. apply engine_commit_silence.
Qed.

Lemma C9_witness :
  let m' := exec (setState "job" (Running "job" None)) pending_job in
  let event := mkEvent "job" (Running "job" None) 1 in
  delivered m' = [(1%nat, event); (2%nat, event)] /\
  console m' = [ConsoleError "Error in task subscriber:" (ErrorObject "boom")] /\
  (forall cb, cb ∈ subscribers pending_job -> (sub_ref cb, event) ∈ delivered m').
Proof.
  apply (proj1 (proj2 (C9_throwing_subscribers "job" (Running "job" None) pending_job))).
  reflexivity.
Defined.

(** ** Event ids *)

Lemma StronglySorted_sublist {A} (R : A -> A -> Prop) (l1 l2 : list A) :
  l1 `sublist_of` l2 -> StronglySorted R l2 -> StronglySorted R l1.
Proof.
  induction 1 as [|x l1 l2 Hsub IH|x l1 l2 Hsub IH]; intros Hs.
  - constructor.
  - apply StronglySorted_cons in Hs as [Hx Hs]. constructor; [by apply IH|].
    rewrite Forall_forall in *. intros y Hy. apply Hx.
    by eapply elem_of_sublist.
  - apply StronglySorted_cons in Hs as [_ Hs]. by apply IH.
Qed.






(** ** Replay *)

Lemma events_loop_fold (g : nat -> option TaskUpdateEvent) (lastEventId : Z)
    (idxs : list nat) (acc : list TaskUpdateEvent) :
  foldl (fun result i =>
           match g i with
           | Some event =>
               if lastEventId <? eventId event then result ++ [event] else result
           | None => result
           end) acc idxs
  = acc ++ filter (fun e => lastEventId < eventId e) (omap g idxs).
Proof.
  revert acc. induction idxs as [|i idxs IH]; intros acc; simpl.
  - by rewrite app_nil_r.
  - rewrite IH. destruct (g i) as [e|]; [|done].
    rewrite filter_cons. destruct (Z.ltb_spec lastEventId (eventId e)).
    + rewrite decide_True by done. by rewrite <- app_assoc.
    + rewrite decide_False by lia. done.
Qed.

Lemma omap_seq_view {A} (g : nat -> option A) (view : list A) (s n : nat) :
  (s + n <= length view)%nat ->
  (forall i, (s <= i < s + n)%nat -> g i = view !! i) ->
  omap g (seq s n) = take n (drop s view).
Proof.
  revert s. induction n as [|n IH]; intros s Hlen Hg; simpl; [done|].
  destruct (lookup_lt_is_Some_2 view s) as [x Hx]; [lia|].
  rewrite (Hg s) by lia. rewrite Hx.
  rewrite (drop_S _ _ _ Hx). simpl. f_equal.
  apply IH; [lia|]. intros i Hi. apply Hg. lia.
Qed.

Lemma ring_lookup {A} (buf : list A) (h i : nat) :
  (h < length buf)%nat -> (i < length buf)%nat ->
  (drop h buf ++ take h buf) !! i = buf !! ((h + i) mod length buf)%nat.
Proof.
  intros Hh Hi. destruct (decide (h + i < length buf)%nat) as [Hlt|Hge].
  - rewrite lookup_app_l by (rewrite length_drop; lia).
    rewrite lookup_drop. by rewrite Nat.mod_small.
  - rewrite lookup_app_r by (rewrite length_drop; lia).
    rewrite length_drop. rewrite lookup_take_lt by lia.
    f_equal. replace (h + i)%nat with ((i - (length buf - h)) + 1 * length buf)%nat by lia.
    rewrite Nat.Div0.mod_add. rewrite Nat.mod_small; lia.
Qed.

Lemma events_loop_view buf h lastEventId :
  (h < length buf)%nat ->
  events_loop buf h lastEventId
  = filter (fun e => lastEventId < eventId e) (drop h buf ++ take h buf).
Proof.
  intros Hh. unfold events_loop.
  rewrite (events_loop_fold (fun i => buf !! ((h + i) mod length buf)%nat)). simpl.
  f_equal. rewrite (omap_seq_view _ (drop h buf ++ take h buf)).
  - rewrite drop_0. apply take_ge. rewrite length_app, length_drop, length_take. lia.
  - rewrite length_app, length_drop, length_take. lia.
  - intros i Hi. symmetry. apply ring_lookup; lia.
Qed.

Lemma elem_of_ring_view m e : e ∈ ring_view m <-> e ∈ eventBuffer m.
Proof.
  unfold ring_view. rewrite elem_of_app.
  rewrite <- (take_drop (ringHead m) (eventBuffer m)) at 3.
  rewrite elem_of_app. tauto.
Qed.

Lemma ring_view_length m : length (ring_view m) = length (eventBuffer m).
Proof.
  unfold ring_view. rewrite length_app, length_drop, length_take. lia.
Qed.

Lemma ring_view_sorted m :
  ring_inv m -> StronglySorted Z.lt (eventId <$> ring_view m).
Proof.
  intros [_ _ Hids]. revert Hids. generalize (ring_view m) as v.
  generalize (nextEventId m - Z.of_nat (length (eventBuffer m))) as base.
  intros base v. revert base. induction v as [|e v IH]; intros base Hids; simpl.
  - constructor.
  - constructor.
    + apply (IH (base + 1)). intros i e' Hi.
      rewrite (Hids (S i) e' Hi). lia.
    + apply Forall_forall. intros x [e' [-> He']]%list_elem_of_fmap.
      apply list_elem_of_lookup in He' as [i Hi].
      rewrite (Hids 0%nat e eq_refl), (Hids (S i) e' Hi). lia.
Qed.

Lemma StronglySorted_filter_fmap {A} (f : A -> Z) (P : A -> Prop)
    `{!forall x, Decision (P x)} (l : list A) :
  StronglySorted Z.lt (f <$> l) -> StronglySorted Z.lt (f <$> filter P l).
Proof. apply StronglySorted_sublist, fmap_sublist, sublist_filter. Qed.

(** What [getEventsSince] computes in a state where the ring is in order
    and not empty. *)
Lemma getEventsSince_ring lastEventId m :
  ring_inv m -> eventBufferSize m ≠ 0%nat -> eventBuffer m ≠ [] ->
  exists oldest, head (ring_view m) = Some oldest /\ is_oldest m oldest /\
    getEventsSince lastEventId m =
      (m, Ok (if lastEventId <? eventId oldest - 1 then None
              else Some (filter (fun e => lastEventId < eventId e) (ring_view m)))).
Proof.
  intros Hring Hsize Hbuf. pose proof Hring as [Hlen Hhead Hids].
  assert (0 < length (eventBuffer m))%nat as Hpos.
  { destruct (eventBuffer m); [done|simpl; lia]. }
  assert (ringHead m < length (eventBuffer m))%nat as Hh.
  { destruct Hhead as [->|[? ?]]; lia. }
  assert ((if (length (eventBuffer m) <? eventBufferSize m)%nat then 0%nat else ringHead m)
          = ringHead m) as Hidx.
  { destruct (Nat.ltb_spec (length (eventBuffer m)) (eventBufferSize m)); [|done].
    destruct Hhead as [->|[? ?]]; [done|lia]. }
  destruct (lookup_lt_is_Some_2 _ _ Hh) as [oldest Hold].
  assert (ring_view m !! 0%nat = Some oldest) as Hv0.
  { unfold ring_view. rewrite lookup_app_l by (rewrite length_drop; lia).
    rewrite lookup_drop. by rewrite Nat.add_0_r. }
  exists oldest. split_and!.
  - by rewrite <- head_lookup in Hv0.
  - split; [by eapply list_elem_of_lookup_2|].
    intros e' [i Hi]%elem_of_ring_view%list_elem_of_lookup.
    rewrite (Hids _ _ Hv0), (Hids _ _ Hi). lia.
  - unfold getEventsSince, bind, gets, ret.
    rewrite (proj2 (Nat.eqb_neq _ _) Hsize).
    assert ((length (eventBuffer m) =? 0)%nat = false) as -> by (apply Nat.eqb_neq; lia).
    rewrite Hidx, Hold.
    destruct (lastEventId <? eventId oldest - 1); [done|].
    by rewrite events_loop_view.
Qed.

Lemma sse_start_served lastId m l :
  getEventsSince lastId m = (m, Ok (Some l)) ->
  sse_start (Some lastId) m = (m, Ok (update_frames l)).
Proof. intros H. unfold sse_start, bind at 1. unfold bind at 1. by rewrite H. Qed.

Lemma sse_start_fallback lastId m :
  getEventsSince lastId m = (m, Ok None) ->
  sse_start (Some lastId) m = (m, Ok (init_dump m)).
Proof. intros H. unfold sse_start, bind at 1. unfold bind at 1. by rewrite H. Qed.

(** C7. In every state the manager reaches, [getEventsSince(lastId)]
    - returns [undefined] when buffering is disabled (capacity 0);
    - returns [undefined] when [lastId] is below the id of the oldest
      buffered event minus one;
    - returns the empty array when [lastId] is the current event id;
    - otherwise returns exactly the buffered events whose id is greater than
      [lastId], in strictly ascending order of id.
    On [undefined] the stream handler, its caller, sends the full snapshot;
    otherwise it sends the returned events and nothing else. *)
Theorem C7_getEventsSince options ops lastId :
  let m := manager (run_ops ops (boot options)) in
  (eventBufferSize m = 0%nat ->
     getEventsSince lastId m = (m, Ok None) /\
     sse_start (Some lastId) m = (m, Ok (init_dump m))) /\
  (eventBufferSize m ≠ 0%nat ->
     forall oldest, is_oldest m oldest -> lastId < eventId oldest - 1 ->
     getEventsSince lastId m = (m, Ok None) /\
     sse_start (Some lastId) m = (m, Ok (init_dump m))) /\
  (eventBufferSize m ≠ 0%nat -> lastId = getCurrentEventId m ->
     getEventsSince lastId m = (m, Ok (Some [])) /\
     sse_start (Some lastId) m = (m, Ok [])) /\
  (eventBufferSize m ≠ 0%nat ->
     (forall oldest, is_oldest m oldest -> eventId oldest - 1 <= lastId) ->
     exists l, getEventsSince lastId m = (m, Ok (Some l)) /\
       StronglySorted Z.lt (eventId <$> l) /\
       (forall e, e ∈ l <-> e ∈ eventBuffer m /\ lastId < eventId e) /\
       sse_start (Some lastId) m = (m, Ok (update_frames l))).
Proof.
  simpl. set (m := manager (run_ops ops (boot options))).
  destruct (Inv_reachable options ops) as [_ _ _ _ Hring _]. fold m in Hring.
  assert (eventBufferSize m = 0%nat -> getEventsSince lastId m = (m, Ok None)) as C1.
  { intros Hz. unfold getEventsSince, bind, gets, ret. by rewrite Hz. }
  assert (eventBufferSize m ≠ 0%nat ->
          forall oldest, is_oldest m oldest -> lastId < eventId oldest - 1 ->
          getEventsSince lastId m = (m, Ok None)) as C2.
  { intros Hsize oldest [Hin Hmin] Hgap.
    assert (eventBuffer m ≠ []) as Hbuf
      by (intros E; rewrite E in Hin; by apply elem_of_nil in Hin).
    destruct (getEventsSince_ring lastId m Hring Hsize Hbuf) as (o&_&[Ho1 Ho2]&->).
    assert (eventId o = eventId oldest) as -> by (apply Z.le_antisymm; auto).
    by rewrite (proj2 (Z.ltb_lt _ _) Hgap). }
  assert (eventBufferSize m ≠ 0%nat -> lastId = getCurrentEventId m ->
          getEventsSince lastId m = (m, Ok (Some []))) as C3.
  { intros Hsize ->. destruct (eventBuffer m) as [|e0 b] eqn:Hbuf.
    { unfold getEventsSince, bind, gets, ret.
      rewrite (proj2 (Nat.eqb_neq _ _) Hsize). by rewrite Hbuf. }
    assert (eventBuffer m ≠ []) as Hne by by rewrite Hbuf.
    destruct (getEventsSince_ring (getCurrentEventId m) m Hring Hsize Hne)
      as (o&Hhd&[Ho1 Ho2]&->).
    destruct Hring as [Hlen Hhead Hids].
    assert (forall e, e ∈ ring_view m -> eventId e <= getCurrentEventId m) as Hall.
    { intros e [i Hi]%list_elem_of_lookup. rewrite (Hids _ _ Hi).
      apply lookup_lt_Some in Hi. rewrite ring_view_length in Hi.
      unfold getCurrentEventId. lia. }
    assert (eventId o <= getCurrentEventId m) as Hle.
    { apply Hall. by apply elem_of_ring_view. }
    rewrite (proj2 (Z.ltb_ge _ _)) by lia.
    rewrite filter_none; [done|]. apply Forall_forall. intros e He.
    specialize (Hall e He). lia. }
  split_and!.
  - intros Hz. split; [by apply C1|]. by apply sse_start_fallback, C1.
  - intros Hsize oldest Hold Hgap. split; [by eapply C2|].
    by eapply sse_start_fallback, C2.
  - intros Hsize Hcur. split; [by apply C3|].
    by apply (sse_start_served lastId m []), C3.
  - intros Hsize Hnogap.
    assert (exists l, getEventsSince lastId m = (m, Ok (Some l)) /\
              StronglySorted Z.lt (eventId <$> l) /\
              (forall e, e ∈ l <-> e ∈ eventBuffer m /\ lastId < eventId e))
      as (l&Hl&Hs&He).
    { destruct (eventBuffer m) as [|e0 b] eqn:Hbuf.
      { exists []. split_and!.
        - unfold getEventsSince, bind, gets, ret.
          rewrite (proj2 (Nat.eqb_neq _ _) Hsize). by rewrite Hbuf.
        - constructor.
        - intros e. split; [by intros ?%elem_of_nil|]. by intros [?%elem_of_nil _]. }
      assert (eventBuffer m ≠ []) as Hne by by rewrite Hbuf.
      destruct (getEventsSince_ring lastId m Hring Hsize Hne) as (o&Hhd&Ho&->).
      rewrite <- Hbuf in *.
      rewrite (proj2 (Z.ltb_ge _ _)) by (by apply Hnogap).
      eexists. split_and!; [done| |].
      + apply StronglySorted_filter_fmap. by apply ring_view_sorted.
      + intros e. rewrite list_elem_of_filter, elem_of_ring_view. tauto. }
    exists l. split_and!; [done..|]. by apply sse_start_served.
Qed.

Lemma replay_buffer :
  eventBuffer (manager (run_ops replay_trace (boot replay_options)))
  = [done_event; half_event].
Proof. vm_compute. reflexivity. Qed.

Lemma replay_oldest oldest :
  is_oldest (manager (run_ops replay_trace (boot replay_options))) oldest ->
  eventId oldest = 2.
Proof.
  unfold is_oldest. rewrite replay_buffer. intros [Hin Hmin].
  assert (eventId oldest <= 2) as Hle.
  { apply (Hmin half_event). apply list_elem_of_further, list_elem_of_here. }
  apply elem_of_cons in Hin as [->|[->|[]%elem_of_nil]%elem_of_cons].
  - simpl in Hle. lia.
  - reflexivity.
Qed.

Lemma C7_witness :
  getEventsSince 3 (manager (run_ops replay_trace (boot no_options)))
  = (manager (run_ops replay_trace (boot no_options)), Ok None) /\
  getEventsSince 0 (manager (run_ops replay_trace (boot replay_options)))
  = (manager (run_ops replay_trace (boot replay_options)), Ok None) /\
  getEventsSince 3 (manager (run_ops replay_trace (boot replay_options)))
  = (manager (run_ops replay_trace (boot replay_options)), Ok (Some [])) /\
  exists l,
    getEventsSince 1 (manager (run_ops replay_trace (boot replay_options)))
    = (manager (run_ops replay_trace (boot replay_options)), Ok (Some l)) /\
    StronglySorted Z.lt (eventId <$> l) /\
    (forall e, e ∈ l <->
       e ∈ eventBuffer (manager (run_ops replay_trace (boot replay_options))) /\
       1 < eventId e).
Proof.
  split_and!.
  - apply (proj1 (C7_getEventsSince no_options replay_trace 3)). vm_compute; reflexivity.
  - destruct (C7_getEventsSince replay_options replay_trace 0) as (_&H&_).
    apply (H ltac:(vm_compute; discriminate) half_event); clear H.
    + unfold is_oldest. rewrite replay_buffer.
      split; [apply list_elem_of_further, list_elem_of_here|].
      intros e' [->|[->|[]%elem_of_nil]%elem_of_cons]%elem_of_cons; simpl; lia.
    + simpl. lia.
  - destruct (C7_getEventsSince replay_options replay_trace 3) as (_&_&H&_).
    apply H; [vm_compute; discriminate | vm_compute; reflexivity].
  - destruct (C7_getEventsSince replay_options replay_trace 1) as (_&_&_&H).
    destruct H as (l&H1&H2&H3&_); [vm_compute; discriminate| |by exists l].
    intros oldest Ho. rewrite (replay_oldest oldest Ho). lia.
Defined.

(** ** History eviction *)

Lemma toEvict_elem m a : a ∈ toEvict m -> a ∈ terminalTasks (state m).
Proof.
  destruct (toEvict_spec m) as (n & -> & _). intros Ha.
  rewrite <- (sort_by_lastRun_Permutation (terminalTasks (state m))).
  by eapply (subseteq_take n).
Qed.

Lemma toEvict_oldest m a b :
  a ∈ toEvict m -> b ∈ terminalTasks (state m) -> b.1 ∉ (toEvict m).*1 ->
  a.2 <= b.2.
Proof.
  destruct (toEvict_spec m) as (n & -> & _). intros Ha Hb Hnot.
  set (S := sort_by_lastRun (terminalTasks (state m))) in *.
  assert (b ∈ take n S ++ drop n S) as Hb'.
  { rewrite take_drop. unfold S. by rewrite sort_by_lastRun_Permutation. }
  apply elem_of_app in Hb' as [Hb'|Hb'].
  - exfalso. apply Hnot. apply list_elem_of_fmap. by exists b.
  - eapply (StronglySorted_take_drop older S n a b); [|done..].
    apply sort_by_lastRun_sorted.
Qed.

Lemma terminalTasks_get st id t :
  NoDup (OMap.keys st) -> (id, t) ∈ terminalTasks st ->
  exists s, OMap.get id st = Some s /\ TERMINAL_STATUSES (status s) = true /\
    lastRun s = Some t.
Proof.
  intros Hnd (s&Hin&Ht&Hl)%terminalTasks_elem.
  exists s. split_and!; [|done..]. by apply elem_get.
Qed.

Lemma get_terminalTasks st id s :
  OMap.get id st = Some s -> TERMINAL_STATUSES (status s) = true ->
  exists t, lastRun s = Some t /\ (id, t) ∈ terminalTasks st.
Proof.
  intros Hg Ht. assert (exists t, lastRun s = Some t) as [t Hl].
  { destruct s; simpl in *; eauto; discriminate. }
  exists t. split; [done|]. apply terminalTasks_elem. exists s.
  split_and!; [|done..]. by apply get_Some_elem.
Qed.

Lemma toEvict_take m :
  maxHistory m ≠ 0%nat ->
  toEvict m = take (length (terminalTasks (state m)) - maxHistory m)
                (sort_by_lastRun (terminalTasks (state m))).
Proof.
  intros HK. unfold toEvict. rewrite (proj2 (Nat.eqb_neq _ _) HK).
  destruct (Nat.leb_spec (length (terminalTasks (state m))) (maxHistory m)); [|done].
  replace (length (terminalTasks (state m)) - maxHistory m)%nat with 0%nat by lia.
  by rewrite take_0.
Qed.

(** With more than [maxHistory] terminal tasks, eviction leaves exactly
    [maxHistory] of them. *)
Lemma evict_st_exact m :
  NoDup (OMap.keys (state m)) -> maxHistory m ≠ 0%nat ->
  (maxHistory m < terminal_count (state m))%nat ->
  terminal_count (state (evict_st m)) = maxHistory m.
Proof.
  intros Hnd HK Hmore. rewrite <- !terminalTasks_length in *. unfold evict_st.
  rewrite evict_all_fields. simpl. rewrite terminalTasks_delete_list.
  rewrite toEvict_take by done.
  set (T := terminalTasks (state m)) in *. set (S := sort_by_lastRun T).
  set (n := (length T - maxHistory m)%nat).
  assert (HP : T ≡ₚ take n S ++ drop n S).
  { rewrite take_drop. symmetry. apply sort_by_lastRun_Permutation. }
  assert (NoDup (take n S ++ drop n S).*1) as HndS.
  { rewrite <- HP. by apply terminalTasks_NoDup. }
  rewrite fmap_app in HndS. apply NoDup_app in HndS as (_&Hdisj&_).
  rewrite HP, filter_app, length_app.
  rewrite filter_none; cycle 1.
  { apply Forall_forall. intros p Hp Hnot. apply Hnot.
    apply list_elem_of_fmap. by exists p. }
  rewrite filter_all; cycle 1.
  { apply Forall_forall. intros p Hp Hin. apply (Hdisj p.1); [done|].
    apply list_elem_of_fmap. by exists p. }
  simpl. rewrite length_drop. unfold S.
  rewrite (Permutation_length (sort_by_lastRun_Permutation T)). lia.
Qed.

(** C6. With [maxHistory = K > 0], in every state the manager reaches at
    most [K] tasks are in a terminal status and the state map has one entry
    per id.  And whenever [setState] accepts a transition into a terminal
    status in a manager whose state map has one entry per id (every call of
    [setState] is made on the state map of a reachable state):
    - at most [K] tasks are in a terminal status afterwards, exactly [K] if
      the transition brought the number above [K];
    - a task the transition evicted is gone from the descriptor map, the
      state map, the token map, the generation map and the timer map;
    - an evicted task was in a terminal status, and was last run no later
      than any terminal task that is left;
    - a task that was running or pending is still there, with its state,
      descriptor, token, generation and timer entry;
    - the tasks that are left have the state they had. *)
Theorem C6_history_bound :
  (forall options ops,
     let m := manager (run_ops ops (boot options)) in
     (0 < maxHistory m)%nat ->
     NoDup (OMap.keys (state m)) /\
     (terminal_count (state m) <= maxHistory m)%nat) /\
  (forall m taskId newState,
    let K := maxHistory m in
    (0 < K)%nat ->
    NoDup (OMap.keys (state m)) ->
    TERMINAL_STATUSES (status newState) = true ->
    accepts taskId newState m = true ->
    let before := OMap.set taskId newState (state m) in
    let m' := exec (setState taskId newState) m in
    (terminal_count (state m') <= K)%nat /\
    ((K < terminal_count before)%nat -> terminal_count (state m') = K) /\
    (forall id, is_Some (OMap.get id before) -> getState id m' = None ->
       tasks m' !! id = None /\ abortControllers m' !! id = None /\
       runGeneration m' !! id = None /\ timeouts m' !! id = None) /\
    (forall id s, OMap.get id before = Some s -> getState id m' = None ->
       TERMINAL_STATUSES (status s) = true /\
       forall id' s', getState id' m' = Some s' ->
         TERMINAL_STATUSES (status s') = true -> lastRun_le s s') /\
    (forall id s, OMap.get id before = Some s ->
       TERMINAL_STATUSES (status s) = false ->
       getState id m' = Some s /\ tasks m' !! id = tasks m !! id /\
       abortControllers m' !! id = abortControllers m !! id /\
       runGeneration m' !! id = runGeneration m !! id /\
       timeouts m' !! id = timeouts m !! id) /\
    (forall id s', getState id m' = Some s' -> OMap.get id before = Some s')).
Proof.
  split.
  { intros options ops m HK.
    destruct (Inv_reachable options ops) as [Hnd _ _ Hterm _ _].
    split; [done|]. apply Hterm. fold m. lia. }
  intros m taskId newState K HK Hnd Hnew Hacc. cbv zeta. subst K.
  unfold exec. rewrite setState_run. simpl.
  pose proof (setState_st_unfold taskId newState m) as Hst.
  rewrite Hacc in Hst. unfold evicted_by in Hst. rewrite Hnew in Hst.
  pose proof (commit_st_fields taskId newState m) as Hf. cbv zeta in Hf.
  destruct Hf as (Ft&Fst&_&Fac&Frg&Fto&_&FK&_).
  remember (commit_st taskId newState m) as mc eqn:Hmc.
  assert (NoDup (OMap.keys (state mc))) as Hndc.
  { rewrite Fst. by apply NoDup_keys_set. }
  assert (maxHistory mc ≠ 0%nat) as HKc by (rewrite FK; lia).
  assert (setState_st taskId newState m = evict_st mc) as Hev by done.
  rewrite Hev. rewrite <- Fst, <- FK.
  assert (forall id, getState id (evict_st mc)
                     = if bool_decide (id ∈ (toEvict mc).*1) then None
                       else OMap.get id (state mc)) as Hget.
  { intros id. unfold getState, evict_st. rewrite evict_all_fields. simpl.
    apply get_delete_list. }
  assert (forall id,
     tasks (evict_st mc) !! id
       = (if bool_decide (id ∈ (toEvict mc).*1) then None else tasks m !! id) /\
     abortControllers (evict_st mc) !! id
       = (if bool_decide (id ∈ (toEvict mc).*1) then None else abortControllers m !! id) /\
     runGeneration (evict_st mc) !! id
       = (if bool_decide (id ∈ (toEvict mc).*1) then None else runGeneration m !! id) /\
     timeouts (evict_st mc) !! id
       = (if bool_decide (id ∈ (toEvict mc).*1) then None else timeouts m !! id)) as Hmaps.
  { intros id. unfold evict_st. rewrite evict_all_fields. simpl.
    rewrite !lookup_delete_list, Ft, Fac, Frg, Fto. done. }
  assert (forall id s, OMap.get id (state mc) = Some s ->
            TERMINAL_STATUSES (status s) = false -> id ∉ (toEvict mc).*1) as Hkeep.
  { intros id s Hg Hnt [[id' t] [-> Hin]]%list_elem_of_fmap. simpl in *.
    apply toEvict_elem in Hin.
    destruct (terminalTasks_get _ _ _ Hndc Hin) as (s0&Hg0&Ht0&_). congruence. }
  split_and!.
  - by apply evict_st_bound.
  - by apply evict_st_exact.
  - intros id [s Hs] Hgone. specialize (Hget id). rewrite Hgone in Hget.
    destruct (Hmaps id) as (->&->&->&->).
    destruct (bool_decide (id ∈ (toEvict mc).*1)); [done|].
    exfalso. congruence.
  - intros id s Hg Hgone. rewrite Hget in Hgone.
    destruct (bool_decide_reflect (id ∈ (toEvict mc).*1)) as [Hin|]; [|congruence].
    apply list_elem_of_fmap in Hin as [[id0 t] [-> Hin]]. simpl in *.
    destruct (terminalTasks_get _ _ _ Hndc (toEvict_elem _ _ Hin)) as (s0&Hg0&Ht0&Hl0).
    assert (s0 = s) as -> by congruence. split; [done|].
    intros id' s' Hg' Ht'. rewrite Hget in Hg'.
    destruct (bool_decide_reflect (id' ∈ (toEvict mc).*1)) as [|Hout]; [done|].
    destruct (get_terminalTasks _ _ _ Hg' Ht') as (t'&Hl'&Hin').
    unfold lastRun_le. rewrite Hl0, Hl'.
    by apply (toEvict_oldest mc (id0, t) (id', t')).
  - intros id s Hg Hnt. specialize (Hkeep id s Hg Hnt).
    rewrite Hget. destruct (Hmaps id) as (->&->&->&->).
    rewrite bool_decide_false by done. done.
  - intros id s'. rewrite Hget. by destruct (bool_decide _).
Qed.

Lemma C6_witness :
  let m := manager (run_ops evict_trace (boot evict_options)) in
  let m' := exec (setState "A" (Canceled "A" 9)) m in
  (terminal_count (state m) <= maxHistory m)%nat /\
  (terminal_count (state m') <= maxHistory m)%nat /\
  terminal_count (state m') = maxHistory m /\
  (tasks m' !! "B" = None /\ abortControllers m' !! "B" = None /\
   runGeneration m' !! "B" = None /\ timeouts m' !! "B" = None).
Proof.
  cbv zeta.
  destruct C6_history_bound as [Hreach H].
  pose proof (Hreach evict_options evict_trace) as H0. cbv zeta in H0.
  destruct H0 as [Hnd H0]; [vm_compute; constructor|].
  pose proof (H (manager (run_ops evict_trace (boot evict_options)))
                "A" (Canceled "A" 9)) as H'. cbv zeta in H'.
  destruct H' as (H1&H2&H3&_);
    [vm_compute; constructor | exact Hnd | reflexivity | vm_compute; reflexivity |].
  clear H Hreach.
  destruct (H3 "B") as (E1&E2&E3&E4);
    [vm_compute; eauto | vm_compute; reflexivity |].
  split_and!; [exact H0 | exact H1 | | exact E1 | exact E2 | exact E3 | exact E4].
  apply H2. vm_compute. constructor.
Defined.

Example evicted_task_timer_stays_pending :
  let m := manager (run_ops leak_trace (boot evict_options)) in
  getState "A" m = None /\ timeouts m !! "A" = None /\
  timers m !! 0%nat = Some (Some (mkTimer "A" 1000)).
Proof. cbv zeta. split_and!; vm_compute; reflexivity. Qed.

(** ** Timeouts *)

Lemma settled_core taskId m m' : state m' = state m -> settled taskId m -> settled taskId m'.
Proof. unfold settled, getState. by intros ->. Qed.

(** [setState] keeps a task settled unless it writes [running] or
    [timed_out] to that very task. *)
Lemma settled_setState taskId k newState m :
  settled taskId m ->
  (k = taskId -> status newState ≠ running /\ status newState ≠ timed_out) ->
  settled taskId (setState_st k newState m).
Proof.
  intros [H1 H2] Hnew. unfold settled. rewrite setState_st_get.
  destruct (accepts k newState m); [|done].
  destruct (bool_decide _); [done|].
  destruct (decide (k = taskId)) as [->|]; [|done].
  destruct (Hnew eq_refl). simpl. split; congruence.
Qed.

Lemma settled_not_running taskId m :
  settled taskId m ->
  bool_decide (status_of (OMap.get taskId (state m)) = Some running) = false.
Proof. intros [H _]. by apply bool_decide_false. Qed.

Lemma settled_clearTimeout taskId k m :
  settled taskId m -> settled taskId (clearTimeout_st k m).
Proof.
  apply settled_core. by destruct (clearTimeout_st_fields k m) as ((_&->&_)&_).
Qed.

Lemma settled_step op s taskId :
  op ≠ Start taskId ->
  settled taskId (manager s) -> settled taskId (manager (step op s)).
Proof.
  intros Hop Hs.
  destruct op as [id h o|id|id now|k msg cur tot|k outcome now|t now|cb|ref|]; simpl.
  - unfold exec. rewrite register_exec. unfold register_st.
    destruct (bool_decide _); [done|]. unfold settled, getState. simpl.
    destruct (decide (id = taskId)) as [->|Hne].
    + rewrite get_set_eq. simpl. split; congruence.
    + by rewrite get_set_ne.
  - rewrite start_run.
    assert (settled taskId (start_st id (manager s)).1) as H;
      [|by destruct (start_st id (manager s)).2].
    unfold start_st, warn_st.
    destruct (tasks (manager s) !! id) as [task|];
      [|simpl; by destruct (debug (manager s))].
    destruct (OMap.get id (state (manager s))) as [cur|];
      [|simpl; by destruct (debug (manager s))].
    destruct (bool_decide (status cur = running));
      [simpl; by destruct (debug (manager s))|].
    simpl. unfold launch_st. cbv zeta.
    assert (id ≠ taskId) as Hne by congruence.
    set (m1 := setState_st id _ _).
    assert (settled taskId m1) as Hb.
    { apply settled_setState; [|done]. by apply settled_clearTimeout. }
    by destruct (truthy (timeout task)).
  - unfold exec. rewrite cancel_run. unfold cancel_st.
    destruct (abortControllers (manager s) !! id); [|done].
    apply settled_setState; [|done]. by apply settled_clearTimeout.
  - destruct (runs s !! k) as [[r ?]|]; [|done]. simpl.
    unfold exec. rewrite ctx_progress_run. unfold ctx_progress_st.
    destruct (isStale r (manager s)); [done|].
    destruct (bool_decide_reflect
      (status_of (OMap.get (run_task r) (state (manager s))) = Some running))
      as [Hrun|]; [|done].
    simpl. apply settled_setState; [done|]. intros Heq. rewrite Heq in Hrun.
    destruct Hs as [Hs _]. exfalso. apply Hs. exact Hrun.
  - destruct (runs s !! k) as [[r []]|]; [done| |done]. simpl.
    unfold exec. rewrite runTask_run. unfold runTask_st. cbv zeta.
    set (m1 := if negb (isCanceled r (manager s)) && negb (isStale r (manager s))
               then _ else manager s).
    assert (settled taskId m1) as Hb.
    { unfold m1.
      destruct (negb (isCanceled r (manager s)) && negb (isStale r (manager s))); [|done].
      destruct outcome; by apply settled_setState. }
    destruct (negb (isStale r m1)); [|done]. by apply settled_clearTimeout.
  - unfold exec. rewrite fire_timer_run. unfold fire_timer_st.
    destruct (timers (manager s) !! t) as [[tm|]|]; [|done..].
    unfold timeout_callback_st. simpl.
    destruct (bool_decide_reflect
      (status_of (OMap.get (timer_task tm) (state (manager s))) = Some running))
      as [Hrun|]; [|done].
    simpl. apply settled_setState.
    + by destruct (abortControllers (manager s) !! timer_task tm).
    + intros Heq. rewrite Heq in Hrun. destruct Hs as [Hs _].
      exfalso. apply Hs. exact Hrun.
  - done.
  - done.
  - unfold exec. rewrite dispose_run. unfold dispose_st, settled, getState.
    rewrite abort_all_fields, clear_all_fields. simpl. split; discriminate.
Qed.

Lemma settled_run_ops ops s taskId :
  Forall (fun op => op ≠ Start taskId) ops ->
  settled taskId (manager s) -> settled taskId (manager (run_ops ops s)).
Proof.
  revert s. induction ops as [|op ops IH]; intros s Hops Hs; simpl; [done|].
  apply Forall_cons in Hops as [Hop Hops]. apply IH; [done|]. by apply settled_step.
Qed.

Lemma valid_setState taskId newState m :
  valid_inv m -> valid_inv (setState_st taskId newState m).
Proof.
  intros Hv id c Hc.
  destruct (setState_st_host taskId newState m) as (->&_).
  destruct (setState_st_maps taskId newState m id) as (_&Hac&_).
  rewrite Hac in Hc. destruct (_ && _); [done|]. by eapply Hv.
Qed.

Lemma valid_core m m' :
  abortControllers m' = abortControllers m ->
  (length (controllers m) <= length (controllers m'))%nat ->
  valid_inv m -> valid_inv m'.
Proof. intros Ha Hl Hv id c. rewrite Ha. intros Hc. specialize (Hv id c Hc). lia. Qed.

Lemma valid_delete m m' taskId :
  abortControllers m' = delete taskId (abortControllers m) ->
  (length (controllers m) <= length (controllers m'))%nat ->
  valid_inv m -> valid_inv m'.
Proof.
  intros Ha Hl Hv id c. rewrite Ha. intros [_ Hc]%lookup_delete_Some.
  specialize (Hv id c Hc). lia.
Qed.

Lemma valid_clearTimeout taskId m : valid_inv m -> valid_inv (clearTimeout_st taskId m).
Proof.
  destruct (clearTimeout_st_fields taskId m) as (_&Ha&_&Hc&_).
  apply valid_core; [done|]. by rewrite Hc.
Qed.

Lemma valid_step op s : valid_inv (manager s) -> valid_inv (manager (step op s)).
Proof.
  intros Hv.
  destruct op as [id h o|id|id now|k msg cur tot|k outcome now|t now|cb|ref|]; simpl.
  - unfold exec. rewrite register_exec. unfold register_st.
    destruct (bool_decide _); [done|]. by eapply valid_core.
  - rewrite start_run.
    assert (valid_inv (start_st id (manager s)).1) as H;
      [|by destruct (start_st id (manager s)).2].
    unfold start_st, warn_st.
    destruct (tasks (manager s) !! id) as [task|];
      [|simpl; destruct (debug (manager s)); [by eapply valid_core|done]].
    destruct (OMap.get id (state (manager s))) as [cur|];
      [|simpl; destruct (debug (manager s)); [by eapply valid_core|done]].
    destruct (bool_decide (status cur = running));
      [simpl; destruct (debug (manager s)); [by eapply valid_core|done]|].
    simpl. unfold launch_st. cbv zeta.
    set (m1 := setState_st id _ _).
    assert (valid_inv m1) as Hb.
    { apply valid_setState, valid_clearTimeout. intros k c. simpl.
      rewrite length_app. simpl. destruct (decide (id = k)) as [->|Hne].
      - rewrite lookup_insert_eq. intros [= <-]. lia.
      - rewrite lookup_insert_ne by done. intros Hc. specialize (Hv k c Hc). lia. }
    destruct (truthy (timeout task)); [|done]. by eapply (valid_core m1).
  - unfold exec. rewrite cancel_run. unfold cancel_st.
    destruct (abortControllers (manager s) !! id) as [c|]; [|done].
    apply valid_setState, valid_clearTimeout.
    eapply (valid_delete (manager s) _ id); [done| |done].
    simpl. by rewrite length_insert.
  - destruct (runs s !! k) as [[r ?]|]; [|done]. simpl.
    unfold exec. rewrite ctx_progress_run. unfold ctx_progress_st.
    destruct (isStale r (manager s)); [done|]. destruct (negb _); [done|].
    by apply valid_setState.
  - destruct (runs s !! k) as [[r []]|]; [done| |done]. simpl.
    unfold exec. rewrite runTask_run. unfold runTask_st. cbv zeta.
    set (m1 := if negb (isCanceled r (manager s)) && negb (isStale r (manager s))
               then _ else manager s).
    assert (valid_inv m1) as Hb.
    { unfold m1.
      destruct (negb (isCanceled r (manager s)) && negb (isStale r (manager s))); [|done].
      destruct outcome; apply valid_setState; [done|]. by eapply valid_core. }
    destruct (negb (isStale r m1)); [|done]. apply valid_clearTimeout.
    by eapply (valid_delete m1 _ (run_task r)).
  - unfold exec. rewrite fire_timer_run. unfold fire_timer_st.
    destruct (timers (manager s) !! t) as [[tm|]|]; [|done..].
    unfold timeout_callback_st. simpl. destruct (negb _); [by eapply valid_core|].
    apply valid_setState.
    eapply (valid_delete (manager s) _ (timer_task tm)); [|  |done].
    + by destruct (abortControllers (manager s) !! timer_task tm).
    + destruct (abortControllers (manager s) !! timer_task tm); simpl; [|done].
      by rewrite length_insert.
  - by eapply valid_core.
  - by eapply valid_core.
  - unfold exec. rewrite dispose_run. unfold dispose_st.
    rewrite abort_all_fields, clear_all_fields. intros id c. simpl.
    by rewrite lookup_empty.
Qed.

Lemma valid_reachable options ops : valid_inv (manager (run_ops ops (boot options))).
Proof.
  assert (valid_inv (manager (boot options))) as H0.
  { intros id c. simpl. by rewrite lookup_empty. }
  revert H0. generalize (boot options).
  induction ops as [|op ops IH]; intros s Hs; simpl; [done|].
  apply IH. by apply valid_step.
Qed.

Lemma aborted_insert c m m' :
  controllers m' = <[c := true]> (controllers m) ->
  (c < length (controllers m))%nat -> aborted c m' = true.
Proof. intros Heq Hc. unfold aborted. by rewrite Heq, list_lookup_insert_eq. Qed.

(** What the timer callback does to a running task. *)
Lemma timeout_callback_running taskId now m :
  status_of (getState taskId m) = Some running ->
  let m' := exec (timeout_callback taskId now) m in
  let event := mkEvent taskId (TimedOut taskId now) (nextEventId m) in
  (forall c, abortControllers m !! taskId = Some c ->
     (c < length (controllers m))%nat -> aborted c m' = true) /\
  abortControllers m' !! taskId = None /\
  timeouts m' !! taskId = None /\
  nextEventId m' = nextEventId m + 1 /\
  delivered m' = delivered m ++ deliveries (subscribers m) event /\
  (getState taskId m' = Some (TimedOut taskId now) \/ getState taskId m' = None).
Proof.
  intros Hrun. unfold exec. rewrite timeout_callback_run. simpl.
  unfold timeout_callback_st. unfold getState in Hrun.
  rewrite bool_decide_true by done. simpl.
  set (m0 := with_timeouts (delete taskId) (with_abortControllers (delete taskId) _)).
  assert (state m0 = state m /\ nextEventId m0 = nextEventId m /\
          delivered m0 = delivered m /\ subscribers m0 = subscribers m /\
          abortControllers m0 !! taskId = None /\ timeouts m0 !! taskId = None)
    as (N0&N1&N2&N3&N4&N5).
  { unfold m0. destruct (abortControllers m !! taskId); simpl;
      by rewrite !lookup_delete_eq. }
  assert (accepts taskId (TimedOut taskId now) m0 = true) as Hacc.
  { unfold accepts. rewrite N0.
    destruct (OMap.get taskId (state m)) as [cur|]; [|done].
    simpl in Hrun. injection Hrun as Hrun. unfold rejects. by rewrite Hrun. }
  pose proof (accepted_effect taskId (TimedOut taskId now) m0 Hacc) as Heff.
  unfold exec in Heff. rewrite setState_run in Heff. cbv zeta in Heff.
  cbn [fst] in Heff. destruct Heff as (E1&E2&_&E3&_).
  destruct (setState_st_maps taskId (TimedOut taskId now) m0 taskId) as (_&M1&_&M2).
  destruct (setState_st_host taskId (TimedOut taskId now) m0) as (Hc&_).
  rewrite N1 in E1. rewrite N1, N2, N3 in E2. rewrite N4 in M1. rewrite N5 in M2.
  split_and!.
  - intros c Hcm Hlt. eapply (aborted_insert c m); [|done].
    rewrite Hc. unfold m0. by rewrite Hcm.
  - rewrite M1. by destruct (_ && _).
  - rewrite M2. by destruct (_ && _).
  - done.
  - done.
  - destruct E3 as [?|[_ ?]]; auto.
Qed.

(** C4. The callback of the timeout timer does nothing unless the task is
    in [running] state when it fires; if it is, the callback aborts the
    token, drops the controller reference and the timer entry, and commits
    the transition to [timed_out] with [lastRun = now].  Consequently a task
    that has completed is never moved to [timed_out], whichever timers fire
    and whatever else happens afterwards, as long as it is not started
    again. *)
Theorem C4_timeout_only_while_running taskId now :
  (forall m, status_of (getState taskId m) ≠ Some running ->
     timeout_callback taskId now m = (m, Ok tt)) /\
  (forall m t tm, timers m !! t = Some (Some tm) ->
     status_of (getState (timer_task tm) m) ≠ Some running ->
     fire_timer t now m = (with_timers (fun ts => <[t := None]> ts) m, Ok tt)) /\
  (forall options ops,
     let m := manager (run_ops ops (boot options)) in
     status_of (getState taskId m) = Some running ->
     let m' := exec (timeout_callback taskId now) m in
     let event := mkEvent taskId (TimedOut taskId now) (nextEventId m) in
     (forall c, abortControllers m !! taskId = Some c -> aborted c m' = true) /\
     abortControllers m' !! taskId = None /\
     timeouts m' !! taskId = None /\
     nextEventId m' = nextEventId m + 1 /\
     delivered m' = delivered m ++ deliveries (subscribers m) event /\
     (getState taskId m' = Some (TimedOut taskId now) \/ getState taskId m' = None)) /\
  (forall s ops t,
     getState taskId (manager s) = Some (Completed taskId t) ->
     Forall (fun op => op ≠ Start taskId) ops ->
     status_of (getState taskId (manager (run_ops ops s))) ≠ Some timed_out).
Proof.
  split_and!.
  - intros m Hnr. rewrite timeout_callback_run. unfold timeout_callback_st.
    unfold getState in Hnr. by rewrite bool_decide_false.
  - intros m t tm Ht Hnr. rewrite fire_timer_run. unfold fire_timer_st. rewrite Ht.
    unfold timeout_callback_st. simpl.
    unfold getState in Hnr. by rewrite bool_decide_false.
  - intros options ops m Hrun.
    destruct (timeout_callback_running taskId now m Hrun) as (H1&H2&H3&H4&H5&H6).
    split_and!; [|done..]. intros c Hc. apply H1; [done|].
    by eapply (valid_reachable options ops).
  - intros s ops t Hdone Hops.
    apply (settled_run_ops ops s taskId Hops).
    unfold settled. rewrite Hdone. simpl. split; discriminate.
Qed.

Lemma C4_witness :
  timeout_callback "A" 2000
    (manager (run_ops completed_trace (boot (mkOptions None None None))))
  = (manager (run_ops completed_trace (boot (mkOptions None None None))), Ok tt) /\
  fire_timer 0 2000 dangling_timer
  = (with_timers (fun ts => <[0%nat := None]> ts) dangling_timer, Ok tt) /\
  abortControllers
    (exec (timeout_callback "A" 2000)
       (manager (run_ops timeout_trace (boot (mkOptions None None None))))) !! "A"
  = None /\
  status_of (getState "A"
    (manager (run_ops [Fire 0 2000; Cancel "A" 2001; Fire 0 3000]
                (run_ops completed_trace (boot (mkOptions None None None))))))
  ≠ Some timed_out.
Proof.
  destruct (C4_timeout_only_while_running "A" 2000) as (H1&H2&H3&H4).
  split_and!.
  - apply H1. vm_compute. discriminate.
  - apply (H2 dangling_timer 0%nat (mkTimer "A" 1000)); [reflexivity|].
    vm_compute. discriminate.
  - apply (H3 (mkOptions None None None) timeout_trace). vm_compute. reflexivity.
  - apply (H4 _ _ 50); [vm_compute; reflexivity|].
    repeat constructor; discriminate.
Defined.

(** ** Cancellation *)

Lemma flags_le_refl h : flags_le h h.
Proof. by intros c. Qed.

Lemma flags_le_trans h1 h2 h3 : flags_le h1 h2 -> flags_le h2 h3 -> flags_le h1 h3.
Proof. intros H1 H2 c Hc. by apply H2, H1. Qed.

Lemma flags_le_insert h c : flags_le h (<[c := true]> h).
Proof.
  intros c' Hc'. destruct (decide (c = c')) as [->|Hne].
  - destruct (h !! c') eqn:Hl; [|done].
    rewrite list_lookup_insert_eq; [done|]. by eapply lookup_lt_Some.
  - by rewrite list_lookup_insert_ne.
Qed.

Lemma flags_le_app h l : flags_le h (h ++ l).
Proof.
  intros c Hc. destruct (h !! c) eqn:Hl; [|done].
  by rewrite (lookup_app_l_Some _ _ _ _ Hl).
Qed.

Lemma flags_le_abort_all h cs : flags_le h (foldl (fun h c => <[c := true]> h) h cs).
Proof.
  revert h. induction cs as [|c cs IH]; intros h; simpl; [apply flags_le_refl|].
  eapply flags_le_trans; [apply flags_le_insert|apply IH].
Qed.

Lemma setState_st_controllers taskId newState m :
  controllers (setState_st taskId newState m) = controllers m.
Proof. by destruct (setState_st_host taskId newState m) as (->&_). Qed.

Lemma clearTimeout_st_controllers taskId m :
  controllers (clearTimeout_st taskId m) = controllers m.
Proof. by destruct (clearTimeout_st_fields taskId m) as (_&_&_&->&_). Qed.

Lemma launch_st_controllers taskId task m :
  controllers (launch_st taskId task m) = controllers m ++ [false].
Proof.
  unfold launch_st. cbv zeta.
  set (m1 := setState_st taskId _ _).
  assert (controllers m1 = controllers m ++ [false]) as H.
  { unfold m1. by rewrite setState_st_controllers, clearTimeout_st_controllers. }
  by destruct (truthy (timeout task)).
Qed.

Lemma flags_step op s :
  flags_le (controllers (manager s)) (controllers (manager (step op s))).
Proof.
  destruct op as [id h o|id|id now|k msg cur tot|k outcome now|t now|cb|ref|]; simpl.
  - unfold exec. rewrite register_exec. cbn [fst]. unfold register_st.
    destruct (bool_decide _); apply flags_le_refl.
  - rewrite start_run.
    assert (flags_le (controllers (manager s)) (controllers (start_st id (manager s)).1)) as H;
      [|by destruct (start_st id (manager s)).2].
    unfold start_st, warn_st.
    destruct (tasks (manager s) !! id) as [task|];
      [|simpl; destruct (debug (manager s)); apply flags_le_refl].
    destruct (OMap.get id (state (manager s))) as [cur|];
      [|simpl; destruct (debug (manager s)); apply flags_le_refl].
    destruct (bool_decide (status cur = running));
      [simpl; destruct (debug (manager s)); apply flags_le_refl|].
    cbn [fst]. rewrite launch_st_controllers. apply flags_le_app.
  - unfold exec. rewrite cancel_run. cbn [fst]. unfold cancel_st.
    destruct (abortControllers (manager s) !! id) as [c|]; [|apply flags_le_refl].
    rewrite setState_st_controllers, clearTimeout_st_controllers. simpl.
    apply flags_le_insert.
  - destruct (runs s !! k) as [[r ?]|]; [|apply flags_le_refl]. simpl.
    unfold exec. rewrite ctx_progress_run. cbn [fst]. unfold ctx_progress_st.
    destruct (isStale r (manager s)); [apply flags_le_refl|].
    destruct (negb _); [apply flags_le_refl|].
    rewrite setState_st_controllers. apply flags_le_refl.
  - destruct (runs s !! k) as [[r []]|]; [apply flags_le_refl| |apply flags_le_refl].
    simpl. unfold exec. rewrite runTask_run. cbn [fst]. unfold runTask_st. cbv zeta.
    set (m1 := if negb (isCanceled r (manager s)) && negb (isStale r (manager s))
               then _ else manager s).
    assert (controllers m1 = controllers (manager s)) as Hb.
    { unfold m1.
      destruct (negb (isCanceled r (manager s)) && negb (isStale r (manager s))); [|done].
      destruct outcome; by rewrite setState_st_controllers. }
    destruct (negb (isStale r m1)); rewrite ?clearTimeout_st_controllers; simpl;
      rewrite Hb; apply flags_le_refl.
  - unfold exec. rewrite fire_timer_run. cbn [fst]. unfold fire_timer_st.
    destruct (timers (manager s) !! t) as [[tm|]|]; [|apply flags_le_refl..].
    unfold timeout_callback_st. simpl. destruct (negb _); [apply flags_le_refl|].
    rewrite setState_st_controllers. simpl.
    destruct (abortControllers (manager s) !! timer_task tm); simpl;
      [apply flags_le_insert|apply flags_le_refl].
  - apply flags_le_refl.
  - apply flags_le_refl.
  - unfold exec. rewrite dispose_run. cbn [fst]. unfold dispose_st.
    rewrite abort_all_fields, clear_all_fields. simpl. apply flags_le_abort_all.
Qed.

Lemma aborted_run_ops ops s c :
  aborted c (manager s) = true -> aborted c (manager (run_ops ops s)) = true.
Proof.
  revert s. induction ops as [|op ops IH]; intros s Hc; simpl; [done|].
  apply IH. by apply (flags_step op s).
Qed.

(** The settlement of a run whose token has been triggered writes no state
    and emits nothing. *)
Lemma runTask_canceled r outcome now m :
  isCanceled r m = true ->
  let m' := exec (runTask r outcome now) m in
  state m' = state m /\ nextEventId m' = nextEventId m /\
  delivered m' = delivered m /\ eventBuffer m' = eventBuffer m /\
  tasks m' = tasks m /\ console m' = console m.
Proof.
  intros Hc. unfold exec. rewrite runTask_run. simpl. unfold runTask_st.
  rewrite Hc. simpl. destruct (negb (isStale r m)); [|done].
  by destruct (clearTimeout_st_fields (run_task r)
                 (with_abortControllers (delete (run_task r)) m))
    as ((->&->&_&->&->&_&->&_)&_&_&_&->&_).
Qed.

(** What [cancel] does when a token is stored, given that the task is then
    running (which holds in every reachable state) and the token refers to
    an existing controller. *)
Lemma cancel_effect taskId now m c :
  abortControllers m !! taskId = Some c ->
  status_of (getState taskId m) = Some running ->
  (c < length (controllers m))%nat ->
  let m' := exec (cancel taskId now) m in
  let event := mkEvent taskId (Canceled taskId now) (nextEventId m) in
  aborted c m' = true /\
  abortControllers m' !! taskId = None /\
  timeouts m' !! taskId = None /\
  (forall t tm, timeouts m !! taskId = Some t -> timers m' !! t ≠ Some (Some tm)) /\
  nextEventId m' = nextEventId m + 1 /\
  delivered m' = delivered m ++ deliveries (subscribers m) event /\
  (getState taskId m' = Some (Canceled taskId now) \/ getState taskId m' = None) /\
  (maxHistory m = 0%nat -> getState taskId m' = Some (Canceled taskId now)).
Proof.
  intros Hc Hrun Hlt. unfold exec. rewrite cancel_run. simpl.
  unfold cancel_st. rewrite Hc.
  set (m0 := with_abortControllers (delete taskId)
               (with_controllers (fun h => <[c := true]> h) m)).
  destruct (clearTimeout_st_fields taskId m0)
    as ((_&N0&N3&N1&_&_&N2&NK&_)&N4&_&N6&_&_&N5).
  set (m1 := clearTimeout_st taskId m0) in *.
  assert (accepts taskId (Canceled taskId now) m1 = true) as Hacc.
  { unfold accepts. rewrite N0. simpl. unfold getState in Hrun.
    destruct (OMap.get taskId (state m)) as [cur|]; [|done].
    simpl in Hrun. injection Hrun as Hrun. unfold rejects. by rewrite Hrun. }
  pose proof (accepted_effect taskId (Canceled taskId now) m1 Hacc) as Heff.
  unfold exec in Heff. rewrite setState_run in Heff. cbv zeta in Heff.
  cbn [fst] in Heff. destruct Heff as (E1&E2&_&E3&_).
  destruct (setState_st_maps taskId (Canceled taskId now) m1 taskId) as (_&M1&_&M2).
  destruct (setState_st_host taskId (Canceled taskId now) m1) as (Hco&Hti&_).
  rewrite N1 in E1. rewrite N1, N2, N3 in E2. simpl in E1, E2.
  rewrite N4 in M1. simpl in M1. rewrite lookup_delete_eq in M1. rewrite N5 in M2.
  split_and!.
  - eapply (aborted_insert c m); [|done]. by rewrite Hco, N6.
  - rewrite M1. by destruct (_ && _).
  - rewrite M2. by destruct (_ && _).
  - intros t tm Ht. rewrite Hti. unfold m1, clearTimeout_st. simpl. rewrite Ht. simpl.
    destruct (decide (t < length (timers m))%nat).
    + by rewrite list_lookup_insert_eq.
    + rewrite list_lookup_insert_ne_oob || idtac.
      rewrite lookup_ge_None_2; [done|]. rewrite length_insert. lia.
  - done.
  - done.
  - destruct E3 as [?|[_ ?]]; auto.
  - intros HK. rewrite setState_st_get, Hacc. unfold evicted_by, toEvict.
    destruct (commit_st_fields taskId (Canceled taskId now) m1) as (_&_&_&_&_&_&_&->&_).
    rewrite NK. simpl. rewrite HK. simpl. by rewrite decide_True.
Qed.

(** With room for one terminal task, ["B"] completes at time 5 and ["A"],
    registered before it, is canceled in the same millisecond: the stable
    sort keeps ["A"] first, so the eviction pass that follows the transition
    removes the task that was just canceled. *)
Lemma C3_counterexample :
  ~ cancel_leaves_canceled (manager (run_ops evict_trace (boot evict_options))) "A" 5.
Proof.
  unfold cancel_leaves_canceled. intros H.
  assert (is_Some (abortControllers
            (manager (run_ops evict_trace (boot evict_options))) !! "A")) as Hc
    by (vm_compute; eauto).
  specialize (H Hc). clear Hc. revert H. vm_compute. discriminate.
Qed.

(** C3, amended.  In every state the manager reaches: [cancel] of an id
    without a stored token is a no-op.  Otherwise it triggers the token,
    drops the controller reference, clears the timer and its entry, and
    commits the transition to [canceled] with [lastRun = now]: the event is
    handed to every subscriber under the next event id, and the task is then
    in that [canceled] state unless the eviction pass that follows the
    transition removes it (it never does when [maxHistory] is 0).  Whatever
    happens afterwards, the settlement of the handler whose token was
    triggered, by success or by failure, writes no state and emits no
    event. *)
Theorem C3_cancel options ops taskId now :
  let m := manager (run_ops ops (boot options)) in
  (abortControllers m !! taskId = None -> cancel taskId now m = (m, Ok tt)) /\
  (forall c, abortControllers m !! taskId = Some c ->
     let m' := exec (cancel taskId now) m in
     let event := mkEvent taskId (Canceled taskId now) (nextEventId m) in
     aborted c m' = true /\
     abortControllers m' !! taskId = None /\
     timeouts m' !! taskId = None /\
     (forall t tm, timeouts m !! taskId = Some t -> timers m' !! t ≠ Some (Some tm)) /\
     nextEventId m' = nextEventId m + 1 /\
     delivered m' = delivered m ++ deliveries (subscribers m) event /\
     (getState taskId m' = Some (Canceled taskId now) \/ getState taskId m' = None) /\
     (maxHistory m = 0%nat -> getState taskId m' = Some (Canceled taskId now)) /\
     (forall r rs later outcome now', run_controller r = c ->
        let m'' := manager (run_ops later (mkSystem m' rs)) in
        let mf := exec (runTask r outcome now') m'' in
        state mf = state m'' /\ nextEventId mf = nextEventId m'' /\
        delivered mf = delivered m'' /\ eventBuffer mf = eventBuffer m'')).
Proof.
  cbv zeta. set (m := manager (run_ops ops (boot options))).
  split.
  - intros Hnone. rewrite cancel_run. unfold cancel_st. by rewrite Hnone.
  - intros c Hc.
    pose proof (Inv_reachable options ops) as [_ _ Hctl _ _ _].
    pose proof (valid_reachable options ops) as Hvalid.
    pose proof (cancel_effect taskId now m c Hc (Hctl _ _ Hc) (Hvalid _ _ Hc)) as Heff.
    cbv zeta in Heff. destruct Heff as (E1&E2&E3&E4&E5&E6&E7&E8).
    split_and!; [done..|].
    intros r rs later outcome now' Hr.
    assert (isCanceled r (manager (run_ops later
              (mkSystem (exec (cancel taskId now) m) rs))) = true) as Hcan.
    { unfold isCanceled. rewrite Hr. by apply aborted_run_ops. }
    by destruct (runTask_canceled r outcome now' _ Hcan) as (?&?&?&?&_).
Qed.

Lemma C3_witness :
  cancel "B" 7 (manager (run_ops cancel_trace (boot no_options)))
  = (manager (run_ops cancel_trace (boot no_options)), Ok tt) /\
  getState "A" (exec (cancel "A" 7) (manager (run_ops cancel_trace (boot no_options))))
  = Some (Canceled "A" 7) /\
  aborted 0 (exec (cancel "A" 7) (manager (run_ops cancel_trace (boot no_options))))
  = true.
Proof.
  destruct (C3_cancel no_options cancel_trace "B" 7) as [H1 _].
  destruct (C3_cancel no_options cancel_trace "A" 7) as [_ H2].
  cbv zeta in H2.
  destruct (H2 0%nat) as (E1&_&_&_&_&_&_&E8&_); [vm_compute; reflexivity|].
  split_and!.
  - apply H1. vm_compute. reflexivity.
  - apply E8. vm_compute. reflexivity.
  - exact E1.
Defined.

(** ** Generations and stale runs *)









Lemma manager_step_start taskId s :
  manager (step (Start taskId) s) = (start_st taskId (manager s)).1.
Proof. simpl. rewrite start_run. by destruct (start_st taskId (manager s)).2. Qed.









(** * Further properties of the manager *)

(** ** One operation, at most one transition *)

Lemma calm_refl m : calm m m.
Proof. done. Qed.

Lemma calm_trans m1 m2 m3 : calm m1 m2 -> calm m2 m3 -> calm m1 m3.
Proof. intros (?&?&?&?&?&?&?) (?&?&?&?&?&?&?). split_and!; congruence. Qed.

Lemma calm_transition m1 m2 m3 : calm m1 m2 -> transition m2 m3 -> transition m1 m3.
Proof.
  intros Hc [Hc'|H]; [left; by eapply calm_trans|]. right.
  destruct Hc as (Hs&Hdb&HK&Hb&Hst&Hn&Hd). destruct H as (?&?&?&?&H).
  rewrite <- Hs, <- Hst, <- Hn, <- Hd, <- HK. split_and!; [congruence..|done].
Qed.

Lemma transition_calm m1 m2 m3 : transition m1 m2 -> calm m2 m3 -> transition m1 m3.
Proof.
  intros [Hc|H] Hc'; [left; by eapply calm_trans|]. right.
  destruct Hc' as (Hs&Hdb&HK&Hb&Hst&Hn&Hd). destruct H as (?&?&?&?&H).
  rewrite Hst, Hn, Hd. split_and!; [congruence..|done].
Qed.

Lemma same_core_calm m m' : same_core m m' -> debug m' = debug m -> calm m m'.
Proof. intros (_&?&?&?&_&_&?&?&?) ?. done. Qed.

Lemma clearTimeout_st_calm taskId m : calm m (clearTimeout_st taskId m).
Proof. destruct (clearTimeout_st_fields taskId m) as (?&_&_&_&_&?&_). by apply same_core_calm. Qed.

Lemma evicted_by_disabled taskId newState m :
  maxHistory m = 0%nat -> evicted_by taskId newState m = [].
Proof.
  intros HK. unfold evicted_by, toEvict.
  destruct (commit_st_fields taskId newState m) as (_&_&_&_&_&_&_&->&_).
  rewrite HK. by destruct (TERMINAL_STATUSES _).
Qed.

Lemma setState_st_transition taskId newState m :
  state_id newState = taskId -> status newState ≠ pending ->
  transition m (setState_st taskId newState m).
Proof.
  intros Hid Hst.
  destruct (setState_st_host taskId newState m) as (_&_&Hs&Hdb&HK&Hb).
  rewrite setState_st_unfold in *.
  destruct (accepts taskId newState m) eqn:Hacc; [|by left]. right.
  split_and!; [done..|].
  exists taskId, newState, (evicted_by taskId newState m).
  destruct (commit_st_fields taskId newState m)
    as (_&Fs&_&_&_&_&_&_&_&Fn&_&_&_&_&_&Fd).
  split_and!; [by apply accepts_Some in Hacc|done|done|apply evicted_by_disabled|..];
    rewrite evict_all_fields;
    cbn [state nextEventId delivered with_timeouts with_runGeneration
         with_abortControllers with_state with_tasks]; [by rewrite Fs|done|done].
Qed.

(** An operation of the handlers, of the timers, or one of [start] and
    [cancel], makes at most one transition. *)
Lemma step_transition op s :
  is_register op = false -> changes_subscribers op = false ->
  transition (manager s) (manager (step op s)).
Proof.
  destruct op as [tid h o|tid|tid now|k msg cur tot|k outcome now|t now|cb|ref|];
    intros Hreg Hop; try discriminate; simpl.
  - rewrite start_run.
    assert (transition (manager s) (start_st tid (manager s)).1) as H;
      [|by destruct (start_st tid (manager s)).2].
    unfold start_st, warn_st.
    destruct (tasks (manager s) !! tid) as [task|];
      [|left; simpl; by destruct (debug (manager s))].
    destruct (OMap.get tid (state (manager s))) as [cur|];
      [|left; simpl; by destruct (debug (manager s))].
    destruct (bool_decide (status cur = running));
      [left; simpl; by destruct (debug (manager s))|].
    cbn [fst]. unfold launch_st. cbv zeta.
    set (m0 := clearTimeout_st tid _).
    assert (calm (manager s) m0) as Hq.
    { eapply calm_trans; [|apply clearTimeout_st_calm]. done. }
    pose proof (calm_transition _ _ _ Hq (setState_st_transition tid
      (Running tid (Some (mkProgress "Starting..." None None))) m0 eq_refl
      ltac:(discriminate))) as He.
    destruct (truthy (timeout task)); [|done].
    eapply transition_calm; [exact He|]. done.
  - unfold exec. rewrite cancel_run. cbn [fst]. unfold cancel_st.
    destruct (abortControllers (manager s) !! tid) as [c|]; [|by left].
    eapply calm_transition; [|by apply setState_st_transition].
    eapply calm_trans; [|apply clearTimeout_st_calm]. done.
  - destruct (runs s !! k) as [[r ?]|]; [|by left]. simpl.
    unfold exec. rewrite ctx_progress_run. cbn [fst]. unfold ctx_progress_st.
    destruct (isStale r (manager s)); [by left|].
    destruct (negb _); [by left|]. by apply setState_st_transition.
  - destruct (runs s !! k) as [[r []]|]; [by left| |by left].
    simpl. unfold exec. rewrite runTask_run. cbn [fst]. unfold runTask_st. cbv zeta.
    set (m1 := if negb (isCanceled r (manager s)) && negb (isStale r (manager s))
               then _ else manager s).
    assert (transition (manager s) m1) as He.
    { unfold m1.
      destruct (negb (isCanceled r (manager s)) && negb (isStale r (manager s)));
        [|by left].
      destruct outcome; [by apply setState_st_transition|].
      eapply calm_transition; [|by apply setState_st_transition]. done. }
    destruct (negb (isStale r m1)); [|done].
    eapply transition_calm; [exact He|].
    eapply calm_trans; [|apply clearTimeout_st_calm]. done.
  - unfold exec. rewrite fire_timer_run. cbn [fst]. unfold fire_timer_st.
    destruct (timers (manager s) !! t) as [[tm|]|]; [|by left..].
    unfold timeout_callback_st. cbn [state with_timers].
    destruct (negb _); [by left|].
    eapply calm_transition; [|by apply setState_st_transition].
    cbn [abortControllers with_timers].
    by destruct (abortControllers (manager s) !! timer_task tm).
Qed.

Lemma transition_emits m m' : transition m m' -> emits m m'.
Proof.
  intros [(?&_&_&_&_&?&?)|(?&_&_&_&id&ns&ids&_&_&_&_&_&?&?)].
  - split; [done|by left].
  - split; [done|]. right. by exists (mkEvent id ns (nextEventId m)).
Qed.

(** An operation other than [subscribe], its inverse and disposal leaves the
    subscribers alone and emits at most one event. *)
Lemma step_emits op s :
  changes_subscribers op = false -> emits (manager s) (manager (step op s)).
Proof.
  intros Hop. destruct (is_register op) eqn:Hreg.
  - destruct op; try discriminate. simpl. unfold exec. rewrite register_exec.
    unfold register_st. split; [by destruct (bool_decide _)|]. left.
    by destruct (bool_decide _).
  - by apply transition_emits, step_transition.
Qed.

(** [subscribe], its inverse and disposal emit nothing. *)
Lemma step_subscribers_silent op s :
  changes_subscribers op = true ->
  nextEventId (manager (step op s)) = nextEventId (manager s) /\
  delivered (manager (step op s)) = delivered (manager s).
Proof.
  destruct op as [tid h o|tid|tid now|k msg cur tot|k outcome now|t now|cb|ref|];
    intros Hop; try discriminate; simpl; [done..|].
  unfold exec. rewrite dispose_run. cbn [fst]. unfold dispose_st.
  by rewrite abort_all_fields, clear_all_fields.
Qed.

(** ** Subscribers *)

Lemma ids_to_app ref d1 d2 : ids_to ref (d1 ++ d2) = ids_to ref d1 ++ ids_to ref d2.
Proof. unfold ids_to. by rewrite filter_app, fmap_app. Qed.

Lemma ids_to_deliveries_not ref subs e :
  ref ∉ (sub_ref <$> subs) -> ids_to ref (deliveries subs e) = [].
Proof.
  intros Hnot. unfold ids_to, deliveries. rewrite filter_none; [done|].
  apply Forall_forall. intros p [cb [-> Hin]]%list_elem_of_fmap. simpl.
  intros Heq. apply Hnot. apply list_elem_of_fmap. by exists cb.
Qed.




(** One operation, seen by a function that is not subscribed. *)
Lemma step_left_out op s ref :
  ref ∉ (sub_ref <$> subscribers (manager s)) ->
  leaves_out ref op = true ->
  (ref ∉ sub_ref <$> subscribers (manager (step op s))) /\
  ids_to ref (delivered (manager (step op s))) = ids_to ref (delivered (manager s)).
Proof.
  intros Hnot Hop.
  destruct (changes_subscribers op) eqn:Hch.
  - destruct (step_subscribers_silent op s Hch) as [_ ->]. split; [|done].
    destruct op as [tid h o|tid|tid now|k msg cur tot|k outcome now|t now|cb|ref0|];
      try discriminate; simpl in *.
    + destruct (bool_decide (sub_ref cb ∈ _)); [done|]. rewrite fmap_app, elem_of_app.
      intros [?|Heq%list_elem_of_singleton]; [done|].
      rewrite bool_decide_true in Hop by done. done.
    + intros (cb&->&[_ Hcb]%list_elem_of_filter)%list_elem_of_fmap.
      apply Hnot. apply list_elem_of_fmap. by exists cb.
    + unfold exec. rewrite dispose_run. cbn [fst]. unfold dispose_st.
      rewrite abort_all_fields, clear_all_fields. simpl. apply not_elem_of_nil.
  - destruct (step_emits op s Hch) as [Hs [[_ ->]|(e&_&_&->)]]; rewrite Hs; [done|].
    by rewrite ids_to_app, ids_to_deliveries_not, app_nil_r.
Qed.



(** X2. The end of a subscription.  After the unsubscribe function of a
    subscriber has been called, and likewise after disposal, the function
    is no longer called: whatever operations follow, as long as it is not
    subscribed anew, the calls it has received stay as they are. *)
Theorem unsubscribed_receives_nothing s ref ops :
  forallb (leaves_out ref) ops = true ->
  ids_to ref (delivered (manager (run_ops ops (step (Unsubscribe ref) s))))
  = ids_to ref (delivered (manager s)) /\
  ids_to ref (delivered (manager (run_ops ops (step Dispose s))))
  = ids_to ref (delivered (manager s)).
Proof.
  intros Hops.
  assert (forall s0, ref ∉ (sub_ref <$> subscribers (manager s0)) ->
            ids_to ref (delivered (manager (run_ops ops s0)))
            = ids_to ref (delivered (manager s0))) as Hgen.
  { revert Hops. induction ops as [|op ops IH]; intros Hops s0 Hnot; [done|].
    change (run_ops (op :: ops) s0) with (run_ops ops (step op s0)).
    simpl in Hops. apply andb_prop in Hops as [Hop Hops].
    destruct (step_left_out op s0 ref Hnot Hop) as [Hnot1 <-].
    by apply IH. }
  split.
  - rewrite Hgen; [done|]. simpl.
    intros (cb&->&[Hne _]%list_elem_of_filter)%list_elem_of_fmap. done.
  - rewrite Hgen.
    + by destruct (step_subscribers_silent Dispose s eq_refl) as [_ ->].
    + simpl. unfold exec. rewrite dispose_run. cbn [fst]. unfold dispose_st.
      rewrite abort_all_fields, clear_all_fields. simpl. apply not_elem_of_nil.
Qed.


Lemma unsubscribed_receives_nothing_witness :
  ids_to 2 (delivered (manager
     (run_ops watch_ops (step (Unsubscribe 2) (run_ops listener_trace (boot no_options))))))
  = ids_to 2 (delivered (manager (run_ops listener_trace (boot no_options)))).
Proof.
  apply (unsubscribed_receives_nothing (run_ops listener_trace (boot no_options)) 2 watch_ops).
  vm_compute. reflexivity.
Defined.

(** X3. [subscribe] and the function it returns.  The subscribers are a set:
    subscribing a function that is subscribed changes nothing, and calling
    the unsubscribe function of one that is not subscribed changes nothing.
    Subscribing a function that was not subscribed and then calling the
    function [subscribe] returned gives back the manager as it was; in
    between, the function is subscribed, and afterwards it is not. *)
Theorem subscribe_then_unsubscribe cb m :
  (sub_ref cb ∈ sub_ref <$> subscribers m -> exec (subscribe cb) m = m) /\
  ((sub_ref cb ∉ sub_ref <$> subscribers m) ->
     exec (unsubscribe (sub_ref cb)) m = m /\
     subscribers (exec (subscribe cb) m) = subscribers m ++ [cb] /\
     exec (unsubscribe (sub_ref cb)) (exec (subscribe cb) m) = m) /\
  exec (subscribe cb) (exec (subscribe cb) m) = exec (subscribe cb) m /\
  (sub_ref cb ∉ sub_ref <$> subscribers (exec (unsubscribe (sub_ref cb)) m)).
Proof.
  assert (forall l : list Subscriber, (sub_ref cb ∉ sub_ref <$> l) ->
            filter (fun s => sub_ref s ≠ sub_ref cb) l = l) as Hfil.
  { intros l Hnot. apply filter_all, Forall_forall. intros x Hx Heq.
    apply Hnot. apply list_elem_of_fmap. by exists x. }
  unfold exec, subscribe, unsubscribe, modify, with_subscribers. cbn. split_and!.
  - intros Hin. rewrite bool_decide_true by done. by destruct m.
  - intros Hnot. rewrite bool_decide_false by done. split_and!.
    + rewrite Hfil by done. by destruct m.
    + done.
    + rewrite filter_app, Hfil by done.
      rewrite filter_cons_False, filter_nil, app_nil_r by (by intros H; apply H).
      by destruct m.
  - destruct (bool_decide_reflect (sub_ref cb ∈ sub_ref <$> subscribers m)) as [Hin|Hnot].
    + rewrite bool_decide_true by done. done.
    + rewrite bool_decide_true; [done|]. rewrite fmap_app. apply elem_of_app. right.
      apply list_elem_of_singleton. done.
  - intros (x&Heq&[Hne _]%list_elem_of_filter)%list_elem_of_fmap. done.
Qed.

Lemma subscribe_then_unsubscribe_witness :
  exec (unsubscribe 2) (exec (subscribe listener) (new_TaskManager no_options))
  = new_TaskManager no_options.
Proof.
  apply (subscribe_then_unsubscribe listener (new_TaskManager no_options)).
  vm_compute. apply not_elem_of_nil.
Defined.

(** ** Timers *)

Lemma tmo_weaken x m : tmo_inv m -> tmo_but x m.
Proof. intros H id t Ht. destruct (H id t Ht) as [? Hr]. done. Qed.

Lemma tmo_but_inv x m : tmo_but x m -> timeouts m !! x = None -> tmo_inv m.
Proof.
  intros H Hx id t Ht. destruct (H id t Ht) as [? Hr]. split; [done|].
  apply Hr. intros ->. by rewrite Hx in Ht.
Qed.

Lemma tmo_inv_core m m' :
  timeouts m' = timeouts m -> state m' = state m -> timers m' = timers m ->
  tmo_inv m -> tmo_inv m'.
Proof. intros Ht Hs Hh H id t. unfold live_at, getState. rewrite Ht, Hs, Hh. apply H. Qed.

Lemma tmo_core x m m' :
  timeouts m' = timeouts m -> state m' = state m -> timers m' = timers m ->
  tmo_but x m -> tmo_but x m'.
Proof. intros Ht Hs Hh H id t. unfold getState. rewrite Ht, Hs, Hh. apply H. Qed.

(** [setState] on [taskId] keeps the timers of the other tasks in order, and
    that of [taskId] too when it stores a [running] state. *)
Lemma tmo_setState taskId newState m :
  tmo_but taskId m -> tmo_but taskId (setState_st taskId newState m).
Proof.
  intros H id t Ht.
  destruct (setState_st_host taskId newState m) as (_&->&_).
  destruct (setState_st_maps taskId newState m id) as (_&_&_&Hm).
  rewrite Hm in Ht. clear Hm.
  destruct (bool_decide (id ∈ evicted_by taskId newState m)
            && accepts taskId newState m) eqn:Hgone; [done|].
  destruct (H id t Ht) as [Htm Hr]. split; [done|]. intros Hne.
  rewrite setState_st_get. destruct (accepts taskId newState m); [|by apply Hr].
  rewrite andb_true_r in Hgone. rewrite Hgone.
  destruct (decide (taskId = id)) as [->|]; [done|by apply Hr].
Qed.

Lemma tmo_setState_running taskId newState m :
  status newState = running -> tmo_inv m -> tmo_inv (setState_st taskId newState m).
Proof.
  intros Hrun H id t Ht. unfold live_at.
  destruct (setState_st_host taskId newState m) as (_&->&_).
  destruct (setState_st_maps taskId newState m id) as (_&_&_&Hm).
  rewrite Hm in Ht. clear Hm.
  destruct (bool_decide (id ∈ evicted_by taskId newState m)
            && accepts taskId newState m) eqn:Hgone; [done|].
  destruct (H id t Ht) as [Htm Hr]. split; [done|].
  rewrite setState_st_get. destruct (accepts taskId newState m); [|done].
  rewrite andb_true_r in Hgone. rewrite Hgone.
  destruct (decide (taskId = id)) as [->|]; [|done]. simpl. by rewrite Hrun.
Qed.

Lemma tmo_clearTimeout taskId m :
  tmo_but taskId m -> tmo_inv (clearTimeout_st taskId m).
Proof.
  intros H. unfold clearTimeout_st.
  destruct (timeouts m !! taskId) as [t0|] eqn:Ht0; [|by eapply tmo_but_inv].
  destruct (H taskId t0 Ht0) as [[d0 Hd0] _].
  intros id t. cbn [timeouts with_timeouts with_timers].
  intros [Hne Ht]%lookup_delete_Some.
  destruct (H id t Ht) as [[d Hd] Hr]. split.
  - exists d. cbn [timers with_timeouts with_timers].
    rewrite list_lookup_insert_ne; [done|]. intros <-. congruence.
  - by apply Hr.
Qed.

Lemma tmo_register taskId h options m :
  Inv m -> tmo_inv m -> tmo_inv (register_st taskId h options m).
Proof.
  intros HI H. unfold register_st.
  destruct (bool_decide_reflect (is_Some (tasks m !! taskId))) as [|Hnone]; [done|].
  intros id t Ht. cbn in Ht. destruct (H id t Ht) as [Htm Hr].
  split; [done|].
  unfold getState. cbn [state with_state with_tasks].
  destruct (decide (taskId = id)) as [->|Hne]; [|by rewrite get_set_ne].
  exfalso. apply Hnone. apply (inv_sync _ HI).
  destruct (getState id m); [eauto|done].
Qed.

Lemma tmo_cancel taskId now m : tmo_inv m -> tmo_inv (cancel_st taskId now m).
Proof.
  intros H. unfold cancel_st.
  destruct (abortControllers m !! taskId) as [c|]; [|done].
  set (m0 := with_abortControllers _ _).
  assert (tmo_inv (clearTimeout_st taskId m0)) as H1.
  { apply tmo_clearTimeout, tmo_weaken. by eapply (tmo_inv_core m). }
  destruct (clearTimeout_st_fields taskId m0) as (_&_&_&_&_&_&Hnone).
  apply (tmo_but_inv taskId).
  - by apply tmo_setState, tmo_weaken.
  - destruct (setState_st_maps taskId (Canceled taskId now)
                (clearTimeout_st taskId m0) taskId) as (_&_&_&->).
    by destruct (_ && _).
Qed.

Lemma tmo_fire_timer t now m : tmo_inv m -> tmo_inv (fire_timer_st t now m).
Proof.
  intros H. unfold fire_timer_st.
  destruct (timers m !! t) as [[tm|]|] eqn:Ht; [|done..].
  set (taskId := timer_task tm). unfold timeout_callback_st.
  cbn [state with_timers abortControllers].
  destruct (bool_decide_reflect (status_of (OMap.get taskId (state m)) = Some running))
    as [Hrun|Hnr]; cbn [negb].
  - set (m1 := with_timeouts _ _).
    assert (tmo_inv m1) as H1.
    { intros id t'. unfold m1. cbn [timeouts with_timeouts with_abortControllers].
      assert (forall m', timeouts m' = timeouts (with_timers (fun ts => <[t := None]> ts) m) ->
              timers m' = timers (with_timers (fun ts => <[t := None]> ts) m) ->
              state m' = state m ->
              delete taskId (timeouts m') !! id = Some t' -> live_at m' id t') as Hgen.
      2: { destruct (abortControllers m !! taskId); apply Hgen; done. }
      intros m' Ht' Hh' Hs'. rewrite Ht'. cbn [timeouts with_timers].
      intros [Hne Hid]%lookup_delete_Some.
      destruct (H id t' Hid) as [[d Hd] Hr]. split.
      - exists d. rewrite Hh'. cbn [timers with_timers].
        rewrite list_lookup_insert_ne; [done|]. intros <-.
        rewrite Hd in Ht. injection Ht as <-. done.
      - unfold getState. by rewrite Hs'. }
    apply (tmo_but_inv taskId).
    + by apply tmo_setState, tmo_weaken.
    + destruct (setState_st_maps taskId (TimedOut taskId now) m1 taskId) as (_&_&_&->).
      destruct (_ && _); [done|]. unfold m1. cbn. apply lookup_delete_eq.
  - intros id t' Hid. cbn in Hid. destruct (H id t' Hid) as [[d Hd] Hr]. split.
    + exists d. cbn [timers with_timers].
      rewrite list_lookup_insert_ne; [done|]. intros <-.
      rewrite Hd in Ht. injection Ht as <-. by apply Hnr.
    + done.
Qed.

Lemma tmo_ctx_progress r msg cur tot m : tmo_inv m -> tmo_inv (ctx_progress_st r msg cur tot m).
Proof.
  intros H. unfold ctx_progress_st.
  destruct (isStale r m); [done|]. destruct (negb _); [done|].
  by apply tmo_setState_running.
Qed.

Lemma tmo_runTask r outcome now m : tmo_inv m -> tmo_inv (runTask_st r outcome now m).
Proof.
  intros H. unfold runTask_st. cbv zeta. set (taskId := run_task r).
  set (m1 := if negb (isCanceled r m) && negb (isStale r m) then _ else m).
  assert (tmo_but taskId m1) as H1.
  { unfold m1. destruct (negb (isCanceled r m) && negb (isStale r m));
      [|by apply tmo_weaken].
    destruct outcome; apply tmo_setState, tmo_weaken; [done|].
    by eapply (tmo_inv_core m). }
  destruct (isStale r m1) eqn:Hst1; cbn [negb].
  - unfold m1 in *. destruct (negb (isCanceled r m) && negb (isStale r m)) eqn:Hc; [|done].
    apply andb_prop in Hc as [_ Hst]. apply negb_true_iff in Hst.
    apply (tmo_but_inv taskId); [done|].
    assert (forall st m0, runGeneration m0 = runGeneration m -> timeouts m0 = timeouts m ->
              isStale r (setState_st taskId st m0) = true ->
              timeouts (setState_st taskId st m0) !! taskId = None) as Hgone.
    { intros st m0 Hg Ht Hs. destruct (setState_st_maps taskId st m0 taskId) as (_&_&Hgen&->).
      destruct (_ && _); [done|]. exfalso.
      unfold isStale in Hs, Hst. fold taskId in Hs, Hst.
      rewrite Hgen, Hg in Hs.
      apply bool_decide_eq_true in Hs. apply bool_decide_eq_false in Hst. done. }
    destruct outcome; apply Hgone; done.
  - apply tmo_clearTimeout. by eapply (tmo_core _ m1).
Qed.

Lemma tmo_start taskId m : tmo_inv m -> tmo_inv (start_st taskId m).1.
Proof.
  intros H. unfold start_st, warn_st.
  destruct (tasks m !! taskId) as [task|] eqn:Htask; cycle 1.
  { simpl. destruct (debug m); [|done]. by eapply (tmo_inv_core m). }
  destruct (OMap.get taskId (state m)) as [cur|] eqn:Hcur; cycle 1.
  { simpl. destruct (debug m); [|done]. by eapply (tmo_inv_core m). }
  destruct (bool_decide (status cur = running)).
  { simpl. destruct (debug m); [|done]. by eapply (tmo_inv_core m). }
  cbn [fst]. unfold launch_st. cbv zeta.
  set (m0 := with_runGeneration _ _).
  set (new := Running taskId (Some (mkProgress "Starting..." None None))).
  assert (tmo_inv (clearTimeout_st taskId m0)) as H1.
  { apply tmo_clearTimeout, tmo_weaken. by eapply (tmo_inv_core m). }
  destruct (clearTimeout_st_fields taskId m0) as (Hcore&_&_&_&_&_&Hnone).
  set (m1 := clearTimeout_st taskId m0) in *.
  set (m2 := setState_st taskId new m1).
  assert (tmo_inv m2) as H2.
  { apply (tmo_but_inv taskId).
    - by apply tmo_setState, tmo_weaken.
    - unfold m2. destruct (setState_st_maps taskId new m1 taskId) as (_&_&_&->).
      by destruct (_ && _). }
  destruct (truthy (timeout task)); [|done].
  assert (getState taskId m2 = Some new) as Hget.
  { unfold m2. rewrite setState_st_get, accepts_running; [| |done].
    - rewrite evicted_by_running by done. simpl. by rewrite decide_True.
    - unfold getState. destruct Hcore as (_&->&_). simpl. rewrite Hcur. eauto. }
  intros id t. cbn [timeouts with_timeouts with_timers].
  unfold live_at, getState. cbn [timers state with_timeouts with_timers].
  destruct (decide (id = taskId)) as [->|Hne].
  - rewrite lookup_insert_eq. intros [= <-]. split.
    + eexists. rewrite lookup_app_r by lia. by rewrite Nat.sub_diag.
    + unfold getState in Hget. by rewrite Hget.
  - rewrite lookup_insert_ne by done. intros Ht.
    destruct (H2 id t Ht) as [[d Hd] Hr]. split; [|done].
    exists d. rewrite lookup_app_l; [done|]. by eapply lookup_lt_Some.
Qed.

Lemma tmo_dispose m : tmo_inv (dispose_st m).
Proof.
  unfold dispose_st. rewrite abort_all_fields, clear_all_fields.
  intros id t. cbn. by rewrite lookup_empty.
Qed.

Lemma tmo_step op s :
  Inv (manager s) -> tmo_inv (manager s) -> tmo_inv (manager (step op s)).
Proof.
  intros HI H.
  destruct op as [id h o|id|id now|k msg cur tot|k outcome now|t now|cb|ref|]; simpl.
  - unfold exec. rewrite register_exec. by apply tmo_register.
  - rewrite start_run. pose proof (tmo_start id _ H).
    by destruct (start_st id (manager s)).2.
  - unfold exec. rewrite cancel_run. by apply tmo_cancel.
  - destruct (runs s !! k) as [[r ?]|]; [|done]. simpl.
    unfold exec. rewrite ctx_progress_run. by apply tmo_ctx_progress.
  - destruct (runs s !! k) as [[r []]|]; [done| |done]. simpl.
    unfold exec. rewrite runTask_run. by apply tmo_runTask.
  - unfold exec. rewrite fire_timer_run. by apply tmo_fire_timer.
  - done.
  - done.
  - unfold exec. rewrite dispose_run. apply tmo_dispose.
Qed.

Lemma tmo_reachable options ops : tmo_inv (manager (run_ops ops (boot options))).
Proof.
  assert (forall s, Inv (manager s) -> tmo_inv (manager s) ->
            tmo_inv (manager (run_ops ops s))) as Hgen.
  { induction ops as [|op ops IH]; intros s HI H; [done|].
    change (run_ops (op :: ops) s) with (run_ops ops (step op s)).
    apply IH; [by apply Inv_step|by apply tmo_step]. }
  apply Hgen; [apply Inv_new|]. intros id t. simpl. by rewrite lookup_empty.
Qed.

(** X4. Recorded timers are live.  In every state the manager reaches, a
    timer recorded for a task is a pending timer of the host set for that
    task, it is recorded for no other task, and the task is running: a task
    that is pending or in a terminal status has no timer recorded.  When the
    host fires the recorded timer its callback therefore takes effect: the
    timer is spent, its record and the token are dropped, one event is
    emitted, and the task is timed out (or was evicted at once). *)
Theorem recorded_timer_is_live options ops id t :
  let m := manager (run_ops ops (boot options)) in
  timeouts m !! id = Some t ->
  status_of (getState id m) = Some running /\
  (exists d, timers m !! t = Some (Some (mkTimer id d))) /\
  (forall id', timeouts m !! id' = Some t -> id' = id) /\
  (forall now,
     let m' := exec (fire_timer t now) m in
     timers m' !! t = Some None /\
     timeouts m' !! id = None /\ abortControllers m' !! id = None /\
     nextEventId m' = nextEventId m + 1 /\
     (getState id m' = Some (TimedOut id now) \/ getState id m' = None)).
Proof.
  cbv zeta. set (m := manager (run_ops ops (boot options))). intros Ht.
  pose proof (tmo_reachable options ops) as H. fold m in H.
  destruct (H id t Ht) as [[d Hd] Hrun]. split_and!; [done|by exists d| |].
  - intros id' Ht'. destruct (H id' t Ht') as [[d' Hd'] _]. congruence.
  - intros now. unfold exec. rewrite fire_timer_run. cbn [fst].
    unfold fire_timer_st. rewrite Hd. cbn [timer_task].
    set (m0 := with_timers (fun ts => <[t := None]> ts) m).
    destruct (timeout_callback_running id now m0 Hrun) as (_&H2&H3&H4&_&H6).
    unfold exec in *. rewrite timeout_callback_run in *. cbn [fst] in *.
    split_and!; [|done..].
    unfold timeout_callback_st. rewrite bool_decide_true by done. cbn [negb].
    destruct (setState_st_host id (TimedOut id now)
      (with_timeouts (delete id) (with_abortControllers (delete id)
         match abortControllers m0 !! id with
         | Some c => with_controllers (fun h => <[c := true]> h) m0
         | None => m0
         end))) as (_&->&_).
    assert (timers m0 !! t = Some None) as Hm0.
    { unfold m0. cbn. apply list_lookup_insert_eq. by eapply lookup_lt_Some. }
    by destruct (abortControllers m0 !! id).
Qed.

Lemma recorded_timer_is_live_witness :
  status_of (getState "A" (manager (run_ops timeout_trace (boot no_options)))) = Some running.
Proof.
  apply (recorded_timer_is_live no_options timeout_trace "A" 0).
  vm_compute. reflexivity.
Defined.

(** ** Timers when eviction is disabled *)

Lemma setState_st_disabled taskId newState m :
  maxHistory m = 0%nat ->
  timeouts (setState_st taskId newState m) = timeouts m /\
  tasks (setState_st taskId newState m) = tasks m /\
  OMap.keys (state (setState_st taskId newState m)) = OMap.keys (state m).
Proof.
  intros HK. rewrite setState_st_unfold.
  destruct (accepts taskId newState m) eqn:Hacc; [|done].
  rewrite evicted_by_disabled by done. cbn [evict_all foldl].
  destruct (commit_st_fields taskId newState m) as (->&->&_&_&_&->&_).
  split_and!; [done..|]. apply keys_set_present.
  by apply accepts_Some in Hacc.
Qed.

Lemma leak_core m m' :
  timers m' = timers m -> timeouts m' = timeouts m -> no_leak m -> no_leak m'.
Proof. intros Hh Ht H t tm. rewrite Hh, Ht. apply H. Qed.

Lemma leak_setState taskId newState m :
  maxHistory m = 0%nat -> no_leak m -> no_leak (setState_st taskId newState m).
Proof.
  intros HK. apply leak_core.
  - by destruct (setState_st_host taskId newState m) as (_&->&_).
  - by destruct (setState_st_disabled taskId newState m HK) as (->&_).
Qed.

Lemma lookup_cleared (ts : list (option Timer)) (t t' : nat) tm :
  <[t := None]> ts !! t' = Some (Some tm) -> t' ≠ t /\ ts !! t' = Some (Some tm).
Proof.
  intros H. destruct (decide (t' = t)) as [->|Hne].
  - exfalso. destruct (decide (t < length ts)%nat).
    + by rewrite list_lookup_insert_eq in H.
    + rewrite list_insert_ge in H by lia. rewrite lookup_ge_None_2 in H by lia. done.
  - by rewrite list_lookup_insert_ne in H.
Qed.

Lemma leak_clearTimeout taskId m : no_leak m -> no_leak (clearTimeout_st taskId m).
Proof.
  intros H. unfold clearTimeout_st.
  destruct (timeouts m !! taskId) as [t0|] eqn:Ht0; [|done].
  intros t tm. cbn. intros [Hne Ht]%lookup_cleared.
  specialize (H t tm Ht). rewrite lookup_delete_ne; [done|]. intros Heq.
  rewrite <- Heq, Ht0 in H. by injection H.
Qed.

Lemma maxHistory_clearTimeout taskId m : maxHistory (clearTimeout_st taskId m) = maxHistory m.
Proof. by destruct (clearTimeout_st_fields taskId m) as ((_&_&_&_&_&_&_&->&_)&_). Qed.

Lemma maxHistory_setState taskId newState m :
  maxHistory (setState_st taskId newState m) = maxHistory m.
Proof. by destruct (setState_st_host taskId newState m) as (_&_&_&_&->&_). Qed.

Lemma lookup_clear_all (ts : list nat) (h : list (option Timer)) (t : nat) tm :
  foldl (fun h t => <[t := None]> h) h ts !! t = Some (Some tm) ->
  (t ∉ ts) /\ h !! t = Some (Some tm).
Proof.
  revert h. induction ts as [|t0 ts IH]; intros h; simpl.
  - intros H. split; [apply not_elem_of_nil|done].
  - intros [Hnot [Hne H]%lookup_cleared]%IH. split; [|done].
    rewrite not_elem_of_cons. done.
Qed.

(** With eviction disabled, an operation leaves no timer behind. *)
Lemma leak_step op s :
  maxHistory (manager s) = 0%nat -> no_leak (manager s) ->
  maxHistory (manager (step op s)) = 0%nat /\ no_leak (manager (step op s)).
Proof.
  intros HK H.
  destruct op as [tid h o|tid|tid now|k msg cur tot|k outcome now|t now|cb|ref|]; simpl.
  - unfold exec. rewrite register_exec. unfold register_st.
    by destruct (bool_decide _).
  - rewrite start_run.
    assert (maxHistory (start_st tid (manager s)).1 = 0%nat /\
            no_leak (start_st tid (manager s)).1) as Hs;
      [|by destruct (start_st tid (manager s)).2].
    unfold start_st, warn_st.
    destruct (tasks (manager s) !! tid) as [task|];
      [|simpl; by destruct (debug (manager s))].
    destruct (OMap.get tid (state (manager s))) as [cur|];
      [|simpl; by destruct (debug (manager s))].
    destruct (bool_decide (status cur = running));
      [simpl; by destruct (debug (manager s))|].
    cbn [fst]. unfold launch_st. cbv zeta.
    set (m0 := with_runGeneration _ _).
    set (new := Running tid (Some (mkProgress "Starting..." None None))).
    destruct (clearTimeout_st_fields tid m0) as (_&_&_&_&_&_&Hnone).
    assert (maxHistory (clearTimeout_st tid m0) = 0%nat) as HK1
      by by rewrite maxHistory_clearTimeout.
    assert (no_leak (clearTimeout_st tid m0)) as H1.
    { apply leak_clearTimeout. by eapply (leak_core (manager s)). }
    set (m1 := clearTimeout_st tid m0) in *.
    pose proof (leak_setState tid new m1 HK1 H1) as H2.
    destruct (setState_st_disabled tid new m1 HK1) as (Ht2&_).
    pose proof (maxHistory_setState tid new m1) as HK2. rewrite HK1 in HK2.
    set (m2 := setState_st tid new m1) in *.
    destruct (truthy (timeout task)); [|done]. split; [done|].
    intros t tm. cbn. intros Ht.
    destruct (decide (t < length (timers m2))%nat) as [Hlt|Hge].
    + rewrite lookup_app_l in Ht by done. specialize (H2 t tm Ht).
      rewrite lookup_insert_ne; [done|]. intros Heq.
      rewrite <- Heq, Ht2, Hnone in H2. done.
    + rewrite lookup_app_r in Ht by lia.
      destruct (t - length (timers m2))%nat as [|n] eqn:Hn; [|by destruct n].
      injection Ht as <-. cbn. rewrite lookup_insert_eq. f_equal. lia.
  - unfold exec. rewrite cancel_run. cbn [fst]. unfold cancel_st.
    destruct (abortControllers (manager s) !! tid) as [c|]; [|done].
    set (m0 := with_abortControllers _ _).
    assert (maxHistory (clearTimeout_st tid m0) = 0%nat) as HK1
      by by rewrite maxHistory_clearTimeout.
    split; [by rewrite maxHistory_setState|].
    apply leak_setState; [done|]. apply leak_clearTimeout.
    by eapply (leak_core (manager s)).
  - destruct (runs s !! k) as [[r ?]|]; [|done]. simpl.
    unfold exec. rewrite ctx_progress_run. cbn [fst]. unfold ctx_progress_st.
    destruct (isStale r (manager s)); [done|]. destruct (negb _); [done|].
    split; [by rewrite maxHistory_setState|by apply leak_setState].
  - destruct (runs s !! k) as [[r []]|]; [done| |done]. simpl.
    unfold exec. rewrite runTask_run. cbn [fst]. unfold runTask_st. cbv zeta.
    set (m1 := if negb (isCanceled r (manager s)) && negb (isStale r (manager s))
               then _ else manager s).
    assert (maxHistory m1 = 0%nat /\ no_leak m1) as [HK1 H1].
    { unfold m1.
      destruct (negb (isCanceled r (manager s)) && negb (isStale r (manager s)));
        [|done].
      destruct outcome.
      - split; [by rewrite maxHistory_setState|by apply leak_setState].
      - split; [by rewrite maxHistory_setState|]. apply leak_setState; [done|].
        by eapply (leak_core (manager s)). }
    destruct (negb (isStale r m1)); [|done].
    split; [by rewrite maxHistory_clearTimeout|].
    apply leak_clearTimeout. by eapply (leak_core m1).
  - unfold exec. rewrite fire_timer_run. cbn [fst]. unfold fire_timer_st.
    destruct (timers (manager s) !! t) as [[tm|]|] eqn:Ht; [|done..].
    set (m0 := with_timers _ _).
    assert (no_leak m0) as H0.
    { intros t' tm'. unfold m0. cbn. intros [_ Ht']%lookup_cleared. by apply H. }
    unfold timeout_callback_st. destruct (negb _); [done|].
    split; [rewrite maxHistory_setState; by destruct (abortControllers m0 !! timer_task tm)|].
    apply leak_setState; [by destruct (abortControllers m0 !! timer_task tm)|].
    intros t' tm'.
    assert (forall m', timers m' = timers m0 -> timeouts m' = timeouts m0 ->
              timers m' !! t' = Some (Some tm') ->
              delete (timer_task tm) (timeouts m') !! timer_task tm' = Some t') as Hgen.
    2: { cbn [timers timeouts with_timeouts with_abortControllers].
         destruct (abortControllers m0 !! timer_task tm); apply Hgen; done. }
    intros m' -> ->. unfold m0. cbn. intros [Hne Ht']%lookup_cleared.
    pose proof (H _ _ Ht'). rewrite lookup_delete_ne; [done|]. intros Heq.
    pose proof (H _ _ Ht) as Hrec. rewrite Heq in Hrec. congruence.
  - done.
  - done.
  - unfold exec. rewrite dispose_run. cbn [fst]. unfold dispose_st.
    rewrite abort_all_fields, clear_all_fields. split; [done|].
    intros t tm. cbn. intros [Hnot Ht]%lookup_clear_all.
    exfalso. apply Hnot. specialize (H t tm Ht).
    apply list_elem_of_fmap. exists (timer_task tm, t). split; [done|].
    by apply elem_of_map_to_list.
Qed.

Lemma leak_free_reachable options ops :
  default 0%nat (opt_maxHistory options) = 0%nat ->
  no_leak (manager (run_ops ops (boot options))).
Proof.
  intros HK.
  assert (forall s, maxHistory (manager s) = 0%nat -> no_leak (manager s) ->
            no_leak (manager (run_ops ops s))) as Hgen.
  { induction ops as [|op ops IH]; intros s HKs H; [done|].
    change (run_ops (op :: ops) s) with (run_ops ops (step op s)).
    destruct (leak_step op s HKs H). by apply IH. }
  apply Hgen; [done|]. intros t tm. simpl. by rewrite lookup_nil.
Qed.

(** X5. No timer outlives its run when eviction is disabled.  With
    [maxHistory] unset or [0], in every state the manager reaches each
    pending timer of the host is the timer recorded for its task, and that
    task is running: when a run ends by completion, failure, cancellation or
    timeout, and when the manager is disposed, its timer is cleared, so no
    timer of an earlier run fires on a later one. *)
Theorem no_timer_outlives_its_run options ops t tm :
  let m := manager (run_ops ops (boot options)) in
  default 0%nat (opt_maxHistory options) = 0%nat ->
  timers m !! t = Some (Some tm) ->
  timeouts m !! timer_task tm = Some t /\
  status_of (getState (timer_task tm) m) = Some running /\
  (forall t' tm', timers m !! t' = Some (Some tm') -> timer_task tm' = timer_task tm -> t' = t).
Proof.
  cbv zeta. intros HK Ht.
  pose proof (leak_free_reachable options ops HK) as H.
  pose proof (H t tm Ht) as Hrec. split_and!; [done| |].
  - by destruct (tmo_reachable options ops _ _ Hrec).
  - intros t' tm' Ht' Heq. pose proof (H t' tm' Ht') as Hrec'.
    rewrite Heq in Hrec'. congruence.
Qed.

Lemma no_timer_outlives_its_run_witness :
  timeouts (manager (run_ops timeout_trace (boot no_options))) !! "A" = Some 0%nat.
Proof.
  apply (no_timer_outlives_its_run no_options timeout_trace 0 (mkTimer "A" 1000));
    vm_compute; reflexivity.
Defined.

(** ** Starting a task *)

Lemma clearTimeout_st_timers taskId m :
  length (timers (clearTimeout_st taskId m)) = length (timers m) /\
  (forall t0, timeouts m !! taskId = Some t0 -> (t0 < length (timers m))%nat ->
     timers (clearTimeout_st taskId m) !! t0 = Some None).
Proof.
  unfold clearTimeout_st. destruct (timeouts m !! taskId) as [t|]; cbn.
  - rewrite length_insert. split; [done|]. intros t0 [= <-] Hlt.
    by apply list_lookup_insert_eq.
  - done.
Qed.

(** What the launching part of [start] does. *)
Lemma launch_st_effect taskId m task cur :
  getState taskId m = Some cur ->
  let r := launched taskId m in
  let new := Running taskId (Some (mkProgress "Starting..." None None)) in
  let m' := launch_st taskId task m in
  getState taskId m' = Some new /\
  (forall k, k ≠ taskId -> getState k m' = getState k m) /\
  tasks m' = tasks m /\
  nextEventId m' = nextEventId m + 1 /\
  delivered m' = delivered m ++
    deliveries (subscribers m) (mkEvent taskId new (nextEventId m)) /\
  abortControllers m' !! taskId = Some (run_controller r) /\
  isCanceled r m' = false /\ isStale r m' = false /\
  (forall t0, timeouts m !! taskId = Some t0 -> (t0 < length (timers m))%nat ->
     timers m' !! t0 = Some None) /\
  (if truthy (timeout task)
   then timeouts m' !! taskId = Some (length (timers m)) /\
        timers m' !! length (timers m)
        = Some (Some (mkTimer taskId (default 0 (timeout task))))
   else timeouts m' !! taskId = None /\ length (timers m') = length (timers m)).
Proof.
  intros Hcur. cbv zeta. unfold getState in Hcur. unfold launched.
  unfold launch_st. cbv zeta.
  set (c := length (controllers m)).
  set (g := (default 0 (runGeneration m !! taskId) + 1)%nat).
  set (m0 := with_runGeneration _ _).
  set (new := Running taskId (Some (mkProgress "Starting..." None None))).
  destruct (clearTimeout_st_fields taskId m0) as (Hcore&Ha1&Hg1&Hc1&_&_&Hnone).
  destruct (clearTimeout_st_timers taskId m0) as (Hlen1&Hclr).
  set (m1 := clearTimeout_st taskId m0) in *.
  destruct Hcore as (Ht1&Hs1&Hsub1&Hn1&_&_&Hd1&_).
  assert (accepts taskId new m1 = true) as Hacc.
  { apply accepts_running; [|done]. unfold getState. rewrite Hs1. cbn. rewrite Hcur. eauto. }
  pose proof (accepted_effect taskId new m1 Hacc) as Heff.
  unfold exec in Heff. rewrite setState_run in Heff. cbv zeta in Heff. cbn [fst] in Heff.
  destruct Heff as (E1&E2&_&_&E3). specialize (E3 eq_refl).
  destruct (setState_st_host taskId new m1) as (Hc2&Hh2&_).
  pose proof (setState_st_maps taskId new m1) as Hmaps. cbv zeta in Hmaps.
  rewrite evicted_by_running in Hmaps by done.
  assert (forall k, getState k (setState_st taskId new m1)
                    = if decide (taskId = k) then Some new else getState k m) as Hget.
  { intros k. rewrite setState_st_get, Hacc, evicted_by_running by done. cbn.
    destruct (decide (taskId = k)); [done|]. unfold getState. by rewrite Hs1. }
  assert (tasks (setState_st taskId new m1) = tasks m) as Htasks.
  { apply map_eq. intros k. destruct (Hmaps k) as (->&_). cbn. by rewrite Ht1. }
  destruct (Hmaps taskId) as (_&Ha2&Hg2&Ht2). cbn in Ha2, Hg2, Ht2.
  rewrite Ha1 in Ha2. rewrite Hg1 in Hg2. rewrite Hnone in Ht2.
  cbn in Ha2, Hg2. rewrite lookup_insert_eq in Ha2, Hg2.
  rewrite Hn1 in E1. rewrite Hn1, Hd1, Hsub1 in E2. cbn in E1, E2.
  set (m2 := setState_st taskId new m1) in *.
  assert (controllers m2 = controllers m ++ [false]) as Hctl by by rewrite Hc2, Hc1.
  assert (aborted c m2 = false) as Hab.
  { unfold aborted. rewrite Hctl, lookup_app_r by (unfold c; lia).
    unfold c. by rewrite Nat.sub_diag. }
  assert (forall m3, controllers m3 = controllers m2 -> runGeneration m3 = runGeneration m2 ->
            isCanceled (mkRun taskId g c) m3 = false /\ isStale (mkRun taskId g c) m3 = false)
    as Hrun.
  { intros m3 Hc3 Hg3. unfold isCanceled, isStale, aborted in *. cbn. rewrite Hc3, Hg3, Hg2.
    split; [done|]. apply bool_decide_eq_false. intros H. by apply H. }
  assert (forall t0, timeouts m !! taskId = Some t0 -> (t0 < length (timers m))%nat ->
            timers m2 !! t0 = Some None) as Hold.
  { intros t0 H0 Hlt. rewrite Hh2. by apply Hclr. }
  assert (length (timers m2) = length (timers m)) as Hlen2 by by rewrite Hh2, Hlen1.
  destruct (truthy (timeout task)).
  - set (m3 := with_timeouts _ _).
    assert (forall k, getState k m3 = getState k m2) as G by done.
    split_and!.
    + by rewrite G, Hget, decide_True.
    + intros k Hk. by rewrite G, Hget, decide_False.
    + exact Htasks.
    + exact E1.
    + exact E2.
    + exact Ha2.
    + by apply Hrun.
    + by apply Hrun.
    + intros t0 H0 Hlt. unfold m3. cbn. rewrite lookup_app_l by lia. by apply Hold.
    + unfold m3. cbn. by rewrite lookup_insert_eq, Hlen2.
    + unfold m3. cbn. rewrite lookup_app_r by lia. by rewrite Hlen2, Nat.sub_diag.
  - split_and!.
    + by rewrite Hget, decide_True.
    + intros k Hk. by rewrite Hget, decide_False.
    + exact Htasks.
    + exact E1.
    + exact E2.
    + exact Ha2.
    + by apply Hrun.
    + by apply Hrun.
    + exact Hold.
    + exact Ht2.
    + exact Hlen2.
Qed.

(** X6. [start] of a registered task that is not running.  Whatever the
    status the task is in (pending or any terminal one), the call launches a
    run: the state becomes [running] with the progress message
    ["Starting..."] and one event is emitted; the run gets a fresh
    controller, not aborted, recorded as the task's token, and the next
    generation number, so it is neither canceled nor stale; the timer
    recorded for an earlier run is cleared; a new timer is set and recorded
    exactly when the task has a timeout other than [0]; the other tasks are
    left as they were. *)
Theorem start_launches_run taskId m task cur :
  tasks m !! taskId = Some task -> getState taskId m = Some cur ->
  status cur ≠ running ->
  let r := mkRun taskId (default 0 (runGeneration m !! taskId) + 1)%nat
             (length (controllers m)) in
  let new := Running taskId (Some (mkProgress "Starting..." None None)) in
  let m' := exec (start taskId) m in
  result (start taskId) m = Ok (Some r) /\
  getState taskId m' = Some new /\
  (forall k, k ≠ taskId -> getState k m' = getState k m) /\
  tasks m' = tasks m /\
  nextEventId m' = nextEventId m + 1 /\
  delivered m' = delivered m ++
    deliveries (subscribers m) (mkEvent taskId new (nextEventId m)) /\
  abortControllers m' !! taskId = Some (run_controller r) /\
  isCanceled r m' = false /\ isStale r m' = false /\
  (forall t0, timeouts m !! taskId = Some t0 -> (t0 < length (timers m))%nat ->
     timers m' !! t0 = Some None) /\
  (if truthy (timeout task)
   then timeouts m' !! taskId = Some (length (timers m)) /\
        timers m' !! length (timers m)
        = Some (Some (mkTimer taskId (default 0 (timeout task))))
   else timeouts m' !! taskId = None /\ length (timers m') = length (timers m)).
Proof.
  intros Htask Hcur Hnr. cbv zeta. unfold exec, result. rewrite start_run.
  unfold start_st. pose proof Hcur as Hcur'. unfold getState in Hcur'.
  rewrite Htask, Hcur'. rewrite bool_decide_false by done. cbn [fst snd].
  split; [done|]. by apply (launch_st_effect taskId m task cur).
Qed.

Lemma start_launches_run_witness :
  result (start "A") (manager restart_s0)
  = Ok (Some (mkRun "A" (default 0 (runGeneration (manager restart_s0) !! "A") + 1)%nat
                (length (controllers (manager restart_s0))))).
Proof.
  apply (start_launches_run "A" (manager restart_s0) (mkTask "A" 0%nat None) (Pending "A"));
    [vm_compute; reflexivity | vm_compute; reflexivity | discriminate].
Defined.

Lemma warn_st_console text m :
  exists w, warn_st text m = with_console (fun c => c ++ w) m /\
    length w = (if debug m then 1 else 0)%nat.
Proof.
  unfold warn_st. destruct (debug m) eqn:Hd.
  - by exists [Warn text].
  - exists []. split; [|done]. destruct m. unfold with_console. cbn. by rewrite app_nil_r.
Qed.

(** X7. [start] without effect.  [start] launches nothing exactly when the
    id is not registered, has no state, or the task is running.  It then
    changes nothing but the console, where it logs one warning when [debug]
    is set and nothing otherwise.  In particular a second [start] right
    after a [start] never launches a second run. *)
Theorem start_without_effect taskId m :
  (result (start taskId) m = Ok None <->
     tasks m !! taskId = None \/ getState taskId m = None \/
     status_of (getState taskId m) = Some running) /\
  (result (start taskId) m = Ok None ->
     (exists w, exec (start taskId) m = with_console (fun c => c ++ w) m /\
        length w = (if debug m then 1 else 0)%nat) /\
     (debug m = false -> exec (start taskId) m = m)) /\
  result (start taskId) (exec (start taskId) m) = Ok None.
Proof.
  unfold exec, result. rewrite !start_run. cbn [fst snd].
  unfold start_st at 1 2 3 4 6. unfold getState.
  destruct (tasks m !! taskId) as [task|] eqn:Htask; cycle 1.
  { cbn [fst snd]. split_and!.
    - split; [by left|done].
    - intros _. split; [apply warn_st_console|]. unfold warn_st. by intros ->.
    - unfold start_st, warn_st. by destruct (debug m); cbn; rewrite Htask. }
  destruct (OMap.get taskId (state m)) as [cur|] eqn:Hcur; cycle 1.
  { cbn [fst snd]. split_and!.
    - split; [by right; left|done].
    - intros _. split; [apply warn_st_console|]. unfold warn_st. by intros ->.
    - unfold start_st, warn_st. by destruct (debug m); cbn; rewrite Htask, Hcur. }
  destruct (bool_decide_reflect (status cur = running)) as [Hrun|Hnr].
  { cbn [fst snd]. split_and!.
    - split; [right; right; cbn; by rewrite Hrun|done].
    - intros _. split; [apply warn_st_console|]. unfold warn_st. by intros ->.
    - unfold start_st, warn_st.
      destruct (debug m); cbn; rewrite Htask, Hcur; by rewrite bool_decide_true. }
  cbn [fst snd]. split_and!.
  - split; [done|]. intros [?|[?|Hr]]; [done..|]. cbn in Hr. by injection Hr.
  - done.
  - destruct (launch_st_effect taskId m task cur Hcur) as (Hget&_&Htasks&_).
    unfold start_st. unfold getState in Hget. by rewrite Htasks, Htask, Hget.
Qed.

Lemma start_without_effect_witness :
  exec (start "nobody") (new_TaskManager no_options) = new_TaskManager no_options.
Proof.
  apply (start_without_effect "nobody" (new_TaskManager no_options)); reflexivity.
Defined.

(** ** Canceling a task that is not running *)

(** X8. [cancel] of a task that is not running.  In every state the manager
    reaches a token is stored only for a task that is running, so [cancel]
    of an id that is unknown, pending or in a terminal status does nothing
    at all: no state is written and no event is emitted. *)
Theorem cancel_of_idle_task options ops taskId now :
  let m := manager (run_ops ops (boot options)) in
  (is_Some (abortControllers m !! taskId) ->
     status_of (getState taskId m) = Some running) /\
  (status_of (getState taskId m) ≠ Some running -> cancel taskId now m = (m, Ok tt)).
Proof.
  cbv zeta. pose proof (inv_ctl _ (Inv_reachable options ops)) as Hctl.
  split.
  - intros [c Hc]. by eapply Hctl.
  - intros Hnr. rewrite cancel_run. unfold cancel_st.
    destruct (abortControllers _ !! taskId) as [c|] eqn:Hc; [|done].
    exfalso. apply Hnr. by eapply Hctl.
Qed.

Lemma cancel_of_idle_task_witness :
  cancel "A" 5 (manager (run_ops [Register "A" 0%nat None] (boot no_options)))
  = (manager (run_ops [Register "A" 0%nat None] (boot no_options)), Ok tt).
Proof.
  apply (cancel_of_idle_task no_options [Register "A" 0%nat None] "A" 5).
  vm_compute. discriminate.
Defined.

(** ** Progress reports and settlement of the current run *)

(** X9. [ctx.progress] changes the progress and nothing else.  A call by a
    run that is stale, or whose task is not running, leaves the manager as
    it was.  Otherwise the reported progress is stored and one event is
    emitted.  In either case the status of every task, the states of the
    other tasks, the order of the tasks, and the descriptors, tokens,
    generations and timers are unchanged. *)
Theorem progress_changes_progress_only r msg cur tot m :
  let id := run_task r in
  let m' := exec (ctx_progress r msg cur tot) m in
  result (ctx_progress r msg cur tot) m = Ok tt /\
  (isStale r m = true \/ status_of (getState id m) ≠ Some running -> m' = m) /\
  (isStale r m = false -> status_of (getState id m) = Some running ->
     getState id m' = Some (Running id (Some (mkProgress msg cur tot))) /\
     nextEventId m' = nextEventId m + 1 /\
     delivered m' = delivered m ++ deliveries (subscribers m)
       (mkEvent id (Running id (Some (mkProgress msg cur tot))) (nextEventId m))) /\
  (forall k, status_of (getState k m') = status_of (getState k m)) /\
  (forall k, k ≠ id -> getState k m' = getState k m) /\
  OMap.keys (state m') = OMap.keys (state m) /\
  tasks m' = tasks m /\ abortControllers m' = abortControllers m /\
  runGeneration m' = runGeneration m /\ timeouts m' = timeouts m /\
  controllers m' = controllers m /\ timers m' = timers m.
Proof.
  cbv zeta. unfold exec, result. rewrite ctx_progress_run. cbn [fst snd].
  unfold ctx_progress_st. set (id := run_task r).
  set (new := Running id (Some (mkProgress msg cur tot))).
  split; [done|].
  destruct (isStale r m) eqn:Hstale.
  { split_and!; try done. }
  fold (getState id m).
  destruct (bool_decide_reflect (status_of (getState id m) = Some running)) as [Hrun|Hnr];
    cbn [negb]; cycle 1.
  { split_and!; try done. }
  assert (accepts id new m = true) as Hacc.
  { apply accepts_running; [|done]. by destruct (getState id m). }
  pose proof (accepted_effect id new m Hacc) as Heff.
  unfold exec in Heff. rewrite setState_run in Heff. cbv zeta in Heff. cbn [fst] in Heff.
  destruct Heff as (E1&E2&_&_&E3). specialize (E3 eq_refl).
  assert (setState_st id new m = commit_st id new m) as Heq.
  { rewrite setState_st_unfold, Hacc, evicted_by_running by done. done. }
  destruct (commit_st_fields id new m)
    as (F1&F2&_&F4&F5&F6&_&_&_&_&_&_&F13&F14&_&_).
  rewrite <- Heq in F1, F2, F4, F5, F6, F13, F14.
  assert (forall k, k ≠ id -> getState k (setState_st id new m) = getState k m) as Hother.
  { intros k Hk. unfold getState. rewrite F2. by apply get_set_ne. }
  split_and!; try done.
  - intros [?|?]; done.
  - intros k. destruct (decide (k = id)) as [->|Hk]; [|by rewrite Hother].
    by rewrite E3, Hrun.
  - rewrite F2. apply keys_set_present. by destruct (getState id m) eqn:E; [eexists|].
Qed.

Lemma progress_changes_progress_only_witness :
  exec (ctx_progress (mkRun "A" 1 0) "half" (Some 1) (Some 2))
    (manager (run_ops [Register "A" 0%nat None] (boot no_options)))
  = manager (run_ops [Register "A" 0%nat None] (boot no_options)).
Proof.
  apply (progress_changes_progress_only (mkRun "A" 1 0) "half" (Some 1) (Some 2)
           (manager (run_ops [Register "A" 0%nat None] (boot no_options)))).
  left. vm_compute. reflexivity.
Defined.

(** X10. Settlement of the current run.  [runTask] never throws.  When the
    handler of a run that is neither stale nor canceled settles while its
    task is running, the outcome is recorded: the state becomes [completed],
    or [error] with the message of the thrown [Error] (["Unknown error"] for
    any other thrown value), with [lastRun = now]; one event is emitted; the
    token and the timer record of the task are dropped and, unless the task
    is evicted by this very transition, its pending timer is cleared.  With
    eviction disabled the recorded state is there to be read. *)
Theorem settlement_of_current_run r outcome now m :
  let id := run_task r in
  let final := settled_state id outcome now in
  let m' := exec (runTask r outcome now) m in
  result (runTask r outcome now) m = Ok tt /\
  (isStale r m = false -> isCanceled r m = false ->
   status_of (getState id m) = Some running ->
     (getState id m' = Some final \/ (maxHistory m ≠ 0%nat /\ getState id m' = None)) /\
     nextEventId m' = nextEventId m + 1 /\
     delivered m' = delivered m ++ deliveries (subscribers m) (mkEvent id final (nextEventId m)) /\
     abortControllers m' !! id = None /\ timeouts m' !! id = None /\
     (getState id m' = Some final ->
        forall t0, timeouts m !! id = Some t0 -> (t0 < length (timers m))%nat ->
          timers m' !! t0 = Some None)).
Proof.
  cbv zeta. unfold exec, result. rewrite runTask_run. cbn [fst snd].
  split; [done|]. intros Hstale Hcanc Hrun.
  unfold runTask_st. cbv zeta. rewrite Hstale, Hcanc. cbn [negb andb].
  set (id := run_task r) in *. set (final := settled_state id outcome now).
  set (m0 := match outcome with
             | Ok _ => m
             | Throw e => with_console
                 (fun c => c ++ [ConsoleError ("Task " +:+ quote +:+ id +:+ quote +:+ " failed:") e]) m
             end).
  assert ((match outcome with
           | Ok _ => setState_st id (Completed id now) m
           | Throw e => setState_st id (Error id now (error_message e))
               (with_console
                  (fun c => c ++ [ConsoleError ("Task " +:+ quote +:+ id +:+ quote +:+ " failed:") e]) m)
           end) = setState_st id final m0) as -> by (subst final m0; by destruct outcome).
  assert (state m0 = state m /\ nextEventId m0 = nextEventId m /\
          delivered m0 = delivered m /\ subscribers m0 = subscribers m /\
          runGeneration m0 = runGeneration m /\ timeouts m0 = timeouts m /\
          timers m0 = timers m /\ maxHistory m0 = maxHistory m)
    as (N0&N1&N2&N3&N4&N5&N6&N7) by (subst m0; by destruct outcome).
  assert (accepts id final m0 = true) as Hacc.
  { unfold accepts. rewrite N0. unfold getState in Hrun.
    destruct (OMap.get id (state m)) as [cur|]; [|done].
    cbn in Hrun. injection Hrun as Hrun. unfold rejects. by rewrite Hrun. }
  pose proof (accepted_effect id final m0 Hacc) as Heff.
  unfold exec in Heff. rewrite setState_run in Heff. cbv zeta in Heff. cbn [fst] in Heff.
  destruct Heff as (E1&E2&_&_&_).
  rewrite N1 in E1. rewrite N1, N2, N3 in E2.
  pose proof (setState_st_get id final m0 id) as Hget. rewrite Hacc in Hget.
  rewrite decide_True in Hget by done.
  destruct (setState_st_maps id final m0 id) as (_&Ma&Mg&Mt).
  rewrite Hacc, andb_true_r in Ma, Mg, Mt.
  destruct (setState_st_host id final m0) as (_&Hh&_).
  set (m1 := setState_st id final m0) in *.
  destruct (bool_decide_reflect (id ∈ evicted_by id final m0)) as [Hev|Hkeep].
  - assert (isStale r m1 = true) as ->.
    { unfold isStale. fold id. rewrite Mg. by apply bool_decide_eq_true. }
    cbn [negb]. split_and!; [|done..|].
    + right. split; [|done]. intros HK. rewrite evicted_by_disabled in Hev by by rewrite N7.
      by apply elem_of_nil in Hev.
    + by rewrite Hget.
  - assert (isStale r m1 = false) as ->.
    { unfold isStale in *. fold id in Hstale |- *. by rewrite Mg, N4. }
    cbn [negb].
    set (m2 := with_abortControllers (delete id) m1).
    destruct (clearTimeout_st_fields id m2) as ((_&Hs3&Hsub3&Hn3&_&_&Hd3&_)&Ha3&_&_&_&_&Ht3).
    destruct (clearTimeout_st_timers id m2) as (_&Hclr).
    unfold getState. rewrite Hs3, Hn3, Hd3, Ha3. cbn [state nextEventId delivered
      abortControllers with_abortControllers]. fold (getState id m1).
    split_and!; [by left|done|done|apply lookup_delete_eq|done|].
    intros _ t0 H0 Hlt. apply Hclr.
    + cbn. by rewrite Mt, N5.
    + cbn. by rewrite Hh, N6.
Qed.

Lemma settlement_of_current_run_witness :
  nextEventId (exec (runTask (mkRun "A" 1 0) (Throw OtherValue) 7)
                 (manager (run_ops cancel_trace (boot no_options))))
  = nextEventId (manager (run_ops cancel_trace (boot no_options))) + 1.
Proof.
  apply (settlement_of_current_run (mkRun "A" 1 0) (Throw OtherValue) 7
           (manager (run_ops cancel_trace (boot no_options)))); vm_compute; reflexivity.
Defined.

(** ** Disposal *)

Lemma lookup_abort_all (cs : list nat) (h : list bool) (c : nat) :
  c ∈ cs -> (c < length h)%nat ->
  foldl (fun h c => <[c := true]> h) h cs !! c = Some true.
Proof.
  revert h. induction cs as [|c0 cs IH]; intros h; [by intros ?%elem_of_nil|].
  intros Hin Hlt. cbn [foldl].
  destruct (decide (c ∈ cs)) as [Hc|Hc].
  - apply IH; [done|]. by rewrite length_insert.
  - apply elem_of_cons in Hin as [->|]; [|done].
    assert (forall h' : list bool, h' !! c0 = Some true ->
              foldl (fun h c => <[c := true]> h) h' cs !! c0 = Some true) as Hkeep.
    { clear. induction cs as [|c1 cs IH]; intros h' H; [done|]. cbn [foldl]. apply IH.
      destruct (decide (c1 = c0)) as [->|].
      - apply list_lookup_insert_eq. by eapply lookup_lt_Some.
      - by rewrite list_lookup_insert_ne. }
    apply Hkeep. by apply list_lookup_insert_eq.
Qed.

Lemma lookup_clear_all_elem (ts : list nat) (h : list (option Timer)) (t : nat) :
  t ∈ ts -> (t < length h)%nat ->
  foldl (fun h t => <[t := None]> h) h ts !! t = Some None.
Proof.
  revert h. induction ts as [|t0 ts IH]; intros h; [by intros ?%elem_of_nil|].
  intros Hin Hlt. cbn [foldl].
  destruct (decide (t ∈ ts)) as [Hc|Hc].
  - apply IH; [done|]. by rewrite length_insert.
  - apply elem_of_cons in Hin as [->|]; [|done].
    assert (forall h' : list (option Timer), h' !! t0 = Some None ->
              foldl (fun h t => <[t := None]> h) h' ts !! t0 = Some None) as Hkeep.
    { clear. induction ts as [|t1 ts IH]; intros h' H; [done|]. cbn [foldl]. apply IH.
      destruct (decide (t1 = t0)) as [->|].
      - apply list_lookup_insert_eq. by eapply lookup_lt_Some.
      - by rewrite list_lookup_insert_ne. }
    apply Hkeep. by apply list_lookup_insert_eq.
Qed.

(** X11. Disposal.  Disposal of a manager in any state it reaches returns
    normally and leaves no task, state, subscriber, token, generation, timer
    record or buffered event.  Every controller that was stored as a token is
    aborted, so the handlers still executing see [isCanceled()]; controllers
    aborted before stay so.  Every recorded timer is cleared, and with
    eviction disabled no timer at all is left pending.  Nothing is emitted:
    the event counter and the calls made to subscribers are as before. *)
Theorem dispose_releases_everything options ops :
  let m := manager (run_ops ops (boot options)) in
  let m' := exec dispose m in
  result dispose m = Ok tt /\
  tasks m' = ∅ /\ getAllStates m' = [] /\ (forall id, getState id m' = None) /\
  subscribers m' = [] /\ abortControllers m' = ∅ /\ runGeneration m' = ∅ /\
  timeouts m' = ∅ /\ eventBuffer m' = [] /\
  nextEventId m' = nextEventId m /\ delivered m' = delivered m /\
  (forall id c, abortControllers m !! id = Some c -> aborted c m' = true) /\
  (forall c, aborted c m = true -> aborted c m' = true) /\
  (forall id t, timeouts m !! id = Some t -> timers m' !! t = Some None) /\
  (default 0%nat (opt_maxHistory options) = 0%nat ->
     forall t tm, timers m' !! t ≠ Some (Some tm)).
Proof.
  cbv zeta. set (m := manager (run_ops ops (boot options))).
  unfold exec, result. rewrite dispose_run. cbn [fst snd]. unfold dispose_st.
  rewrite abort_all_fields, clear_all_fields.
  split_and!; try done.
  - intros id c Hc. unfold aborted. cbn. rewrite lookup_abort_all; [done| |].
    + apply list_elem_of_fmap. exists (id, c). split; [done|]. by apply elem_of_map_to_list.
    + by apply (valid_reachable options ops id c).
  - intros c. unfold aborted. cbn. apply flags_le_abort_all.
  - intros id t Ht. cbn. apply lookup_clear_all_elem.
    + apply list_elem_of_fmap. exists (id, t). split; [done|]. by apply elem_of_map_to_list.
    + destruct (tmo_reachable options ops id t Ht) as [[d Hd] _]. by eapply lookup_lt_Some.
  - intros HK t tm. cbn. intros [Hnot Ht]%lookup_clear_all.
    apply Hnot. pose proof (leak_free_reachable options ops HK t tm Ht) as Hrec.
    apply list_elem_of_fmap. exists (timer_task tm, t). split; [done|].
    by apply elem_of_map_to_list.
Qed.

Lemma dispose_releases_everything_witness :
  aborted 0 (exec dispose (manager (run_ops cancel_trace (boot no_options)))) = true.
Proof.
  apply (dispose_releases_everything no_options cancel_trace) with (id := "A").
  vm_compute. reflexivity.
Defined.

(** ** A manager without tasks *)

Lemma setState_st_empty taskId newState m :
  state m = [] -> setState_st taskId newState m = m.
Proof. intros H. unfold setState_st. by rewrite H. Qed.

(** Without states nothing is written and nothing is emitted. *)
Lemma step_empty op s :
  state (manager s) = [] -> eventBuffer (manager s) = [] -> is_register op = false ->
  let m' := manager (step op s) in
  state m' = [] /\ eventBuffer m' = [] /\
  nextEventId m' = nextEventId (manager s) /\ delivered m' = delivered (manager s).
Proof.
  intros Hst Hbuf Hop.
  destruct op as [tid h o|tid|tid now|k msg cur tot|k outcome now|t now|cb|ref|];
    try discriminate; cbv zeta; simpl.
  - rewrite start_run. unfold start_st, warn_st. rewrite Hst.
    destruct (tasks (manager s) !! tid); cbn; by destruct (debug (manager s)).
  - unfold exec. rewrite cancel_run. cbn [fst]. unfold cancel_st.
    destruct (abortControllers (manager s) !! tid) as [c|]; [|done].
    set (m0 := with_abortControllers _ _).
    destruct (clearTimeout_st_fields tid m0) as ((_&Hs&_&Hn&Hb&_&Hd&_)&_).
    rewrite setState_st_empty by by rewrite Hs.
    by rewrite Hs, Hn, Hb, Hd.
  - destruct (runs s !! k) as [[r ?]|]; [|done]. simpl.
    unfold exec. rewrite ctx_progress_run. cbn [fst]. unfold ctx_progress_st.
    destruct (isStale r (manager s)); [done|]. destruct (negb _); [done|].
    by rewrite setState_st_empty.
  - destruct (runs s !! k) as [[r []]|]; [done| |done]. simpl.
    unfold exec. rewrite runTask_run. cbn [fst]. unfold runTask_st. cbv zeta.
    set (m1 := if negb (isCanceled r (manager s)) && negb (isStale r (manager s))
               then _ else manager s).
    assert (state m1 = [] /\ eventBuffer m1 = [] /\
            nextEventId m1 = nextEventId (manager s) /\
            delivered m1 = delivered (manager s)) as (E1&E2&E3&E4).
    { unfold m1.
      destruct (negb (isCanceled r (manager s)) && negb (isStale r (manager s)));
        [|done].
      destruct outcome; by rewrite setState_st_empty. }
    destruct (negb (isStale r m1)); [|done].
    set (m2 := with_abortControllers _ _).
    destruct (clearTimeout_st_fields (run_task r) m2) as ((_&Hs&_&Hn&Hb&_&Hd&_)&_).
    by rewrite Hs, Hn, Hb, Hd.
  - unfold exec. rewrite fire_timer_run. cbn [fst]. unfold fire_timer_st.
    destruct (timers (manager s) !! t) as [[tm|]|]; [|done..].
    unfold timeout_callback_st. cbn [state with_timers]. rewrite Hst. done.
  - done.
  - done.
  - unfold exec. rewrite dispose_run. cbn [fst]. unfold dispose_st.
    by rewrite abort_all_fields, clear_all_fields.
Qed.

(** X12. A disposed manager stays silent.  After disposal, whatever the
    handlers still executing, the timers still pending and the application
    do, short of registering a task again: no state appears, no event is
    emitted and no subscriber is called.  Late progress reports and
    settlements of the runs launched before the disposal are lost. *)
Theorem disposed_manager_is_silent s ops :
  forallb (fun op => negb (is_register op)) ops = true ->
  let m' := manager (run_ops ops (step Dispose s)) in
  getAllStates m' = [] /\ (forall id, getState id m' = None) /\
  eventBuffer m' = [] /\
  nextEventId m' = nextEventId (manager s) /\ delivered m' = delivered (manager s).
Proof.
  intros Hops. cbv zeta.
  assert (forall s0, state (manager s0) = [] -> eventBuffer (manager s0) = [] ->
            state (manager (run_ops ops s0)) = [] /\
            eventBuffer (manager (run_ops ops s0)) = [] /\
            nextEventId (manager (run_ops ops s0)) = nextEventId (manager s0) /\
            delivered (manager (run_ops ops s0)) = delivered (manager s0)) as Hgen.
  { induction ops as [|op ops IH]; intros s0 Hst Hbuf; [done|].
    change (run_ops (op :: ops) s0) with (run_ops ops (step op s0)).
    cbn in Hops. apply andb_prop in Hops as [Hop Hops]. apply negb_true_iff in Hop.
    destruct (step_empty op s0 Hst Hbuf Hop) as (E1&E2&<-&<-). by apply IH. }
  destruct (Hgen (step Dispose s)) as (E1&E2&E3&E4).
  - cbn. unfold exec. rewrite dispose_run. cbn [fst]. unfold dispose_st.
    by rewrite abort_all_fields, clear_all_fields.
  - cbn. unfold exec. rewrite dispose_run. cbn [fst]. unfold dispose_st.
    by rewrite abort_all_fields, clear_all_fields.
  - unfold getAllStates, getState. rewrite E1, E2, E3, E4.
    destruct (step_subscribers_silent Dispose s eq_refl) as [-> ->]. done.
Qed.

Lemma disposed_manager_is_silent_witness :
  nextEventId (manager (run_ops [Progress 0 "late" None None; Settle 0 (Ok tt) 9]
                          (step Dispose (run_ops cancel_trace (boot no_options)))))
  = nextEventId (manager (run_ops cancel_trace (boot no_options))).
Proof.
  apply (disposed_manager_is_silent (run_ops cancel_trace (boot no_options))
           [Progress 0 "late" None None; Settle 0 (Ok tt) 9]).
  reflexivity.
Defined.

(** ** The state map *)

Lemma step_state op s :
  Inv (manager s) ->
  state_step op (maxHistory (manager s)) (state (manager s)) (state (manager (step op s))).
Proof.
  intros HI.
  assert (is_register op = false -> changes_subscribers op = false ->
          state (manager (step op s)) = state (manager s) \/
          exists id ns ids, is_Some (OMap.get id (state (manager s))) /\ state_id ns = id /\
            status ns ≠ pending /\ (maxHistory (manager s) = 0%nat -> ids = []) /\
            state (manager (step op s))
            = foldl (fun st id => OMap.delete id st) (OMap.set id ns (state (manager s))) ids)
    as Hw.
  { intros Hreg Hop.
    destruct (step_transition op s Hreg Hop)
      as [(_&_&_&_&?&_)|(_&_&_&_&id&ns&ids&?&?&?&?&?&_)]; [by left|].
    right. by exists id, ns, ids. }
  destruct op as [tid h o|tid|tid now|k msg cur tot|k outcome now|t now|cb|ref|];
    cbn [state_step]; try (by apply Hw).
  - simpl. unfold exec. rewrite register_exec. unfold register_st.
    destruct (bool_decide_reflect (is_Some (tasks (manager s) !! tid))) as [Hhas|Hno].
    + left. split; [|done]. by apply (inv_sync _ HI) in Hhas.
    + right. split; [|done]. destruct (OMap.get tid (state (manager s))) eqn:Hg; [|done].
      exfalso. apply Hno. apply (inv_sync _ HI). unfold getState. rewrite Hg. eauto.
  - done.
  - done.
  - simpl. unfold exec. rewrite dispose_run. cbn [fst]. unfold dispose_st.
    by rewrite abort_all_fields, clear_all_fields.
Qed.

Lemma Forall_omap_set {V} (P : string * V -> Prop) l k v :
  P (k, v) -> Forall P l -> Forall P (OMap.set k v l).
Proof.
  intros Hkv. induction 1 as [|[k' v'] l Hx Hl IH]; cbn; [by constructor|].
  destruct (decide (k' = k)); by constructor.
Qed.

Lemma Forall_omap_delete {V} (P : string * V -> Prop) l k :
  Forall P l -> Forall P (OMap.delete k l).
Proof.
  induction 1 as [|[k' v'] l Hx Hl IH]; cbn; [by constructor|].
  destruct (decide (k' = k)); [done|by constructor].
Qed.

Lemma Forall_omap_delete_list {V} (P : string * V -> Prop) l ids :
  Forall P l -> Forall P (foldl (fun st id => OMap.delete id st) l ids).
Proof.
  revert l. induction ids as [|id ids IH]; intros l H; cbn; [done|].
  by apply IH, Forall_omap_delete.
Qed.

Lemma keys_delete_list_sublist {V} (l : list (string * V)) ids :
  OMap.keys (foldl (fun st id => OMap.delete id st) l ids) `sublist_of` OMap.keys l.
Proof.
  revert l. induction ids as [|id ids IH]; intros l; cbn; [done|].
  etrans; [apply IH|]. rewrite keys_delete. apply sublist_filter.
Qed.

Lemma id_step op s : Inv (manager s) -> id_inv (manager s) -> id_inv (manager (step op s)).
Proof.
  intros HI H. pose proof (step_state op s HI) as Hst. unfold id_inv.
  assert (forall st', st' = state (manager s) \/
            (exists id ns ids, is_Some (OMap.get id (state (manager s))) /\ state_id ns = id /\
               status ns ≠ pending /\ (maxHistory (manager s) = 0%nat -> ids = []) /\
               st' = foldl (fun st id => OMap.delete id st)
                       (OMap.set id ns (state (manager s))) ids) ->
            Forall (fun p => state_id p.2 = p.1) st') as Hw.
  { intros st' [->|(id&ns&ids&_&Hid&_&_&->)]; [done|].
    by apply Forall_omap_delete_list, Forall_omap_set. }
  destruct op as [tid h o|tid|tid now|k msg cur tot|k outcome now|t now|cb|ref|];
    cbn [state_step] in Hst; try (by apply Hw).
  - destruct Hst as [[_ ->]|[_ ->]]; [done|]. by apply Forall_omap_set.
  - by rewrite Hst.
  - by rewrite Hst.
  - rewrite Hst. constructor.
Qed.

Lemma id_reachable options ops : id_inv (manager (run_ops ops (boot options))).
Proof.
  assert (forall s, Inv (manager s) -> id_inv (manager s) ->
            id_inv (manager (run_ops ops s))) as Hgen.
  { induction ops as [|op ops IH]; intros s HI H; [done|].
    change (run_ops (op :: ops) s) with (run_ops ops (step op s)).
    apply IH; [by apply Inv_step|by apply id_step]. }
  apply Hgen; [apply Inv_new|]. constructor.
Qed.

Lemma ids_keys m : id_inv m -> state_id <$> getAllStates m = OMap.keys (state m).
Proof.
  unfold id_inv, getAllStates, OMap.values, OMap.keys.
  induction 1 as [|[k v] l Hx Hl IH]; cbn; [done|]. cbn in Hx. by rewrite Hx, IH.
Qed.

(** X13. The states and their ids.  In every state the manager reaches,
    each stored state carries the id it is stored under, so [getState(id)]
    returns a state whose [id] is [id]; [getAllStates] lists one state for
    each registered task and none else, with no id twice; and an id has a
    state exactly when it is registered, which is exactly when [register] of
    that id throws. *)
Theorem states_carry_their_id options ops :
  let m := manager (run_ops ops (boot options)) in
  state_id <$> getAllStates m = OMap.keys (state m) /\
  NoDup (state_id <$> getAllStates m) /\
  (forall id s, getState id m = Some s <-> s ∈ getAllStates m /\ state_id s = id) /\
  (forall id, is_Some (getState id m) <-> is_Some (tasks m !! id)) /\
  (forall id h o, result (register id h o) m = Ok tt <-> getState id m = None).
Proof.
  cbv zeta. set (m := manager (run_ops ops (boot options))).
  pose proof (Inv_reachable options ops) as HI. fold m in HI.
  pose proof (id_reachable options ops) as Hid. fold m in Hid.
  pose proof (inv_nodup _ HI) as Hnd. pose proof (inv_sync _ HI) as Hsync.
  split_and!.
  - by apply ids_keys.
  - by rewrite ids_keys.
  - intros id s. unfold getState, getAllStates, OMap.values. split.
    + intros Hg%get_Some_elem. split.
      * apply list_elem_of_fmap. by exists (id, s).
      * unfold id_inv in Hid. rewrite Forall_forall in Hid. by apply (Hid (id, s)).
    + intros [[[k s'] [Heq Hin]]%list_elem_of_fmap <-]. cbn in Heq. subst s'.
      unfold id_inv in Hid. rewrite Forall_forall in Hid.
      pose proof (Hid (k, s) Hin) as Hk. cbn in Hk. rewrite Hk. by apply elem_get.
  - intros id. symmetry. apply Hsync.
  - intros id h o. unfold result, register, bind, gets, throw, modify.
    destruct (bool_decide_reflect (is_Some (tasks m !! id))) as [Hhas|Hno]; cbn.
    + split; [done|]. intros Hn. apply Hsync in Hhas. rewrite Hn in Hhas. by destruct Hhas.
    + split; [|done]. intros _. destruct (getState id m) eqn:Hg; [|done].
      exfalso. apply Hno, Hsync. eauto.
Qed.

Lemma states_carry_their_id_witness :
  result (register "B" 0%nat None) (manager (run_ops cancel_trace (boot no_options))) = Ok tt.
Proof.
  apply (states_carry_their_id no_options cancel_trace). vm_compute. reflexivity.
Defined.

(** X14. The order of the tasks.  From any state the manager reaches:
    [register] of a new id puts the task last in [getAllStates] and
    [register] of a known id changes nothing; no other operation adds a
    task or changes the order of the tasks, it can only remove some; and
    with eviction disabled no operation but disposal removes any. *)
Theorem tasks_keep_their_order options ops op :
  let s := run_ops ops (boot options) in
  let ids := state_id <$> getAllStates (manager s) in
  let ids' := state_id <$> getAllStates (manager (step op s)) in
  (forall id h o, op = Register id h o ->
     ids' = if bool_decide (id ∈ ids) then ids else ids ++ [id]) /\
  (is_register op = false -> ids' `sublist_of` ids) /\
  (is_register op = false -> op ≠ Dispose -> maxHistory (manager s) = 0%nat -> ids' = ids).
Proof.
  cbv zeta. set (s := run_ops ops (boot options)).
  pose proof (Inv_reachable options ops) as HI. fold s in HI.
  pose proof (id_reachable options ops) as Hid. fold s in Hid.
  pose proof (id_step op s HI Hid) as Hid'.
  rewrite !ids_keys by done.
  pose proof (step_state op s HI) as Hst.
  assert (forall st', st' = state (manager s) \/
            (exists id ns ids, is_Some (OMap.get id (state (manager s))) /\ state_id ns = id /\
               status ns ≠ pending /\ (maxHistory (manager s) = 0%nat -> ids = []) /\
               st' = foldl (fun st id => OMap.delete id st)
                       (OMap.set id ns (state (manager s))) ids) ->
            OMap.keys st' `sublist_of` OMap.keys (state (manager s)) /\
            (maxHistory (manager s) = 0%nat -> OMap.keys st' = OMap.keys (state (manager s))))
    as Hw.
  { intros st' [->|(id&ns&ids&Hsome&_&_&H0&->)]; [done|]. split.
    - etrans; [apply keys_delete_list_sublist|]. by rewrite keys_set_present.
    - intros HK. rewrite (H0 HK). cbn. by apply keys_set_present. }
  split_and!.
  - intros id h o ->. cbn [state_step] in Hst. destruct Hst as [[Hsome ->]|[Hnone ->]].
    + rewrite bool_decide_true; [done|]. destruct Hsome as [x Hx].
      apply (list_elem_of_fmap_2 fst _ (id, x)). by apply get_Some_elem.
    + rewrite bool_decide_false by by apply get_None_keys.
      by apply keys_set_absent.
  - intros Hop. destruct op as [tid h o|tid|tid now|k msg cur tot|k outcome now|t now|cb|ref|];
      try discriminate; cbn [state_step] in Hst;
      try (by apply Hw); rewrite Hst; [done..|]. apply sublist_nil_l.
  - intros Hop Hnd HK. destruct op as [tid h o|tid|tid now|k msg cur tot|k outcome now|t now|cb|ref|];
      try discriminate; cbn [state_step] in Hst;
      try (by apply Hw); by rewrite ?Hst.
Qed.

Lemma tasks_keep_their_order_witness :
  state_id <$> getAllStates (manager (step (Register "B" 0%nat None)
                                        (run_ops cancel_trace (boot no_options))))
  = if bool_decide ("B" ∈ state_id <$> getAllStates (manager (run_ops cancel_trace (boot no_options))))
    then state_id <$> getAllStates (manager (run_ops cancel_trace (boot no_options)))
    else (state_id <$> getAllStates (manager (run_ops cancel_trace (boot no_options)))) ++ ["B"].
Proof.
  by apply (tasks_keep_their_order no_options cancel_trace (Register "B" 0%nat None))
    with (h := 0%nat) (o := None).
Defined.

(** X15. [pending] is the initial status only.  From any state the manager
    reaches, a task that is pending after an operation was pending before
    it, or the operation registered it: no operation puts a task that has
    started back to [pending]. *)
Theorem pending_is_initial options ops op id :
  let s := run_ops ops (boot options) in
  status_of (getState id (manager (step op s))) = Some pending ->
  status_of (getState id (manager s)) = Some pending \/
  (getState id (manager s) = None /\ exists h o, op = Register id h o).
Proof.
  cbv zeta. set (s := run_ops ops (boot options)).
  pose proof (Inv_reachable options ops) as HI. fold s in HI.
  pose proof (step_state op s HI) as Hst. unfold getState.
  assert (forall st', st' = state (manager s) \/
            (exists id ns ids, is_Some (OMap.get id (state (manager s))) /\ state_id ns = id /\
               status ns ≠ pending /\ (maxHistory (manager s) = 0%nat -> ids = []) /\
               st' = foldl (fun st id => OMap.delete id st)
                       (OMap.set id ns (state (manager s))) ids) ->
            status_of (OMap.get id st') = Some pending ->
            status_of (OMap.get id (state (manager s))) = Some pending) as Hw.
  { intros st' [->|(k&ns&ids&_&_&Hnp&_&->)]; [done|].
    rewrite get_delete_list. destruct (bool_decide _); [done|].
    destruct (decide (k = id)) as [->|Hne].
    - rewrite get_set_eq. cbn. by intros [= ?].
    - by rewrite get_set_ne. }
  intros Hp. destruct op as [tid h o|tid|tid now|k msg cur tot|k outcome now|t now|cb|ref|];
    cbn [state_step] in Hst;
    try (left; by apply (Hw _ Hst)); try (left; by rewrite Hst in Hp).
  - destruct Hst as [[_ Heq]|[Hnone Heq]]; rewrite Heq in Hp; [by left|].
    destruct (decide (tid = id)) as [->|Hne].
    + right. split; [done|]. eauto.
    + left. by rewrite get_set_ne in Hp.
Qed.

Lemma pending_is_initial_witness :
  status_of (getState "B" (manager (run_ops [Register "A" 0%nat None] (boot no_options))))
  = Some pending \/
  (getState "B" (manager (run_ops [Register "A" 0%nat None] (boot no_options))) = None /\
   exists h o, Register "B" 0%nat None = Register "B" h o).
Proof.
  apply (pending_is_initial no_options [Register "A" 0%nat None] (Register "B" 0%nat None) "B").
  vm_compute. reflexivity.
Defined.

(** ** The replay buffer *)

Lemma ring_view_ids m :
  ring_inv m ->
  eventId <$> ring_view m
  = seqZ (nextEventId m - Z.of_nat (length (eventBuffer m)))
         (Z.of_nat (length (eventBuffer m))).
Proof.
  intros [_ _ Hids]. apply list_eq. intros i. rewrite list_lookup_fmap.
  destruct (ring_view m !! i) as [e|] eqn:He; cbn.
  - rewrite (Hids i e He). symmetry. apply lookup_seqZ. split; [done|].
    apply lookup_lt_Some in He. rewrite ring_view_length in He. lia.
  - symmetry. apply lookup_seqZ_ge.
    apply lookup_ge_None in He. rewrite ring_view_length in He. lia.
Qed.



(** X16. The replay buffer holds the latest events.  In every state the
    manager reaches the buffer holds at most [eventBufferSize] events, none
    when buffering is disabled; read from the oldest to the newest, their ids
    are consecutive and end at the current event id: the buffer holds the
    most recent events, each once, and misses none in between. *)
Theorem replay_buffer_holds_latest options ops :
  let m := manager (run_ops ops (boot options)) in
  (length (eventBuffer m) <= eventBufferSize m)%nat /\
  (eventBufferSize m = 0%nat -> eventBuffer m = []) /\
  (ringHead m < max 1 (length (eventBuffer m)))%nat /\
  eventId <$> ring_view m
  = seqZ (getCurrentEventId m - Z.of_nat (length (eventBuffer m)) + 1)
         (Z.of_nat (length (eventBuffer m))) /\
  (forall e, e ∈ eventBuffer m -> eventId e <= getCurrentEventId m).
Proof.
  cbv zeta. set (m := manager (run_ops ops (boot options))).
  pose proof (inv_ring _ (Inv_reachable options ops)) as Hring. fold m in Hring.
  pose proof Hring as [Hlen Hhead Hids].
  split_and!.
  - done.
  - intros Hz. rewrite Hz in Hlen. destruct (eventBuffer m); [done|cbn in Hlen; lia].
  - destruct Hhead as [->|[? ?]]; lia.
  - rewrite ring_view_ids by done. unfold getCurrentEventId. f_equal. lia.
  - intros e [i Hi]%elem_of_ring_view%list_elem_of_lookup.
    rewrite (Hids i e Hi). apply lookup_lt_Some in Hi. rewrite ring_view_length in Hi.
    unfold getCurrentEventId. lia.
Qed.

Lemma replay_buffer_holds_latest_witness :
  eventBuffer (manager (run_ops replay_trace (boot no_options))) = [].
Proof.
  apply (replay_buffer_holds_latest no_options replay_trace). vm_compute. reflexivity.
Defined.

(** What [getEventsSince] returns in the states the manager reaches. *)
Lemma getEventsSince_reachable m lastId :
  ring_inv m ->
  getEventsSince lastId m =
  (m, Ok (if (eventBufferSize m =? 0)%nat then None
          else if lastId <? nextEventId m - Z.of_nat (length (eventBuffer m)) - 1
               then (if (length (eventBuffer m) =? 0)%nat then Some [] else None)
               else Some (filter (fun e => lastId < eventId e) (ring_view m)))).
Proof.
  intros Hring. destruct (Nat.eqb_spec (eventBufferSize m) 0) as [Hz|Hsize].
  { unfold getEventsSince, bind, gets, ret. by rewrite Hz. }
  destruct (eventBuffer m) as [|e0 b] eqn:Hbuf.
  { unfold getEventsSince, bind, gets, ret.
    rewrite (proj2 (Nat.eqb_neq _ _) Hsize), Hbuf. cbn.
    unfold ring_view. rewrite Hbuf. cbn. rewrite drop_nil, take_nil. cbn.
    by destruct (lastId <? _). }
  assert (eventBuffer m ≠ []) as Hne by by rewrite Hbuf.
  destruct (getEventsSince_ring lastId m Hring Hsize Hne) as (o&Hhd&_&->).
  rewrite <- Hbuf.
  assert (eventId o = nextEventId m - Z.of_nat (length (eventBuffer m))) as ->.
  { destruct Hring as [_ _ Hids]. rewrite head_lookup in Hhd.
    rewrite (Hids 0%nat o Hhd). lia. }
  assert ((length (eventBuffer m) =? 0)%nat = false) as ->.
  { apply Nat.eqb_neq. rewrite Hbuf. cbn. lia. }
  done.
Qed.

(** ** The event stream *)




Lemma init_dump_ids m :
  (init_dump m).*1 = replicate (length (getAllStates m)) (getCurrentEventId m).
Proof.
  unfold init_dump. rewrite <- list_fmap_compose. by apply const_fmap.
Qed.



(** X18. A replay request is always answered.  In every state the manager
    reaches [getEventsSince] returns normally and leaves the manager as it
    was.  With buffering enabled, a request made while the buffer is empty,
    whatever the id, and a request with an id at or beyond the current event
    id are served with the empty sequence; the stream handler then sends no
    first frame, neither a replay nor the snapshot. *)
Theorem replay_request_is_always_answered options ops lastId :
  let m := manager (run_ops ops (boot options)) in
  (exists r, getEventsSince lastId m = (m, Ok r)) /\
  (eventBufferSize m ≠ 0%nat ->
   eventBuffer m = [] \/ getCurrentEventId m <= lastId ->
     getEventsSince lastId m = (m, Ok (Some [])) /\
     sse_start (Some lastId) m = (m, Ok [])).
Proof.
  cbv zeta. set (m := manager (run_ops ops (boot options))).
  pose proof (inv_ring _ (Inv_reachable options ops)) as Hring. fold m in Hring.
  split; [rewrite getEventsSince_reachable by done; eauto|].
  intros Hsize Hcase.
  assert (getEventsSince lastId m = (m, Ok (Some []))) as Hget.
  { rewrite getEventsSince_reachable by done.
    rewrite (proj2 (Nat.eqb_neq _ _) Hsize).
    destruct (eventBuffer m) as [|e0 b] eqn:Hbuf.
    { unfold ring_view. rewrite Hbuf. cbn. rewrite drop_nil, take_nil. cbn.
      by destruct (lastId <? _). }
    destruct Hcase as [?|Hcur]; [done|].
    assert (0 < length (eventBuffer m))%nat as Hpos by (rewrite Hbuf; cbn; lia).
    rewrite <- Hbuf.
    unfold getCurrentEventId in Hcur.
    rewrite (proj2 (Z.ltb_ge _ _)) by lia.
    rewrite filter_none; [done|]. apply Forall_forall.
    intros e [i Hi]%list_elem_of_lookup. destruct Hring as [_ _ Hids].
    rewrite (Hids i e Hi). apply lookup_lt_Some in Hi. rewrite ring_view_length in Hi. lia. }
  split; [done|]. by apply (sse_start_served lastId m []).
Qed.

Lemma replay_request_is_always_answered_witness :
  sse_start (Some 7) (manager (run_ops [Register "a" 0%nat None] (boot replay_options)))
  = (manager (run_ops [Register "a" 0%nat None] (boot replay_options)), Ok []).
Proof.
  apply (replay_request_is_always_answered replay_options [Register "a" 0%nat None] 7).
  - vm_compute. discriminate.
  - left. vm_compute. reflexivity.
Defined.

(** ** The options *)

Lemma options_step op s :
  debug (manager (step op s)) = debug (manager s) /\
  maxHistory (manager (step op s)) = maxHistory (manager s) /\
  eventBufferSize (manager (step op s)) = eventBufferSize (manager s).
Proof.
  destruct (is_register op) eqn:Hreg; [|destruct (changes_subscribers op) eqn:Hch].
  - destruct op as [tid h o|tid|tid now|k msg cur tot|k outcome now|t now|cb|ref0|];
      try discriminate. simpl. unfold exec. rewrite register_exec.
    unfold register_st. by destruct (bool_decide _).
  - destruct op as [tid h o|tid|tid now|k msg cur tot|k outcome now|t now|cb|ref0|];
      try discriminate; simpl; [done..|].
    unfold exec. rewrite dispose_run. cbn [fst]. unfold dispose_st.
    by rewrite abort_all_fields, clear_all_fields.
  - by destruct (step_transition op s Hreg Hch) as [(_&?&?&?&_)|(_&?&?&?&_)].
Qed.

(** X19. The options are fixed at construction.  [debug], [maxHistory] and
    [eventBufferSize] are what the constructor was given, with [false], [0]
    and [0] for what was left out, and no operation, disposal included,
    changes them. *)
Theorem options_are_fixed options ops :
  let m := manager (run_ops ops (boot options)) in
  debug m = default false (opt_debug options) /\
  maxHistory m = default 0%nat (opt_maxHistory options) /\
  eventBufferSize m = default 0%nat (opt_eventBufferSize options).
Proof.
  cbv zeta.
  assert (forall s, debug (manager (run_ops ops s)) = debug (manager s) /\
            maxHistory (manager (run_ops ops s)) = maxHistory (manager s) /\
            eventBufferSize (manager (run_ops ops s)) = eventBufferSize (manager s)) as Hgen.
  { induction ops as [|op ops IH]; intros s; [done|].
    change (run_ops (op :: ops) s) with (run_ops ops (step op s)).
    destruct (IH (step op s)) as (->&->&->). apply options_step. }
  apply (Hgen (boot options)).
Qed.

(** ** What a subscriber knows *)








(** ** Runs and their signals *)

Lemma tokens_le_trans m1 m2 m3 : tokens_le m1 m2 -> tokens_le m2 m3 -> tokens_le m1 m3.
Proof. intros H1 H2 id c H. by apply H1, H2. Qed.

Lemma tokens_le_core m m' : abortControllers m' = abortControllers m -> tokens_le m m'.
Proof. intros Heq id c. by rewrite Heq. Qed.

Lemma tokens_le_delete m m' k :
  abortControllers m' = delete k (abortControllers m) -> tokens_le m m'.
Proof. intros Heq id c. rewrite Heq. by intros [_ ?]%lookup_delete_Some. Qed.

Lemma tokens_le_setState taskId newState m : tokens_le m (setState_st taskId newState m).
Proof.
  intros id c. destruct (setState_st_maps taskId newState m id) as (_&->&_).
  by destruct (_ && _).
Qed.

Lemma tokens_le_clearTimeout taskId m : tokens_le m (clearTimeout_st taskId m).
Proof. apply tokens_le_core. by destruct (clearTimeout_st_fields taskId m) as (_&->&_). Qed.

Lemma length_abort_all (cs : list nat) (h : list bool) :
  length (foldl (fun h c => <[c := true]> h) h cs) = length h.
Proof.
  revert h. induction cs as [|c cs IH]; intros h; cbn; [done|].
  by rewrite IH, length_insert.
Qed.

(** What an operation other than [start] does to tokens and controllers. *)
Lemma step_tokens op s :
  (forall tid, op ≠ Start tid) ->
  tokens_le (manager s) (manager (step op s)) /\
  length (controllers (manager (step op s))) = length (controllers (manager s)) /\
  (aborts op = false -> controllers (manager (step op s)) = controllers (manager s)).
Proof.
  intros Hns.
  assert (forall m', abortControllers m' = abortControllers (manager s) ->
            controllers m' = controllers (manager s) ->
            tokens_le (manager s) m' /\
            length (controllers m') = length (controllers (manager s)) /\
            (aborts op = false -> controllers m' = controllers (manager s))) as Hsame.
  { intros m' Ha Hc. split; [by apply tokens_le_core|]. by rewrite Hc. }
  destruct op as [tid h o|tid|tid now|k msg cur tot|k outcome now|t now|cb|ref|]; simpl.
  - unfold exec. rewrite register_exec. unfold register_st.
    apply Hsame; by destruct (bool_decide _).
  - by destruct (Hns tid).
  - unfold exec. rewrite cancel_run. cbn [fst]. unfold cancel_st.
    destruct (abortControllers (manager s) !! tid) as [c|]; [|by apply Hsame].
    rewrite setState_st_controllers, clearTimeout_st_controllers. cbn.
    rewrite length_insert. split; [|done].
    eapply tokens_le_trans; [|apply tokens_le_setState].
    eapply tokens_le_trans; [|apply tokens_le_clearTimeout].
    by eapply tokens_le_delete.
  - destruct (runs s !! k) as [[r ?]|]; [|by apply Hsame]. simpl.
    unfold exec. rewrite ctx_progress_run. cbn [fst]. unfold ctx_progress_st.
    destruct (isStale r (manager s)); [by apply Hsame|].
    destruct (negb _); [by apply Hsame|].
    rewrite setState_st_controllers. split; [apply tokens_le_setState|done].
  - destruct (runs s !! k) as [[r []]|]; [by apply Hsame| |by apply Hsame]. simpl.
    unfold exec. rewrite runTask_run. cbn [fst]. unfold runTask_st. cbv zeta.
    set (m1 := if negb (isCanceled r (manager s)) && negb (isStale r (manager s))
               then _ else manager s).
    assert (tokens_le (manager s) m1 /\ controllers m1 = controllers (manager s)) as [H1 Hc1].
    { unfold m1.
      destruct (negb (isCanceled r (manager s)) && negb (isStale r (manager s)));
        [|split; [by apply tokens_le_core|done]].
      destruct outcome; rewrite setState_st_controllers; (split; [|done]).
      - apply tokens_le_setState.
      - eapply tokens_le_trans; [|apply tokens_le_setState]. by apply tokens_le_core. }
    destruct (negb (isStale r m1)); [|by rewrite Hc1].
    rewrite clearTimeout_st_controllers. cbn. rewrite Hc1. split; [|done].
    eapply tokens_le_trans; [exact H1|].
    eapply tokens_le_trans; [|apply tokens_le_clearTimeout].
    by eapply tokens_le_delete.
  - unfold exec. rewrite fire_timer_run. cbn [fst]. unfold fire_timer_st.
    destruct (timers (manager s) !! t) as [[tm|]|]; [|by apply Hsame..].
    unfold timeout_callback_st. destruct (negb _); [by apply Hsame|].
    rewrite setState_st_controllers. cbn [abortControllers with_timers].
    split; [|split; [|done]].
    + eapply tokens_le_trans; [|apply tokens_le_setState].
      destruct (abortControllers (manager s) !! timer_task tm);
        by eapply tokens_le_delete.
    + destruct (abortControllers (manager s) !! timer_task tm); cbn; [|done].
      by rewrite length_insert.
  - by apply (Hsame (exec (subscribe cb) (manager s))).
  - by apply (Hsame (exec (unsubscribe ref) (manager s))).
  - unfold exec. rewrite dispose_run. cbn [fst]. unfold dispose_st.
    rewrite abort_all_fields, clear_all_fields. cbn.
    rewrite length_abort_all. split; [|done]. intros id c. cbn. by rewrite lookup_empty.
Qed.

Lemma runs_step op s : runs_inv s -> runs_inv (step op s).
Proof.
  intros [Hlen Hctl Htok].
  assert ((exists tid, op = Start tid) \/ forall tid', op ≠ Start tid') as [[tid ->]|Hns].
  { destruct op; eauto; right; discriminate. }
  - simpl. rewrite start_run. unfold start_st, warn_st.
    assert (forall text, runs_inv
              (mkSystem (if debug (manager s)
                         then with_console (fun c => c ++ [Warn text]) (manager s)
                         else manager s) (runs s))) as Hwarn.
    { intros text. by split; destruct (debug (manager s)). }
    destruct (tasks (manager s) !! tid) as [task|]; [|apply Hwarn].
    destruct (OMap.get tid (state (manager s))) as [cur|] eqn:Hcur; [|apply Hwarn].
    destruct (bool_decide (status cur = running)); [apply Hwarn|].
    cbn [fst snd].
    destruct (launch_st_effect tid (manager s) task cur Hcur) as (_&_&_&_&_&Ha&_).
    split; cbn [manager runs].
    + rewrite launch_st_controllers, !length_app. cbn. lia.
    + intros k r b Hk. apply lookup_app_Some in Hk as [Hk|[Hge Hk]]; [by eapply Hctl|].
      destruct (k - length (runs s))%nat as [|n] eqn:Hn; [|by destruct n].
      injection Hk as <- <-. unfold launched. cbn. lia.
    + intros id c Hc. destruct (decide (id = tid)) as [->|Hne].
      * rewrite Ha in Hc. injection Hc as <-. unfold launched. cbn.
        eexists _, false. rewrite Hlen, lookup_app_r, Nat.sub_diag by lia. done.
      * assert (abortControllers (manager s) !! id = Some c) as Hc0.
        { revert Hc. unfold launch_st. cbv zeta.
          set (m1 := clearTimeout_st tid _).
          assert (abortControllers (setState_st tid
                    (Running tid (Some (mkProgress "Starting..." None None))) m1) !! id = Some c ->
                  abortControllers (manager s) !! id = Some c) as H.
          { intros H%tokens_le_setState%tokens_le_clearTimeout. cbn in H.
            by rewrite lookup_insert_ne in H. }
          by destruct (truthy (timeout task)). }
        destruct (Htok id c Hc0) as (r&b&Hr&Hid). exists r, b.
        split; [|done]. by apply lookup_app_l_Some.
  - destruct (step_tokens op s Hns) as (Ht&Hl&_).
    assert (length (runs (step op s)) = length (runs s) /\
            forall k r b, runs (step op s) !! k = Some (r, b) ->
              exists b', runs s !! k = Some (r, b')) as [Hrl Hr].
    { destruct op as [|tid| |k' ? ? ?|k' ? ?| | | |]; simpl; try (by eauto).
      - by destruct (Hns tid).
      - destruct (runs s !! k') as [[r' ?]|]; simpl; eauto.
      - destruct (runs s !! k') as [[r' []]|] eqn:Hk'; simpl; eauto.
        rewrite length_insert. split; [done|]. intros k r b Hk.
        destruct (decide (k = k')) as [->|Hne].
        + rewrite list_lookup_insert_eq in Hk by by eapply lookup_lt_Some.
          injection Hk as <- <-. eauto.
        + rewrite list_lookup_insert_ne in Hk by done. eauto. }
    split.
    + by rewrite Hl, Hrl.
    + intros k r b Hk. destruct (Hr k r b Hk) as [b' Hk']. by eapply Hctl.
    + intros id c Hc. destruct (Htok id c (Ht id c Hc)) as (r&b&Hrc&Hid).
      assert (exists b', runs (step op s) !! c = Some (r, b')) as [b' Hb'].
      { destruct op as [|tid| |k' ? ? ?|k' ? ?| | | |]; simpl; try (by eauto).
        - by destruct (Hns tid).
        - destruct (runs s !! k') as [[r' ?]|]; simpl; eauto.
        - destruct (runs s !! k') as [[r' []]|] eqn:Hk'; simpl; eauto.
          destruct (decide (c = k')) as [->|Hne].
          + rewrite list_lookup_insert_eq by by eapply lookup_lt_Some.
            rewrite Hk' in Hrc. injection Hrc as <- <-. eauto.
          + rewrite list_lookup_insert_ne by done. eauto. }
      eauto.
Qed.

Lemma runs_reachable options ops : runs_inv (run_ops ops (boot options)).
Proof.
  assert (forall s, runs_inv s -> runs_inv (run_ops ops s)) as Hgen.
  { induction ops as [|op ops IH]; intros s H; [done|].
    change (run_ops (op :: ops) s) with (run_ops ops (step op s)).
    by apply IH, runs_step. }
  apply Hgen. split; cbn; [done|by intros k r b|intros id c; by rewrite lookup_empty].
Qed.

(** X21. Each run has its own signal.  In every state the system reaches,
    the [k]-th run launched holds the [k]-th controller created, so no two
    runs share a signal, and the token stored for a task is the controller
    of a run of that task.  Hence [cancel(id)] aborts the signal of that run
    of [id] and leaves the signal of every other run, of [id] or of another
    task, as it was; and the operations that are neither [cancel], a timer
    firing, nor disposal change the signal of no run: in particular starting
    a task anew does not abort the signal of its earlier runs. *)
Theorem each_run_has_its_own_signal options ops :
  let s := run_ops ops (boot options) in
  (forall k r b, runs s !! k = Some (r, b) -> run_controller r = k) /\
  (forall id c, abortControllers (manager s) !! id = Some c ->
     exists r b, runs s !! c = Some (r, b) /\ run_task r = id /\
       forall now, isCanceled r (exec (cancel id now) (manager s)) = true) /\
  (forall id now k r b, runs s !! k = Some (r, b) ->
     abortControllers (manager s) !! id ≠ Some k ->
     isCanceled r (exec (cancel id now) (manager s)) = isCanceled r (manager s)) /\
  (forall op k r b, aborts op = false -> runs s !! k = Some (r, b) ->
     isCanceled r (manager (step op s)) = isCanceled r (manager s)).
Proof.
  cbv zeta. set (s := run_ops ops (boot options)).
  destruct (runs_reachable options ops) as [Hlen Hctl Htok]. fold s in Hlen, Hctl, Htok.
  assert (forall id now, controllers (exec (cancel id now) (manager s))
            = match abortControllers (manager s) !! id with
              | Some c => <[c := true]> (controllers (manager s))
              | None => controllers (manager s)
              end) as Hcancel.
  { intros id now. unfold exec. rewrite cancel_run. cbn [fst]. unfold cancel_st.
    destruct (abortControllers (manager s) !! id) as [c|]; [|done].
    by rewrite setState_st_controllers, clearTimeout_st_controllers. }
  split_and!.
  - done.
  - intros id c Hc. destruct (Htok id c Hc) as (r&b&Hr&Hid). exists r, b.
    split_and!; [done..|]. intros now. unfold isCanceled, aborted.
    rewrite Hcancel, Hc, (Hctl c r b Hr), list_lookup_insert_eq; [done|].
    rewrite Hlen. by eapply lookup_lt_Some.
  - intros id now k r b Hr Hne. unfold isCanceled, aborted.
    rewrite Hcancel, (Hctl k r b Hr).
    destruct (abortControllers (manager s) !! id) as [c|]; [|done].
    rewrite list_lookup_insert_ne; [done|]. congruence.
  - intros op k r b Hop Hr. unfold isCanceled, aborted. rewrite (Hctl k r b Hr).
    assert ((exists tid, op = Start tid) \/ forall tid', op ≠ Start tid') as [[tid ->]|Hns].
    { destruct op; eauto; right; discriminate. }
    + rewrite manager_step_start. unfold start_st, warn_st.
      destruct (tasks (manager s) !! tid) as [task|];
        [|cbn [fst]; by destruct (debug (manager s))].
      destruct (OMap.get tid (state (manager s))) as [cur|];
        [|cbn [fst]; by destruct (debug (manager s))].
      destruct (bool_decide (status cur = running));
        [cbn [fst]; by destruct (debug (manager s))|].
      cbn [fst]. rewrite launch_st_controllers.
      rewrite lookup_app_l; [done|]. rewrite Hlen. by eapply lookup_lt_Some.
    + destruct (step_tokens op s Hns) as (_&_&Hc). by rewrite Hc.
Qed.

Lemma each_run_has_its_own_signal_witness :
  run_controller (mkRun "A" 1 0) = 0%nat.
Proof.
  apply (each_run_has_its_own_signal no_options cancel_trace) with (b := false).
  vm_compute. reflexivity.
Defined.
